(** * The dataset download script, examples/download_sample_data.py

    A shallow embedding of the script that fetches the sample datasets:
    the progress bar ([Bar], [bar]), the streamed download with its
    clean-up handler ([_url_to_binary_write]), the archive dispatch
    ([_extract_downloaded_archive], [_unzip_7z]), the per-dataset driver
    ([_process_dataset], [_handle_special_cases], [_lidar_url_to_files])
    and the top-level loop ([main]).

    Python strings and byte strings are Rocq strings; the dictionary that
    describes a dataset is a record of optional fields; the process state
    (working directory, files on disk, what was printed, which external
    calls were made, the clock) is an explicit [World] that every
    operation threads through; an exception is a value returned next to
    the world it leaves behind.  Floating-point numbers are modelled as
    exact rationals. *)

From Stdlib Require Import ZArith QArith Qround Ascii DecimalString.
From stdpp Require Import base gmap strings list.


(** ** Python strings *)

Module PyStr.

Abbreviation chars := String.list_ascii_of_string.
Abbreviation of_chars := String.string_of_list_ascii.

(** [s.startswith(p)] and [s.endswith(p)]. *)
Definition startswith (s p : string) : bool :=
  bool_decide (take (length (chars p)) (chars s) = chars p).

Definition endswith (s p : string) : bool :=
  bool_decide (drop (length (chars s) - length (chars p)) (chars s) = chars p).

(** [needle in s]. *)
Fixpoint contains_chars (l needle : list ascii) : bool :=
  bool_decide (take (length needle) l = needle)
  || match l with
     | [] => false
     | _ :: l' => contains_chars l' needle
     end.

Definition contains (s needle : string) : bool :=
  contains_chars (chars s) (chars needle).

(** [s.replace(old, new)] for a non-empty [old]: every occurrence, scanning
    from the left, occurrences do not overlap.  [skip] counts the characters
    of an occurrence that are still to be dropped. *)
Fixpoint replace_chars (old new : list ascii) (skip : nat) (l : list ascii)
  : list ascii :=
  match l with
  | [] => []
  | c :: l' =>
      match skip with
      | S k => replace_chars old new k l'
      | O =>
          if bool_decide (take (length old) l = old)
          then new ++ replace_chars old new (length old - 1) l'
          else c :: replace_chars old new 0 l'
      end
  end.

Definition replace (s old new : string) : string :=
  of_chars (replace_chars (chars old) (chars new) 0 (chars s)).

(** [s.strip()]: white space removed at both ends.  A character stands for
    the code point of its number; below 256 [str.isspace] accepts 9 to 13,
    28 to 32, 133 and 160. *)
Definition is_space (c : ascii) : bool :=
  Ascii.is_space c || bool_decide (28 <= nat_of_ascii c <= 31)%nat
  || bool_decide (nat_of_ascii c = 133) || bool_decide (nat_of_ascii c = 160).

Fixpoint lstrip_chars (l : list ascii) : list ascii :=
  match l with
  | [] => []
  | c :: l' => if is_space c then lstrip_chars l' else l
  end.

Definition strip (s : string) : string :=
  of_chars (rev (lstrip_chars (rev (lstrip_chars (chars s))))).

(** [str(n)] and the [%i] conversion of an integer. *)
Definition of_Z (z : Z) : string := NilZero.string_of_int (Z.to_int z).

(** [c * n]: a string repeated; empty when [n] is not positive. *)
Definition repeat_str (c : string) (n : Z) : string :=
  of_chars (concat (replicate (Z.to_nat n) (chars c))).

(** [bool(s)]: a string is true when it is not empty. *)
Definition truthy (s : string) : bool :=
  match s with EmptyString => false | _ => true end.

End PyStr.

(** ** posixpath *)

Module PosixPath.

Import PyStr.

Definition slash : ascii := "/"%char.

(** The cut after the last slash: [(p[:i], p[i:])] with
    [i = p.rfind('/') + 1]. *)
Fixpoint cut (l : list ascii) : list ascii * list ascii :=
  match l with
  | [] => ([], [])
  | c :: l' =>
      let '(h, t) := cut l' in
      match h with
      | _ :: _ => (c :: h, t)
      | [] => if bool_decide (c = slash) then ([c], t) else ([], c :: t)
      end
  end.

Fixpoint lstrip_slashes (l : list ascii) : list ascii :=
  match l with
  | [] => []
  | c :: l' => if bool_decide (c = slash) then lstrip_slashes l' else l
  end.

(** [head.rstrip('/')] unless the head is made of slashes only. *)
Definition trim_head (h : list ascii) : list ascii :=
  match lstrip_slashes (rev h) with
  | [] => h
  | r => rev r
  end.

Definition split (p : string) : string * string :=
  let '(h, t) := cut (chars p) in (of_chars (trim_head h), of_chars t).

Definition basename (p : string) : string := of_chars (snd (cut (chars p))).

Definition dirname (p : string) : string :=
  of_chars (trim_head (fst (cut (chars p)))).

(** [join(a, b)]: an absolute [b] replaces [a]. *)
Definition join (a b : string) : string :=
  if startswith b "/" then b
  else if negb (truthy a) || endswith a "/" then a +:+ b
  else a +:+ "/" +:+ b.

Definition join3 (a b c : string) : string := join (join a b) c.

Definition isabs (p : string) : bool := startswith p "/".

End PosixPath.

(** ** Exceptions, the process state and the outside world *)

(** A raised exception: its class and its message. *)
Record Exn := Raise { exn_class : string; exn_msg : string }.

Definition KeyError (key : string) : Exn := Raise "KeyError" key.
Definition TypeError (msg : string) : Exn := Raise "TypeError" msg.
Definition ValueError (msg : string) : Exn := Raise "ValueError" msg.
Definition IndexError (msg : string) : Exn := Raise "IndexError" msg.
Definition ZeroDivisionError (msg : string) : Exn := Raise "ZeroDivisionError" msg.
Definition FileNotFoundError (path : string) : Exn := Raise "FileNotFoundError" path.
Definition FileExistsError (path : string) : Exn := Raise "FileExistsError" path.
Definition IsADirectoryError (path : string) : Exn := Raise "IsADirectoryError" path.
Definition OSError (msg : string) : Exn := Raise "OSError" msg.
Definition NotImplementedError (msg : string) : Exn := Raise "NotImplementedError" msg.
Definition UnboundLocalError (name : string) : Exn := Raise "UnboundLocalError" name.

(** What a path names on disk. *)
Inductive Node :=
| Dir
| File (content : string).

(** The calls that leave the process: an HTTP request, the unpacking of an
    archive. *)
Inductive Event :=
| EvGet (url : string)
| EvExtract (kind : string) (path : string).

(** The state of the process.  [fs] is keyed by the path as the process
    resolves it (joined to the working directory); [stdout] is what [print]
    wrote, [stream] what was written to [STREAM]; [ticks] counts the readings
    of the clock. *)
Record World := mkWorld {
  cwd : string;
  fs : gmap string Node;
  stdout : list string;
  stream : list string;
  trace : list Event;
  ticks : nat
}.

Definition set_cwd (d : string) (w : World) : World :=
  mkWorld d (fs w) (stdout w) (stream w) (trace w) (ticks w).
Definition set_fs (m : gmap string Node) (w : World) : World :=
  mkWorld (cwd w) m (stdout w) (stream w) (trace w) (ticks w).
Definition add_stdout (line : string) (w : World) : World :=
  mkWorld (cwd w) (fs w) (stdout w ++ [line]) (stream w) (trace w) (ticks w).
Definition add_stream (text : string) (w : World) : World :=
  mkWorld (cwd w) (fs w) (stdout w) (stream w ++ [text]) (trace w) (ticks w).
Definition add_trace (ev : Event) (w : World) : World :=
  mkWorld (cwd w) (fs w) (stdout w) (stream w) (trace w ++ [ev]) (ticks w).
Definition tick (w : World) : World :=
  mkWorld (cwd w) (fs w) (stdout w) (stream w) (trace w) (S (ticks w)).

(** An item of [resp.iter_content]: a chunk of bytes, or the failure of the
    transfer at that point. *)
Inductive StreamItem :=
| Chunk (data : string)
| StreamFail (e : Exn).

(** The [content-length] header as [int(resp.headers.get(...))] sees it. *)
Inductive Header :=
| HeaderMissing
| HeaderNotNumeric (value : string)
| HeaderInt (n : Z).

Record Response := mkResponse {
  content_length : Header;
  iter_content : list StreamItem
}.

(** The collaborators of the script: the clock, the terminal, the HTTP
    client, the archive codecs, the disk's file size limit and the
    interpreter. *)
Record Env := mkEnv {
  (** the n-th reading of [time.time()] *)
  wall : nat -> Q;
  (** [STREAM.isatty()] *)
  isatty : bool;
  (** [requests.get(url, stream=True)] *)
  requests_get : string -> Exn + Response;
  (** [tarfile.open(path, mode)] followed by [extractall()]: mode, archive
      path, working directory and disk in, disk out and the failure if any *)
  tar_extractall :
    string -> string -> string -> gmap string Node -> gmap string Node * option Exn;
  (** [zipfile.ZipFile(path)] followed by [extractall()] *)
  zip_extractall :
    string -> string -> gmap string Node -> gmap string Node * option Exn;
  (** [Archive7z(f)]: the members' names and their raw contents *)
  Archive7z : string -> Exn + list (string * string);
  (** [bytes.decode()] *)
  decode : string -> Exn + string;
  (** the largest file the disk accepts, in bytes *)
  max_file_size : nat;
  (** the message of the [TypeError] that [int(None)] raises, which differs
      from one interpreter to the next *)
  int_none_message : string
}.

(** ** Computations that change a state and may raise *)

Definition M (S A : Type) : Type := S -> S * (Exn + A).

Definition ret {S A} (a : A) : M S A := fun s => (s, inr a).
Definition raise {S A} (e : Exn) : M S A := fun s => (s, inl e).
Definition bind {S A B} (m : M S A) (k : A -> M S B) : M S B :=
  fun s => match m s with
           | (s', inl e) => (s', inl e)
           | (s', inr a) => k a s'
           end.
Definition gets {S A} (f : S -> A) : M S A := fun s => (s, inr (f s)).
Definition modify {S} (f : S -> S) : M S unit := fun s => (f s, inr tt).

(** [try: m  except: h; raise]: the handler runs on a failure of [m], and the
    failure is raised again unless the handler fails itself. *)
Definition on_error {S A} (m : M S A) (h : M S unit) : M S A :=
  fun s => match m s with
           | (s', inl e) =>
               match h s' with
               | (s'', inl e') => (s'', inl e')
               | (s'', inr _) => (s'', inl e)
               end
           | r => r
           end.

(** [with ctx: m] for a context whose [__exit__] returns a false value: the
    exit code runs on every way out of [m]. *)
Definition with_exit {S A} (m : M S A) (exit_ : M S unit) : M S A :=
  fun s => match m s with
           | (s', r) =>
               match exit_ s' with
               | (s'', inl e') => (s'', inl e')
               | (s'', inr _) => (s'', r)
               end
           end.

Declare Scope py_scope.
Delimit Scope py_scope with py.
Notation "x <- m ;; k" := (bind m (fun x => k))
  (at level 100, m at next level, right associativity) : py_scope.
Notation "m ;;; k" := (bind m (fun _ => k))
  (at level 100, right associativity) : py_scope.
Open Scope py_scope.

(** [for x in l: body x]: stops at the first failure. *)
Fixpoint for_each {S A} (l : list A) (body : A -> M S unit) : M S unit :=
  match l with
  | [] => ret tt
  | x :: l' => body x ;;; for_each l' body
  end.

(** ** The operating system *)

Section OS.

Context (E : Env).

Definition abspath (w : World) (p : string) : string := PosixPath.join (cwd w) p.

(** [os.path.exists(p)]; the empty path names nothing. *)
Definition path_exists (w : World) (p : string) : bool :=
  PyStr.truthy p && bool_decide (is_Some (fs w !! abspath w p)).

Definition exists_ (p : string) : M World bool := gets (fun w => path_exists w p).

Definition print (line : string) : M World unit := modify (add_stdout line).

Definition STREAM_write (text : string) : M World unit := modify (add_stream text).

Definition emit (ev : Event) : M World unit := modify (add_trace ev).

(** [time.time()] *)
Definition time_time : M World Q := fun w => (tick w, inr (wall E (ticks w))).

Definition os_getcwd : M World string := gets cwd.

(** [os.chdir(p)]: the model does not ask whether [p] is a directory; it is
    exact when [p] names an existing directory. *)
Definition os_chdir (p : string) : M World unit :=
  fun w => if PyStr.truthy p then (set_cwd (abspath w p) w, inr tt)
           else (w, inl (FileNotFoundError p)).

(** [os.mkdir(p)] and [os.makedirs(p)]: the model keeps no record of the
    ancestors of a path, so both add the one directory; they are exact when
    the directory that [p] lies in exists. *)
Definition os_mkdir (p : string) : M World unit :=
  fun w => if negb (PyStr.truthy p) then (w, inl (FileNotFoundError p))
           else match fs w !! abspath w p with
                | Some _ => (w, inl (FileExistsError p))
                | None => (set_fs (<[abspath w p := Dir]> (fs w)) w, inr tt)
                end.

Definition os_makedirs (p : string) : M World unit := os_mkdir p.

(** [os.remove(p)] *)
Definition os_remove (p : string) : M World unit :=
  fun w => if negb (PyStr.truthy p) then (w, inl (FileNotFoundError p))
           else match fs w !! abspath w p with
                | None => (w, inl (FileNotFoundError p))
                | Some Dir => (w, inl (IsADirectoryError p))
                | Some (File _) => (set_fs (delete (abspath w p) (fs w)) w, inr tt)
                end.

(** [open(p, 'wb')] and [open(p, 'w')]: the file is created or emptied; the
    handle is the resolved path.  The directory that [p] lies in is taken to
    exist. *)
Definition open_w (p : string) : M World string :=
  fun w => if negb (PyStr.truthy p) then (w, inl (FileNotFoundError p))
           else match fs w !! abspath w p with
                | Some Dir => (w, inl (IsADirectoryError p))
                | _ => (set_fs (<[abspath w p := File ""]> (fs w)) w, inr (abspath w p))
                end.

(** [f.write(data)] followed by [f.flush()]: the data is appended, unless the
    file would grow past what the disk accepts. *)
Definition f_write (handle data : string) : M World unit :=
  fun w => match fs w !! handle with
           | Some (File c) =>
               if bool_decide (String.length (c +:+ data) <= max_file_size E)%nat
               then (set_fs (<[handle := File (c +:+ data)]> (fs w)) w, inr tt)
               else (w, inl (OSError "File too large"))
           | _ => (w, inl (OSError "Bad file descriptor"))
           end.

(** [open(p, 'rb').read()] *)
Definition read_rb (p : string) : M World string :=
  fun w => if negb (PyStr.truthy p) then (w, inl (FileNotFoundError p))
           else match fs w !! abspath w p with
                | None => (w, inl (FileNotFoundError p))
                | Some Dir => (w, inl (IsADirectoryError p))
                | Some (File c) => (w, inr c)
                end.

End OS.

(** ** The progress bar *)

Definition ETA_INTERVAL : Q := 1.
Definition ETA_SMA_WINDOW : nat := 9.
Definition BAR_FILLED_CHAR : string := "#".
Definition BAR_EMPTY_CHAR : string := " ".

(** [l[-n:]] for a positive [n]: the last [n] elements. *)
Definition last_n {A} (n : nat) (l : list A) : list A := drop (length l - n) l.

(** [int(x)]: towards zero. *)
Definition Qtrunc (x : Q) : Z := Z.quot (Qnum x) (Z.pos (Qden x)).

(** [sum(l)] *)
Definition Qsum (l : list Q) : Q := fold_left Qplus l 0%Q.

Definition pad2 (n : Z) : string :=
  if (n <? 10)%Z then "0" +:+ PyStr.of_Z n else PyStr.of_Z n.

Definition CR : string := String (ascii_of_nat 13) "".
Definition LF : string := String (ascii_of_nat 10) "".

(** [BAR_TEMPLATE % (label, filled, empty, progress, expected, time)], the
    template being ['%s[%s%s] %i/%i - %s\r']. *)
Definition BAR_TEMPLATE (label filled empty : string) (progress : Z)
    (expected : Q) (disp : string) : string :=
  label +:+ "[" +:+ filled +:+ empty +:+ "] " +:+ PyStr.of_Z progress +:+ "/"
    +:+ PyStr.of_Z (Qtrunc expected) +:+ " - " +:+ disp +:+ CR.

Module Bar.

Record t := mk {
  label : string;
  width : Z;
  hide : bool;
  empty_char : string;
  filled_char : string;
  expected_size : option Q;
  every : Z;
  start : Q;
  ittimes : list Q;
  eta : Q;
  etadelta : Q;
  etadisp : string;
  last_progress : Z;
  elapsed : option Q
}.

Definition set_expected_size (v : option Q) (b : t) : t :=
  mk (label b) (width b) (hide b) (empty_char b) (filled_char b) v (every b)
     (start b) (ittimes b) (eta b) (etadelta b) (etadisp b) (last_progress b)
     (elapsed b).
Definition set_ittimes (v : list Q) (b : t) : t :=
  mk (label b) (width b) (hide b) (empty_char b) (filled_char b)
     (expected_size b) (every b) (start b) v (eta b) (etadelta b) (etadisp b)
     (last_progress b) (elapsed b).
Definition set_eta (v : Q) (b : t) : t :=
  mk (label b) (width b) (hide b) (empty_char b) (filled_char b)
     (expected_size b) (every b) (start b) (ittimes b) v (etadelta b)
     (etadisp b) (last_progress b) (elapsed b).
Definition set_etadelta (v : Q) (b : t) : t :=
  mk (label b) (width b) (hide b) (empty_char b) (filled_char b)
     (expected_size b) (every b) (start b) (ittimes b) (eta b) v (etadisp b)
     (last_progress b) (elapsed b).
Definition set_etadisp (v : string) (b : t) : t :=
  mk (label b) (width b) (hide b) (empty_char b) (filled_char b)
     (expected_size b) (every b) (start b) (ittimes b) (eta b) (etadelta b) v
     (last_progress b) (elapsed b).
Definition set_last_progress (v : Z) (b : t) : t :=
  mk (label b) (width b) (hide b) (empty_char b) (filled_char b)
     (expected_size b) (every b) (start b) (ittimes b) (eta b) (etadelta b)
     (etadisp b) v (elapsed b).
Definition set_elapsed (v : option Q) (b : t) : t :=
  mk (label b) (width b) (hide b) (empty_char b) (filled_char b)
     (expected_size b) (every b) (start b) (ittimes b) (eta b) (etadelta b)
     (etadisp b) (last_progress b) v.

(** A method runs on the object and the world. *)
Definition field {A} (f : t -> A) : M (t * World) A := gets (fun s => f (fst s)).
Definition upd (f : t -> t) : M (t * World) unit :=
  modify (fun s => (f (fst s), snd s)).
Definition io {A} (m : M World A) : M (t * World) A :=
  fun s => match m (snd s) with (w', r) => ((fst s, w'), r) end.

Section Methods.

Context (E : Env).

(** [time.strftime('%H:%M:%S', time.gmtime(seconds))], for a number of
    seconds that [gmtime] accepts. *)
Definition format_time (seconds : Q) : string :=
  let n := (Qfloor seconds mod 86400)%Z in
  pad2 (n / 3600) +:+ ":" +:+ pad2 ((n / 60) mod 60) +:+ ":" +:+ pad2 (n mod 60).

Definition show (progress : Z) (count : option Q) : M (t * World) unit :=
  match count with
  | Some c => upd (set_expected_size (Some c))
  | None => ret tt
  end ;;;
  size <- field expected_size ;;
  match size with
  | None => raise (Raise "Exception" "expected_size not initialized")
  | Some expected =>
      upd (set_last_progress progress) ;;;
      now <- io (time_time E) ;;
      since <- field etadelta ;;
      (if negb (Qle_bool (now - since) ETA_INTERVAL) then
         now1 <- io (time_time E) ;;
         upd (set_etadelta now1) ;;;
         now2 <- io (time_time E) ;;
         start_ <- field start ;;
         window <- field ittimes ;;
         (if (progress + 1 =? 0)%Z
          then raise (ZeroDivisionError "float division by zero")
          else ret tt) ;;;
         let samples :=
           last_n ETA_SMA_WINDOW window
             ++ [(- (start_ - now2) / inject_Z (progress + 1))%Q] in
         upd (set_ittimes samples) ;;;
         let eta_ :=
           (Qsum samples / inject_Z (Z.of_nat (length samples))
            * (expected - inject_Z progress))%Q in
         upd (set_eta eta_) ;;;
         upd (set_etadisp (format_time eta_))
       else ret tt) ;;;
      (if Qeq_bool expected 0
       then raise (ZeroDivisionError "float division by zero")
       else ret tt) ;;;
      self <- gets fst ;;
      let x := Qtrunc (inject_Z (width self * progress) / expected) in
      if hide self then ret tt
      else
        (if (every self =? 0)%Z
         then raise (ZeroDivisionError "integer modulo by zero")
         else ret tt) ;;;
        if (progress mod every self =? 0)%Z || Qeq_bool (inject_Z progress) expected
        then
          io (STREAM_write
                (BAR_TEMPLATE (label self)
                   (PyStr.repeat_str (filled_char self) x)
                   (PyStr.repeat_str (empty_char self) (width self - x))
                   progress expected (etadisp self)))
        else ret tt
  end.

Definition done : M (t * World) unit :=
  now <- io (time_time E) ;;
  start_ <- field start ;;
  let elapsed_ := (now - start_)%Q in
  upd (set_elapsed (Some elapsed_)) ;;;
  let elapsed_disp := format_time elapsed_ in
  self <- gets fst ;;
  if hide self then ret tt
  else
    match expected_size self with
    | None => raise (TypeError "%i format: a real number is required, not NoneType")
    | Some expected =>
        io (STREAM_write
              (BAR_TEMPLATE (label self)
                 (PyStr.repeat_str (filled_char self) (width self))
                 (PyStr.repeat_str (empty_char self) 0)
                 (last_progress self) expected elapsed_disp)) ;;;
        io (STREAM_write LF)
    end.

(** [Bar(label, width, hide, empty_char, filled_char, expected_size, every)] *)
Definition __init__ (label_ : string) (width_ : Z) (hide_ : option bool)
    (empty_char_ filled_char_ : string) (expected_size_ : option Q) (every_ : Z)
  : M World t :=
  let hidden := match hide_ with
                | Some h => h
                | None => negb (isatty E)
                end in
  start_ <- time_time E ;;
  etadelta_ <- time_time E ;;
  let self := mk label_ width_ hidden empty_char_ filled_char_ expected_size_
                 every_ start_ [] 0 etadelta_ (format_time 0) 0 None in
  let truthy := match expected_size_ with
                | Some n => negb (Qeq_bool n 0)
                | None => false
                end in
  if truthy
  then fun w => match show 0 None (self, w) with
                | (s', inl e) => (snd s', inl e)
                | (s', inr _) => (snd s', inr (fst s'))
                end
  else ret self.

End Methods.

End Bar.

(** ** The dataset descriptor *)

(** An entry of datasets.yml: each key may be absent. *)
Record Dataset := mkDataset {
  title : option string;
  url : option string;
  files : option (list string);
  tag : option string
}.

(** [dataset[key]] *)
Definition item {S} (key : string) (v : option string) : M S string :=
  match v with
  | Some x => ret x
  | None => raise (KeyError key)
  end.

(** [(title + ' {} of {}').format(i, n)].  Braces in the title belong to the
    format: a doubled brace stands for itself; any other brace opens a
    replacement field or is unbalanced, and with the two fields of the suffix
    and two arguments every such format fails.  Python tells these failures
    apart ([ValueError], [IndexError], [KeyError]); the model has the one
    [ValueError] for all of them. *)
Fixpoint unescape (l : list ascii) (pending : option ascii) : option (list ascii) :=
  match l with
  | [] => match pending with None => Some [] | Some _ => None end
  | c :: l' =>
      match pending with
      | Some b =>
          if bool_decide (c = b) then (b ::.) <$> unescape l' None else None
      | None =>
          if bool_decide (c = "{"%char) || bool_decide (c = "}"%char)
          then unescape l' (Some c)
          else (c ::.) <$> unescape l' None
      end
  end.

Definition title_format {S} (title_ : string) (i n : Z) : M S string :=
  match unescape (PyStr.chars title_) None with
  | Some l =>
      ret (PyStr.of_chars l +:+ " " +:+ PyStr.of_Z i +:+ " of " +:+ PyStr.of_Z n)
  | None => raise (ValueError "bad replacement field in the title")
  end.

(** ** The script *)

Section Script.

Context (E : Env).

(** [bar(it, expected_size=..., every=...)] driving the body of the [for]
    statement that consumes it.  The consumer's body runs while the generator
    is suspended at its [yield].  When the iterator or [show] fails inside
    the generator, [Bar.__exit__] calls [done] and lets the failure through.
    When the consumer's body fails, the [for] statement is left and the
    generator, which nothing else refers to, is closed at once: [GeneratorExit]
    is raised at the [yield], [Bar.__exit__] calls [done], and a failure of
    [done] in a generator that is being closed is reported and dropped; the
    consumer's failure goes on.  [bar_loop] returns [Some e] when the
    consumer's body failed with [e].  The iterable is the generator that
    [iter_content] returns: it has no [len], so the expected size must be
    given. *)
Fixpoint bar_loop (body : string -> M World unit) (i : Z) (it : list StreamItem)
  : M (Bar.t * World) (option Exn) :=
  match it with
  | [] => ret None
  | StreamFail e :: _ => raise e
  | Chunk item_ :: rest =>
      fun s =>
        match body item_ (snd s) with
        | (w', inl e) => ((fst s, w'), inr (Some e))
        | (w', inr _) =>
            (Bar.show E (i + 1) None ;;; bar_loop body (i + 1) rest) (fst s, w')
        end
  end.

Definition bar_run (it : list StreamItem) (body : string -> M World unit)
    (label_ : string) (width_ : Z) (hide_ : option bool)
    (expected_size_ : option Q) (every_ : Z)
  : World -> (option Bar.t * World) * (Exn + unit) :=
  fun w =>
    match expected_size_ with
    | None => ((None, w), inl (TypeError "object of type 'generator' has no len()"))
    | Some count =>
        match Bar.__init__ E label_ width_ hide_ BAR_EMPTY_CHAR BAR_FILLED_CHAR
                (Some count) every_ w with
        | (w1, inl e) => ((None, w1), inl e)
        | (w1, inr self) =>
            match bar_loop body 0 it (self, w1) with
            | ((b, w2), inr (Some e)) =>
                match Bar.done E (b, w2) with
                | ((b', w3), _) => ((Some b', w3), inl e)
                end
            | ((b, w2), r) =>
                match Bar.done E (b, w2) with
                | ((b', w3), inl e') => ((Some b', w3), inl e')
                | ((b', w3), inr _) =>
                    ((Some b', w3),
                     match r with inl e => inl e | inr _ => inr tt end)
                end
            end
        end
    end.

Definition bar (it : list StreamItem) (body : string -> M World unit)
    (expected_size_ : option Q) (every_ : Z) : M World unit :=
  fun w => match bar_run it body "" 32 None expected_size_ every_ w with
           | ((_, w'), r) => (w', r)
           end.

(** [int(resp.headers.get('content-length'))] *)
Definition int_header {S} (h : Header) : M S Z :=
  match h with
  | HeaderMissing => raise (TypeError (int_none_message E))
  | HeaderNotNumeric v => raise (ValueError v)
  | HeaderInt n => ret n
  end.

(** The expected size handed to the bar: [(total_length/1024) + 1], with the
    true division of [from __future__ import division]. *)
Definition expected_chunks (total_length : Z) : Q :=
  (inject_Z total_length / 1024 + 1)%Q.

(** The body of the [try] statement of [_url_to_binary_write]. *)
Definition write_response (resp : Response) (output_path : string) : M World unit :=
  f <- open_w output_path ;;
  total_length <- int_header (content_length resp) ;;
  bar (iter_content resp)
      (fun chunk => if PyStr.truthy chunk then f_write E f chunk else ret tt)
      (Some (expected_chunks total_length)) 1000.

(** The [except] clause: do not leave a half-written file. *)
Definition remove_partial (output_path : string) : M World unit :=
  present <- exists_ output_path ;;
  if present then os_remove output_path else ret tt.

Definition _url_to_binary_write (url_ output_path title_ : string) : M World unit :=
  print ("Downloading " +:+ title_) ;;;
  emit (EvGet url_) ;;;
  match requests_get E url_ with
  | inl e => raise e
  | inr resp =>
      on_error (write_response resp output_path) (remove_partial output_path)
  end.

(** An extractor of the standard library, run on the disk. *)
Definition run_codec
    (codec : string -> string -> gmap string Node -> gmap string Node * option Exn)
    (kind output_path : string) : M World unit :=
  emit (EvExtract kind output_path) ;;;
  fun w => match codec (abspath w output_path) (cwd w) (fs w) with
           | (m, Some e) => (set_fs m w, inl e)
           | (m, None) => (set_fs m w, inr tt)
           end.

(** One round of the loop of [_unzip_7z]. *)
Definition write_member (data_dir : string) (member : string * string)
  : M World unit :=
  let gnd := PosixPath.join data_dir (PosixPath.basename (fst member)) in
  present <- exists_ (PosixPath.dirname gnd) ;;
  (if negb present then os_mkdir (PosixPath.dirname gnd) else ret tt) ;;;
  f <- open_w gnd ;;
  match decode E (snd member) with
  | inl e => raise e
  | inr text => f_write E f text
  end.

Definition _unzip_7z (fname : string) : M World unit :=
  emit (EvExtract "7z" fname) ;;;
  arc <- on_error
           (raw <- read_rb fname ;;
            match Archive7z E raw with
            | inl e => raise e
            | inr members => ret members
            end)
           (print ("FAILED ON 7Z " +:+ fname)) ;;
  let data_dir := PosixPath.dirname fname in
  for_each arc (write_member data_dir).

Definition _extract_downloaded_archive (output_path : string) : M World unit :=
  (if PyStr.endswith output_path "tar.gz" then
     run_codec (tar_extractall E "r:gz") "r:gz" output_path
   else if PyStr.endswith output_path "tar" then
     run_codec (tar_extractall E "r:") "r:" output_path
   else if PyStr.endswith output_path "tar.bz2" then
     run_codec (tar_extractall E "r:bz2") "r:bz2" output_path
   else if PyStr.endswith output_path "zip" then
     run_codec (zip_extractall E) "zip" output_path
   else if PyStr.endswith output_path "7z" then
     _unzip_7z output_path
   else ret tt) ;;;
  os_remove output_path.

Definition _lidar_url_to_files (here url_ : string) (files_ : list string)
  : list string * list string * list string :=
  let urls := (fun f => PyStr.replace url_ ".html" ("/" +:+ PyStr.strip f)) <$> files_ in
  let compressed :=
    (fun fname => PosixPath.join3 here "data" (PosixPath.basename fname)) <$> files_ in
  let decompressed := (fun fname => PyStr.replace fname "7z" "gnd") <$> files_ in
  (urls, compressed, decompressed).

(** [enumerate(zip(urls, compressed, decompressed))] *)
Fixpoint enumerate_zip3 (idx : Z) (a b c : list string)
  : list (Z * (string * string * string)) :=
  match a, b, c with
  | x :: a', y :: b', z :: c' => (idx, (x, y, z)) :: enumerate_zip3 (idx + 1) a' b' c'
  | _, _, _ => []
  end.

Definition NOT_IMPLEMENTED : string :=
  "For a many-file dataset, see the example in the lidar dataset of datasets.yml and define a special case here if needed".

(** One round of the loop of [_handle_special_cases]. *)
Definition special_case_step (title_ : string) (n : Z)
    (unit_ : Z * (string * string * string)) : M World unit :=
  let '(idx, (url_, output_path, decompressed)) := unit_ in
  running_title <- title_format title_ (idx + 1) n ;;
  present <- exists_ decompressed ;;
  if present then print ("Skipping " +:+ running_title)
  else
    _url_to_binary_write url_ output_path running_title ;;;
    _extract_downloaded_archive output_path.

Definition _handle_special_cases (here : string) (dataset : Dataset) : M World unit :=
  tag_ <- item "tag" (tag dataset) ;;
  let files_ := default [] (files dataset) in
  url_ <- item "url" (url dataset) ;;
  title_ <- item "title" (title dataset) ;;
  if bool_decide (tag_ = "lidar") then
    let '(urls, compressed, decompressed) := _lidar_url_to_files here url_ files_ in
    for_each (enumerate_zip3 0 urls compressed decompressed)
             (special_case_step title_ (Z.of_nat (length urls)))
  else if PyStr.truthy tag_ then
    raise (NotImplementedError NOT_IMPLEMENTED)
  else
    raise (UnboundLocalError "srcs_targets").

(** The body of the [with DirectoryContext(output_dir)] statement. *)
Definition process_in_dir (dataset : Dataset) (here : string) : M World unit :=
  w <- gets id ;;
  let requires_download :=
    existsb (fun f => negb (path_exists w f)) (default [] (files dataset)) in
  if negb requires_download then
    title_ <- item "title" (title dataset) ;;
    print ("Skipping " +:+ title_)
  else
    if negb (PyStr.truthy (default "" (tag dataset))) then
      url_ <- item "url" (url dataset) ;;
      let output_path := snd (PosixPath.split url_) in
      title_ <- item "title" (title dataset) ;;
      _url_to_binary_write url_ output_path title_ ;;;
      _extract_downloaded_archive output_path
    else
      _handle_special_cases here dataset.

Definition _process_dataset (dataset : Dataset) (output_dir here : string)
  : M World unit :=
  present <- exists_ output_dir ;;
  (if negb present then os_makedirs output_dir else ret tt) ;;;
  (* DirectoryContext.__init__ *)
  old_dir <- os_getcwd ;;
  (* __enter__ *)
  os_chdir output_dir ;;;
  with_exit (process_in_dir dataset here) (os_chdir old_dir).

(** [main]: the manifest is the ordered mapping that [ordered_load] returns,
    [here] the directory of the script. *)
Definition main (here : string) (info : list (string * list Dataset)) : M World unit :=
  for_each info (fun entry =>
    let output_dir := PosixPath.join here (fst entry) in
    for_each (snd entry) (fun d => _process_dataset d output_dir here)).

End Script.

(** ** The vocabulary of the properties *)

(** A computation preserves a relation between the state before and the state
    after when every run, failed or not, is in the relation. *)
Definition preserves {S A} (P : S -> S -> Prop) (m : M S A) : Prop :=
  forall s s' r, m s = (s', r) -> P s s'.

(** Relations between worlds that the script's steps are checked against. *)
Definition same_cwd (w w' : World) : Prop := cwd w' = cwd w.

Definition same_dirs (w w' : World) : Prop :=
  cwd w' = cwd w /\ forall k, fs w' !! k = Some Dir <-> fs w !! k = Some Dir.

Definition same_disk (w w' : World) : Prop :=
  cwd w' = cwd w /\ fs w' = fs w /\ stdout w' = stdout w /\ trace w' = trace w.

(** The same for a method, which also carries its object. *)
Definition on_world (P : World -> World -> Prop) (s s' : Bar.t * World) : Prop :=
  P (snd s) (snd s').

(** A process starts in a directory named by an absolute path, and the
    script comes back to it. *)
Definition returns_home (w w' : World) : Prop :=
  PosixPath.isabs (cwd w) = true -> cwd w' = cwd w.

(** The world in which the [try] statement starts: the title has been
    printed and the request sent. *)
Definition announced (url_ title_ : string) (w : World) : World :=
  add_trace (EvGet url_) (add_stdout ("Downloading " +:+ title_) w).

(** The disk once the output directory of a dataset has been made sure of. *)
Definition with_output_dir (output_dir : string) (w : World) : gmap string Node :=
  if path_exists w output_dir then fs w
  else <[abspath w output_dir := Dir]> (fs w).

(** The world as seen from inside the output directory. *)
Definition inside (output_dir : string) (w : World) : World :=
  set_cwd (abspath w output_dir) w.

(** The world a skipped dataset leaves: the output directory exists and the
    skip has been printed; nothing else differs. *)
Definition skipped (output_dir title_ : string) (w : World) : World :=
  mkWorld (cwd w) (with_output_dir output_dir w)
    (stdout w ++ ["Skipping " +:+ title_]) (stream w) (trace w) (ticks w).

(** Nothing was transferred and nothing unpacked: no call left the process
    and no file was created, changed or removed. *)
Definition quiet (w w' : World) : Prop :=
  trace w' = trace w
  /\ forall k c, fs w' !! k = Some (File c) <-> fs w !! k = Some (File c).

(** A relation between the object before and after a method. *)
Definition on_obj (R : Bar.t -> Bar.t -> Prop) (s s' : Bar.t * World) : Prop :=
  R (fst s) (fst s').

(** The window of rate samples stays within a bound. *)
Definition window_within (n : nat) (b b' : Bar.t) : Prop :=
  (length (Bar.ittimes b) <= n -> length (Bar.ittimes b') <= n)%nat.

(** A caller that keeps calling [show], whether a call raised or not. *)
Definition show_all (E : Env) (calls : list (Z * option Q)) (s : Bar.t * World)
  : Bar.t * World :=
  fold_left (fun s c => fst (Bar.show E (fst c) (snd c) s)) calls s.

(** The number of chunks of 1024 bytes in a body of [n] bytes, as the
    specification counts them: [ceil(n / 1024)]. *)
Definition ceil_chunks (n : Z) : Z := ((n + 1023) / 1024)%Z.

(** Where [_unzip_7z] writes a member of the archive [fname]. *)
Definition destination (fname : string) (member : string * string) : string :=
  PosixPath.join (PosixPath.dirname fname) (PosixPath.basename (fst member)).

(** The same as the key of the disk, for a loop that runs in [data_dir]. *)
Definition member_key (w : World) (data_dir : string) (member : string * string)
  : string :=
  abspath w (PosixPath.join data_dir (PosixPath.basename (fst member))).

(** The disk differs at most at one key, and the working directory is the
    same. *)
Definition except_key (k : string) (w w' : World) : Prop :=
  cwd w' = cwd w /\ forall k', k' <> k -> fs w' !! k' = fs w !! k'.

(** The chunks of a body, one after the other. *)
Definition join_chunks (chunks : list string) : string :=
  foldr String.append "" chunks.

(** Nothing was written to [STREAM]. *)
Definition same_stream (w w' : World) : Prop := stream w' = stream w.

(** The lines that [_handle_special_cases] prints when it skips the units
    numbered from [idx + 1] on, one per file, out of [n]. *)
Fixpoint skip_lines (title_ : string) (n idx : Z) (files_ : list string)
  : list string :=
  match files_ with
  | [] => []
  | _ :: rest =>
      ("Skipping " +:+ title_ +:+ " " +:+ PyStr.of_Z (idx + 1) +:+ " of "
         +:+ PyStr.of_Z n) :: skip_lines title_ n (idx + 1) rest
  end.

(** The world after some more lines were printed. *)
Definition print_all (lines : list string) (w : World) : World :=
  mkWorld (cwd w) (fs w) (stdout w ++ lines) (stream w) (trace w) (ticks w).

(** Nothing on disk went away. *)
Definition keeps_paths (w w' : World) : Prop :=
  forall k, is_Some (fs w !! k) -> is_Some (fs w' !! k).

(** The endings that [_extract_downloaded_archive] tests for, in its order. *)
Definition archive_endings : list string := ["tar.gz"; "tar"; "tar.bz2"; "zip"; "7z"].

(** A file name without a directory part that is neither [.] nor [..]: what
    [path.split(url)[1]] is for a url that ends in the name of a file.  Such
    a name is looked up in the working directory itself. *)
Definition plain_name (name : string) : bool :=
  PyStr.truthy name && negb (PyStr.contains name "/")
  && negb (bool_decide (name = ".")) && negb (bool_decide (name = "..")).

(** ** Sample runs *)

Module Demo.

(** 1024 bytes that start like a zip file. *)
Definition kilobyte : string := "PK" +:+ PyStr.repeat_str "x" 1022.

Definition reset : Exn := Raise "ConnectionError" "Connection reset by peer".

(** A clock that advances two seconds at every reading, a terminal, a server
    with three pages, codecs that unpack one fixed member (the zip codec
    refuses what does not start with [PK]) and a disk that takes files of up
    to 4096 bytes. *)
Definition env : Env :=
  mkEnv
    (fun n => inject_Z (2 * Z.of_nat n))
    true
    (fun u =>
       if bool_decide (u = "http://x/dem.zip")
       then inr (mkResponse (HeaderInt 1024) [Chunk kilobyte])
       else if bool_decide (u = "http://x/cut.zip")
       then inr (mkResponse (HeaderInt 2048) [Chunk kilobyte; StreamFail reset])
       else inl (Raise "ConnectionError" u))
    (fun mode archive dir disk => (<[PosixPath.join dir "dem.tif" := File "tif"]> disk, None))
    (fun archive dir disk =>
       match disk !! archive with
       | Some (File (String "P" (String "K" _))) =>
           (<[PosixPath.join dir "dem.tif" := File "tif"]> disk, None)
       | _ => (disk, Some (Raise "BadZipFile" "File is not a zip file"))
       end)
    (fun raw => inr [("sub/notes.txt", raw)])
    (fun raw => inr raw)
    4096
    "int() argument must be a string, a bytes-like object or a real number, not 'NoneType'".

(** The same collaborators with the output piped: [STREAM] is no terminal. *)
Definition piped : Env :=
  mkEnv (wall env) false (requests_get env) (tar_extractall env)
    (zip_extractall env) (Archive7z env) (decode env) (max_file_size env)
    (int_none_message env).

(** A server that sends no [content-length]. *)
Definition headless : Env :=
  mkEnv (wall env) (isatty env)
    (fun _ => inr (mkResponse HeaderMissing [Chunk kilobyte]))
    (tar_extractall env) (zip_extractall env) (Archive7z env) (decode env)
    (max_file_size env) (int_none_message env).

(** A disk on which an earlier [dem.zip] and a neighbour already lie in the
    working directory. *)
Definition stale : World :=
  mkWorld "/home"
    (<["/" := Dir]>
       (<["/home" := Dir]>
          (<["/home/dem.zip" := File "old"]> (<["/home/notes" := File "keep"]> ∅))))
    [] [] [] 0.

(** Codecs that find nothing to read: the 7z archive cannot be parsed, and
    no member can be decoded. *)
Definition garbled : Exn := Raise "FormatError" "not a 7z file".
Definition undecodable : Exn := Raise "UnicodeDecodeError" "invalid start byte".

Definition unreadable : Env :=
  mkEnv (wall env) (isatty env) (requests_get env) (tar_extractall env)
    (zip_extractall env) (fun _ => inl garbled) (fun _ => inl undecodable)
    (max_file_size env) (int_none_message env).

(** The same collaborators with a clock that advances a tenth of a second
    at every reading. *)
Definition brisk : Env :=
  mkEnv (fun n => (Z.of_nat n # 10)%Q) (isatty env) (requests_get env)
    (tar_extractall env) (zip_extractall env) (Archive7z env) (decode env)
    (max_file_size env) (int_none_message env).

(** A 7z archive downloaded under its bare name. *)
Definition bare_archive : World :=
  mkWorld "/data/terrain" (<["/data/terrain/a.7z" := File "ground level"]> ∅)
    [] [] [] 0.

(** The same collaborators with a disk that takes 512 bytes per file. *)
Definition small_disk : Env :=
  mkEnv (wall env) (isatty env) (requests_get env) (tar_extractall env)
    (zip_extractall env) (Archive7z env) (decode env) 512 (int_none_message env).

Definition home : World := mkWorld "/home" ∅ [] [] [] 0.

(** A process in [/home] on a disk with the terrain files in place. *)
Definition ready : World :=
  mkWorld "/home"
    (<["/" := Dir]>
       (<["/home" := Dir]>
          (<["/data" := Dir]>
             (<["/data/terrain" := Dir]>
                (<["/data/terrain/dem.tif" := File "tif"]> ∅)))))
    [] [] [] 0.

Definition dem : Dataset :=
  mkDataset (Some "DEM") (Some "http://x/dem.zip") (Some ["dem.tif"]) None.

Definition cut : Dataset :=
  mkDataset (Some "Cut") (Some "http://x/cut.zip") (Some ["cut.tif"]) None.

(** Nine calls of [show], after the one of the constructor. *)
Definition nine_calls : list (Z * option Q) :=
  (fun p => (p, None)) <$> [1; 2; 3; 4; 5; 6; 7; 8; 9]%Z.

(** A downloaded lidar archive; the codec of [env] finds the one member
    [sub/notes.txt] in it. *)
Definition lidar : World :=
  mkWorld "/home"
    (<["/data" := Dir]> (<["/data/a.7z" := File "ground level"]> ∅))
    [] [] [] 0.

(** Two downloaded files that are no archives. *)
Definition plain : World :=
  mkWorld "/home"
    (<["/home/datazip" := File "plain text"]>
       (<["/home/archive.dat" := File "plain text"]> ∅))
    [] [] [] 0.

(** The lidar descriptor of the specification, with a title, and a topic
    directory in which the first of its two files is already unpacked. *)
Definition scans : Dataset :=
  mkDataset (Some "Lidar") (Some "http://x/index.html") (Some ["a.7z"; "b.7z"])
    (Some "lidar").

Definition half_done : World :=
  mkWorld "/data"
    (<["/data/lidar" := Dir]> (<["/data/lidar/a.gnd" := File "ground"]> ∅))
    [] [] [] 0.

(** The lidar topic with both files unpacked, seen from inside. *)
Definition unpacked : World :=
  mkWorld "/data/lidar"
    (<["/data/lidar/a.gnd" := File "ground"]>
       (<["/data/lidar/b.gnd" := File "ground"]> ∅))
    [] [] [] 0.

(** A lidar descriptor whose url is no page. *)
Definition listing : Dataset :=
  mkDataset (Some "Lidar") (Some "http://x/list") (Some ["a.7z"; "b.7z"])
    (Some "lidar").

(** Descriptors that need a download and lack a key, or name a directory. *)
Definition untitled : Dataset :=
  mkDataset None (Some "http://x/dem.zip") (Some ["dem.tif"]) None.

Definition slashed : Dataset :=
  mkDataset (Some "Slashed") (Some "http://x/dem.zip/") (Some ["dem.tif"]) None.

(** A server that answers every request with the kilobyte. *)
Definition generous : Env :=
  mkEnv (wall env) (isatty env)
    (fun _ => inr (mkResponse (HeaderInt 1024) [Chunk kilobyte]))
    (tar_extractall env) (zip_extractall env) (Archive7z env) (decode env)
    (max_file_size env) (int_none_message env).

(** A manifest whose second topic holds a transfer that is cut, between
    datasets that would go through. *)
Definition manifest : list (string * list Dataset) :=
  [("terrain", [dem]); ("census", [dem; cut; dem]); ("later", [dem])].

(** A disk on which every file of [("terrain", [dem]); ("census", [dem])] is
    in place. *)
Definition complete : World :=
  mkWorld "/data"
    (<["/data/terrain" := Dir]>
       (<["/data/terrain/dem.tif" := File "tif"]>
          (<["/data/census/dem.tif" := File "tif"]> ∅)))
    [] [] [] 0.

(** A many-file descriptor with a tag nobody handles. *)
Definition foo : Dataset :=
  mkDataset (Some "Foo") (Some "http://x/index.html") (Some ["a.7z"]) (Some "foo").

(** A descriptor without files, with a tag nobody handles. *)
Definition bare : Dataset :=
  mkDataset (Some "Bare") (Some "http://x/bare.zip") None (Some "foo").

End Demo.

(** * Properties *)

(** ** What a computation leaves as it was *)

Section Preserves.

Context {S : Type} (P : S -> S -> Prop) `{!PreOrder P}.

Lemma preserves_ret {A} (a : A) : preserves P (ret a).
Proof. intros s s' r [= <- _]. reflexivity. Qed.

Lemma preserves_raise {A} (e : Exn) : preserves P (@raise S A e).
Proof. intros s s' r [= <- _]. reflexivity. Qed.

Lemma preserves_gets {A} (f : S -> A) : preserves P (gets f).
Proof. intros s s' r [= <- _]. reflexivity. Qed.

Lemma preserves_modify (f : S -> S) :
  (forall s, P s (f s)) -> preserves P (modify f).
Proof. intros Hf s s' r [= <- _]. apply Hf. Qed.

Lemma preserves_bind {A B} (m : M S A) (k : A -> M S B) :
  preserves P m -> (forall a, preserves P (k a)) -> preserves P (bind m k).
Proof.
  intros Hm Hk s s' r. unfold bind.
  destruct (m s) as [s1 [e|a]] eqn:Hms; intros Hr.
  - injection Hr as <- _. eapply Hm, Hms.
  - transitivity s1; [eapply Hm, Hms | eapply Hk, Hr].
Qed.

Lemma preserves_on_error {A} (m : M S A) (h : M S unit) :
  preserves P m -> preserves P h -> preserves P (on_error m h).
Proof.
  intros Hm Hh s s' r. unfold on_error.
  destruct (m s) as [s1 [e|a]] eqn:Hms.
  - destruct (h s1) as [s2 [e'|u]] eqn:Hhs; intros [= <- _];
      (transitivity s1; [eapply Hm, Hms | eapply Hh, Hhs]).
  - intros [= <- _]. eapply Hm, Hms.
Qed.

Lemma preserves_for_each {A} (l : list A) (body : A -> M S unit) :
  (forall x, preserves P (body x)) -> preserves P (for_each l body).
Proof.
  intros Hb. induction l as [|x l IH]; simpl.
  - apply preserves_ret.
  - apply preserves_bind; [apply Hb | intros _; apply IH].
Qed.

End Preserves.


#[local] Instance same_cwd_preorder : PreOrder same_cwd.
Proof. split; unfold same_cwd; [intros w | intros a b c]; congruence. Qed.

#[local] Instance same_dirs_preorder : PreOrder same_dirs.
Proof.
  split.
  - intros w. split; [reflexivity | tauto].
  - intros a b c [H1 H2] [H3 H4]. split; [congruence |].
    intros k. rewrite H4. apply H2.
Qed.

#[local] Instance same_disk_preorder : PreOrder same_disk.
Proof.
  split.
  - intros w. repeat split.
  - intros a b c (? & ? & ? & ?) (? & ? & ? & ?). repeat split; congruence.
Qed.


#[local] Instance on_world_preorder P `{!PreOrder P} : PreOrder (on_world P).
Proof.
  split.
  - intros s. unfold on_world. reflexivity.
  - intros a b c. unfold on_world. apply transitivity.
Qed.

Lemma preserves_io {A} (P : World -> World -> Prop) (m : M World A) :
  preserves P m -> preserves (on_world P) (Bar.io m).
Proof.
  intros Hm s s' r. unfold Bar.io.
  destruct (m (snd s)) as [w' r'] eqn:Hms. intros [= <- _].
  unfold on_world. simpl. eapply Hm, Hms.
Qed.

Lemma preserves_upd (P : World -> World -> Prop) `{!PreOrder P} (f : Bar.t -> Bar.t) :
  preserves (on_world P) (Bar.upd f).
Proof. apply preserves_modify. intros s. unfold on_world. simpl. reflexivity. Qed.

Lemma preserves_field {A} (P : World -> World -> Prop) `{!PreOrder P}
    (f : Bar.t -> A) :
  preserves (on_world P) (Bar.field f).
Proof. apply preserves_gets. apply _. Qed.

(** Decomposition of a goal [preserves P m] along the shape of [m]. *)
Ltac preserves_step :=
  lazymatch goal with
  | |- preserves _ (bind _ _) =>
      apply preserves_bind; try (solve [apply _]); [ | intros ? ]
  | |- preserves _ (ret _) => apply preserves_ret; apply _
  | |- preserves _ (raise _) => apply preserves_raise; apply _
  | |- preserves _ (gets _) => apply preserves_gets; apply _
  | |- preserves _ (Bar.field _) => apply preserves_field; apply _
  | |- preserves _ (Bar.upd _) => apply preserves_upd; apply _
  | |- preserves _ (on_error _ _) =>
      apply preserves_on_error; try (solve [apply _])
  | |- preserves _ (for_each _ _) =>
      apply preserves_for_each; try (solve [apply _]); intros ?
  | |- preserves _ (if ?b then _ else _) => destruct b
  | |- preserves _ (match ?x with _ => _ end) => destruct x
  end.

Lemma preserves_weaken {S A} (P Q : S -> S -> Prop) (m : M S A) :
  (forall s s', P s s' -> Q s s') -> preserves P m -> preserves Q m.
Proof. intros HPQ Hm s s' r Hr. eapply HPQ, Hm, Hr. Qed.

Lemma same_disk_same_dirs w w' : same_disk w w' -> same_dirs w w'.
Proof. intros (Hc & Hf & _). split; [exact Hc | intros k; by rewrite Hf]. Qed.

Lemma same_dirs_same_cwd w w' : same_dirs w w' -> same_cwd w w'.
Proof. by intros [Hc _]. Qed.

Lemma same_disk_same_cwd w w' : same_disk w w' -> same_cwd w w'.
Proof. by intros [Hc _]. Qed.

(** ** The primitives *)

Section Primitives.

Context (E : Env).

Lemma time_time_same_disk : preserves same_disk (time_time E).
Proof. intros w w' r [= <- _]. by repeat split. Qed.

Lemma STREAM_write_same_disk text : preserves same_disk (STREAM_write text).
Proof. apply preserves_modify. intros w. by repeat split. Qed.

Lemma print_same_dirs line : preserves same_dirs (print line).
Proof. apply preserves_modify. intros w. by split. Qed.

Lemma emit_same_dirs ev : preserves same_dirs (emit ev).
Proof. apply preserves_modify. intros w. by split. Qed.

Lemma exists_same_disk p : preserves same_disk (exists_ p).
Proof. apply preserves_gets. apply _. Qed.

Lemma os_mkdir_same_cwd p : preserves same_cwd (os_mkdir p).
Proof.
  intros w w' r. unfold os_mkdir.
  destruct (negb (PyStr.truthy p)); [by intros [= <- _] |].
  destruct (fs w !! abspath w p); by intros [= <- _].
Qed.

Lemma os_remove_same_dirs p : preserves same_dirs (os_remove p).
Proof.
  intros w w' r. unfold os_remove.
  destruct (negb (PyStr.truthy p)); [intros [= <- _]; reflexivity |].
  destruct (fs w !! abspath w p) as [[|c]|] eqn:Hl; intros [= <- _];
    try reflexivity.
  split; [done |]. intros k. simpl.
  destruct (decide (k = abspath w p)) as [->|Hne].
  - rewrite lookup_delete_eq, Hl. split; discriminate.
  - by rewrite lookup_delete_ne.
Qed.

Lemma open_w_same_dirs p : preserves same_dirs (open_w p).
Proof.
  intros w w' r. unfold open_w.
  destruct (negb (PyStr.truthy p)); [intros [= <- _]; reflexivity |].
  assert (forall o : option Node, o <> Some Dir ->
            fs w !! abspath w p = o ->
            same_dirs w (set_fs (<[abspath w p := File ""]> (fs w)) w)) as Hins.
  { intros o Ho Hl. split; [done |]. intros k. simpl.
    destruct (decide (k = abspath w p)) as [->|Hne].
    - rewrite lookup_insert_eq, Hl. split; [discriminate | congruence].
    - by rewrite lookup_insert_ne. }
  destruct (fs w !! abspath w p) as [[|c]|] eqn:Hl; intros [= <- _].
  - reflexivity.
  - refine (Hins _ _ eq_refl). discriminate.
  - refine (Hins _ _ eq_refl). discriminate.
Qed.

Lemma f_write_same_dirs handle data : preserves same_dirs (f_write E handle data).
Proof.
  intros w w' r. unfold f_write.
  destruct (fs w !! handle) as [[|c]|] eqn:Hl; try (intros [= <- _]; reflexivity).
  case_bool_decide; intros [= <- _]; [| reflexivity].
  split; [done |]. intros k. simpl.
  destruct (decide (k = handle)) as [->|Hne].
  - rewrite lookup_insert_eq, Hl. split; discriminate.
  - by rewrite lookup_insert_ne.
Qed.

Lemma read_rb_same_disk p : preserves same_disk (read_rb p).
Proof.
  intros w w' r. unfold read_rb.
  destruct (negb (PyStr.truthy p)); [intros [= <- _]; reflexivity |].
  destruct (fs w !! abspath w p) as [[|c]|]; intros [= <- _]; reflexivity.
Qed.

(** ** The bar leaves the disk alone *)

Lemma show_same_disk progress count :
  preserves (on_world same_disk) (Bar.show E progress count).
Proof.
  unfold Bar.show.
  repeat first
    [ apply preserves_io; first [apply time_time_same_disk | apply STREAM_write_same_disk]
    | preserves_step ].
Qed.

Lemma done_same_disk : preserves (on_world same_disk) (Bar.done E).
Proof.
  unfold Bar.done.
  repeat first
    [ apply preserves_io; first [apply time_time_same_disk | apply STREAM_write_same_disk]
    | preserves_step ].
Qed.

Lemma init_same_disk label_ width_ hide_ ec fc size every_ :
  preserves same_disk (Bar.__init__ E label_ width_ hide_ ec fc size every_).
Proof.
  unfold Bar.__init__.
  apply preserves_bind; [apply _ | apply time_time_same_disk | intros start_].
  apply preserves_bind; [apply _ | apply time_time_same_disk | intros etadelta_].
  cbv zeta.
  match goal with |- preserves _ (if ?b then _ else _) => destruct b end.
  - intros w w' r.
    match goal with
    | |- context [Bar.show E 0 None ?s] =>
        destruct (Bar.show E 0 None s) as [s1 r1] eqn:Hshow
    end.
    apply show_same_disk in Hshow.
    destruct r1; intros [= <- _]; exact Hshow.
  - apply preserves_ret. apply _.
Qed.

End Primitives.

(** ** The script's functions and the working directory *)

Section ScriptPreserves.

Context (E : Env).

Section Generator.

Context (P : World -> World -> Prop) `{!PreOrder P}.
Context (HP : forall w w', same_disk w w' -> P w w').

Lemma bar_loop_preserves body i it :
  (forall c, preserves P (body c)) ->
  preserves (on_world P) (bar_loop E body i it).
Proof.
  intros Hbody. revert i. induction it as [|[c|e] rest IH]; intros i; simpl.
  - apply preserves_ret. apply _.
  - intros s s' r. destruct (body c (snd s)) as [w1 [e|u]] eqn:Hb.
    + intros [= <- _]. unfold on_world. simpl. eapply Hbody, Hb.
    + intros Hrest.
      assert (preserves (on_world P)
                (Bar.show E (i + 1) None ;;; bar_loop E body (i + 1) rest)) as Hk.
      { apply preserves_bind; [apply _ | | intros _; apply IH].
        eapply preserves_weaken; [| apply show_same_disk].
        intros a b. unfold on_world. apply HP. }
      apply Hk in Hrest. unfold on_world in *. simpl in *.
      transitivity w1; [eapply Hbody, Hb | exact Hrest].
  - apply preserves_raise. apply _.
Qed.

Lemma bar_run_preserves it body label_ width_ hide_ size every_ w ob w' r :
  (forall c, preserves P (body c)) ->
  bar_run E it body label_ width_ hide_ size every_ w = ((ob, w'), r) ->
  P w w'.
Proof.
  intros Hbody. unfold bar_run.
  destruct size as [count|]; [| intros [= _ <- _]; reflexivity].
  destruct (Bar.__init__ E label_ width_ hide_ BAR_EMPTY_CHAR BAR_FILLED_CHAR
              (Some count) every_ w) as [w1 [e|self]] eqn:Hinit.
  - intros [= _ <- _]. eapply HP, init_same_disk, Hinit.
  - assert (P w w1) as H1 by (eapply HP, init_same_disk, Hinit).
    destruct (bar_loop E body 0 it (self, w1)) as [[b w2] r2] eqn:Hloop.
    assert (P w1 w2) as H2
      by (apply (bar_loop_preserves _ _ _ Hbody) in Hloop; exact Hloop).
    assert (forall b3 w3 r3, Bar.done E (b, w2) = ((b3, w3), r3) -> P w w3) as Hdone.
    { intros b3 w3 r3 Hd. apply done_same_disk in Hd.
      transitivity w1; [exact H1 |]. transitivity w2; [exact H2 |].
      apply HP, Hd. }
    destruct r2 as [e|[e|]].
    + destruct (Bar.done E (b, w2)) as [[b3 w3] [e3|u3]] eqn:Hd;
        intros [= _ <- _]; exact (Hdone _ _ _ eq_refl).
    + destruct (Bar.done E (b, w2)) as [[b3 w3] r3] eqn:Hd.
      intros [= _ <- _]; exact (Hdone _ _ _ eq_refl).
    + destruct (Bar.done E (b, w2)) as [[b3 w3] [e3|u3]] eqn:Hd;
        intros [= _ <- _]; exact (Hdone _ _ _ eq_refl).
Qed.

Lemma bar_preserves it body size every_ :
  (forall c, preserves P (body c)) -> preserves P (bar E it body size every_).
Proof.
  intros Hbody w w' r. unfold bar.
  destruct (bar_run E it body "" 32 None size every_ w) as [[ob w1] r1] eqn:Hrun.
  intros [= <- _]. eapply bar_run_preserves; eauto.
Qed.

End Generator.

Lemma write_response_same_dirs resp output_path :
  preserves same_dirs (write_response E resp output_path).
Proof.
  unfold write_response.
  apply preserves_bind; [apply _ | apply open_w_same_dirs | intros f].
  apply preserves_bind; [apply _ | | intros total_length].
  { unfold int_header. repeat preserves_step. }
  apply bar_preserves; [apply _ | apply same_disk_same_dirs |].
  intros c. destruct (PyStr.truthy c); [apply f_write_same_dirs |].
  apply preserves_ret. apply _.
Qed.

Lemma remove_partial_same_dirs output_path :
  preserves same_dirs (remove_partial output_path).
Proof.
  unfold remove_partial.
  apply preserves_bind; [apply _ | | intros present].
  { eapply preserves_weaken; [apply same_disk_same_dirs | apply exists_same_disk]. }
  destruct present; [apply os_remove_same_dirs | apply preserves_ret; apply _].
Qed.

Lemma url_to_binary_write_same_dirs url_ output_path title_ :
  preserves same_dirs (_url_to_binary_write E url_ output_path title_).
Proof.
  unfold _url_to_binary_write.
  apply preserves_bind; [apply _ | apply print_same_dirs | intros _].
  apply preserves_bind; [apply _ | apply emit_same_dirs | intros _].
  destruct (requests_get E url_) as [e|resp]; [apply preserves_raise; apply _ |].
  apply preserves_on_error;
    [apply _ | apply write_response_same_dirs | apply remove_partial_same_dirs].
Qed.

(** The steps below only need the working directory. *)
Ltac to_cwd lem :=
  eapply preserves_weaken; [| apply lem];
  first [ exact same_dirs_same_cwd | exact same_disk_same_cwd ].

Lemma run_codec_same_cwd codec kind output_path :
  preserves same_cwd (run_codec codec kind output_path).
Proof.
  unfold run_codec.
  apply preserves_bind; [apply _ | to_cwd emit_same_dirs | intros _].
  intros w w' r.
  destruct (codec (abspath w output_path) (cwd w) (fs w)) as [m [e|]];
    by intros [= <- _].
Qed.

Lemma unzip_7z_same_cwd fname : preserves same_cwd (_unzip_7z E fname).
Proof.
  unfold _unzip_7z, write_member.
  repeat first
    [ to_cwd emit_same_dirs | to_cwd read_rb_same_disk | to_cwd print_same_dirs
    | to_cwd exists_same_disk | to_cwd open_w_same_dirs | to_cwd f_write_same_dirs
    | apply os_mkdir_same_cwd
    | preserves_step ].
Qed.

Lemma extract_same_cwd output_path :
  preserves same_cwd (_extract_downloaded_archive E output_path).
Proof.
  unfold _extract_downloaded_archive.
  apply preserves_bind; [apply _ | | intros _; to_cwd os_remove_same_dirs].
  repeat first
    [ apply run_codec_same_cwd | apply unzip_7z_same_cwd | preserves_step ].
Qed.

Lemma special_case_step_same_cwd title_ n unit_ :
  preserves same_cwd (special_case_step E title_ n unit_).
Proof.
  destruct unit_ as [idx [[url_ output_path] decompressed]].
  unfold special_case_step, title_format.
  repeat first
    [ to_cwd exists_same_disk | to_cwd print_same_dirs
    | to_cwd url_to_binary_write_same_dirs | apply extract_same_cwd
    | preserves_step ].
Qed.

Lemma handle_special_cases_same_cwd here dataset :
  preserves same_cwd (_handle_special_cases E here dataset).
Proof.
  unfold _handle_special_cases, item.
  repeat first [ apply special_case_step_same_cwd | preserves_step ].
Qed.

Lemma process_in_dir_same_cwd dataset here :
  preserves same_cwd (process_in_dir E dataset here).
Proof.
  unfold process_in_dir, item.
  repeat first
    [ to_cwd print_same_dirs | to_cwd url_to_binary_write_same_dirs
    | apply extract_same_cwd | apply handle_special_cases_same_cwd
    | preserves_step ].
Qed.

End ScriptPreserves.

(** ** The working directory is restored *)

#[local] Instance returns_home_preorder : PreOrder returns_home.
Proof.
  split.
  - intros w _. reflexivity.
  - intros a b c Hab Hbc Ha. unfold returns_home in *.
    rewrite Hbc; [auto | by rewrite Hab].
Qed.

Lemma isabs_truthy p : PosixPath.isabs p = true -> PyStr.truthy p = true.
Proof. by destruct p. Qed.

Lemma join_isabs a p : PosixPath.isabs p = true -> PosixPath.join a p = p.
Proof. unfold PosixPath.isabs, PosixPath.join. by intros ->. Qed.

Section WorkingDirectory.

Context (E : Env).

Lemma os_chdir_back old w w' r :
  PosixPath.isabs old = true ->
  os_chdir old w = (w', r) -> cwd w' = old.
Proof.
  intros Habs. unfold os_chdir. rewrite (isabs_truthy _ Habs).
  intros [= <- _]. simpl. unfold abspath. by apply join_isabs.
Qed.

Lemma process_dataset_returns_home dataset output_dir here :
  preserves returns_home (_process_dataset E dataset output_dir here).
Proof.
  intros w w' r Hrun Habs. revert Hrun. unfold _process_dataset.
  unfold bind at 1. unfold exists_ at 1, gets at 1.
  unfold bind at 1.
  destruct ((if negb (path_exists w output_dir)
             then os_makedirs output_dir else ret tt) w) as [w1 [e|u]] eqn:Hmk.
  { intros [= <- _].
    destruct (negb (path_exists w output_dir)).
    - eapply os_mkdir_same_cwd, Hmk.
    - by injection Hmk as <- _. }
  assert (cwd w1 = cwd w) as Hw1.
  { destruct (negb (path_exists w output_dir)).
    - eapply os_mkdir_same_cwd, Hmk.
    - by injection Hmk as <- _. }
  unfold bind at 1. unfold os_getcwd at 1, gets at 1.
  unfold bind at 1.
  destruct (os_chdir output_dir w1) as [w2 [e|u2]] eqn:Hcd.
  { intros [= <- _]. revert Hcd. unfold os_chdir.
    destruct (PyStr.truthy output_dir); intros [= <-]; done. }
  unfold with_exit.
  destruct (process_in_dir E dataset here w2) as [w3 r3] eqn:Hbody.
  rewrite Hw1.
  destruct (os_chdir (cwd w) w3) as [w4 r4] eqn:Hexit.
  pose proof (os_chdir_back _ _ _ _ Habs Hexit) as Hback.
  destruct r4; by intros [= <- _].
Qed.

(** C9.  Whatever a dataset's processing does, return or raise, the world it
    leaves has the working directory the process was in before. *)
Theorem process_dataset_restores_cwd dataset output_dir here w :
  PosixPath.isabs (cwd w) = true ->
  cwd (fst (_process_dataset E dataset output_dir here w)) = cwd w.
Proof.
  intros Habs.
  destruct (_process_dataset E dataset output_dir here w) as [w' r] eqn:Hrun.
  exact (process_dataset_returns_home _ _ _ _ _ _ Hrun Habs).
Qed.

(** The same for the whole run: [main] ends where it started, also when a
    dataset stops it. *)
Lemma main_returns_home here info : preserves returns_home (main E here info).
Proof.
  unfold main.
  apply preserves_for_each; [apply _ | intros [topic downloads]].
  apply preserves_for_each; [apply _ | intros d].
  apply process_dataset_returns_home.
Qed.

End WorkingDirectory.

(** A run of C9 that raises: the transfer of [Demo.cut] is interrupted, the
    failure reaches the caller, and the process is back in [/home]. *)
Lemma process_dataset_restores_cwd_witness :
  cwd (fst (_process_dataset Demo.env Demo.cut "/data/terrain" "/data" Demo.home))
    = "/home"
  /\ snd (_process_dataset Demo.env Demo.cut "/data/terrain" "/data" Demo.home)
    = inl Demo.reset.
Proof.
  split.
  - exact (process_dataset_restores_cwd Demo.env Demo.cut "/data/terrain" "/data"
             Demo.home eq_refl).
  - vm_compute. reflexivity.
Defined.

(** ** No partial file survives a failed transfer *)

Lemma path_exists_true w p :
  path_exists w p = true ->
  PyStr.truthy p = true /\ is_Some (fs w !! abspath w p).
Proof.
  unfold path_exists. intros [Ht Hl]%andb_true_iff.
  split; [exact Ht | by apply bool_decide_eq_true in Hl].
Qed.

Lemma path_exists_deleted w p :
  path_exists (set_fs (delete (abspath w p) (fs w)) w) p = false.
Proof.
  unfold path_exists, abspath. simpl. rewrite lookup_delete_eq.
  apply andb_false_iff. right. apply bool_decide_eq_false. by intros [x Hx].
Qed.

Section Download.

Context (E : Env).

Lemma url_to_binary_write_unfold url_ output_path title_ resp w :
  requests_get E url_ = inr resp ->
  _url_to_binary_write E url_ output_path title_ w
  = on_error (write_response E resp output_path) (remove_partial output_path)
      (announced url_ title_ w).
Proof.
  intros Hget. unfold _url_to_binary_write, bind, print, emit, modify.
  by rewrite Hget.
Qed.

(** The [except] clause after a failure of the [try] body. *)
Lemma remove_partial_after w1 output_path :
  fs w1 !! abspath w1 output_path <> Some Dir ->
  exists w2, remove_partial output_path w1 = (w2, inr tt)
             /\ path_exists w2 output_path = false.
Proof.
  intros Hnodir. unfold remove_partial, bind, exists_, gets.
  destruct (path_exists w1 output_path) eqn:Hex.
  - destruct (path_exists_true _ _ Hex) as [Ht [node Hnode]].
    unfold os_remove. rewrite Ht, Hnode. simpl.
    destruct node as [|c]; [congruence |].
    eexists. split; [reflexivity | apply path_exists_deleted].
  - exists w1. by split.
Qed.

(** C1.  When the body of the [try] statement (opening the file, reading the
    length, the chunk-write loop) fails with [e] after the response was
    opened, and the output path does not name a directory, the download
    fails with the same [e] and the output path names nothing afterwards. *)
Theorem url_to_binary_write_cleans_up url_ output_path title_ resp w e :
  requests_get E url_ = inr resp ->
  fs w !! abspath w output_path <> Some Dir ->
  snd (write_response E resp output_path (announced url_ title_ w)) = inl e ->
  snd (_url_to_binary_write E url_ output_path title_ w) = inl e
  /\ path_exists (fst (_url_to_binary_write E url_ output_path title_ w))
       output_path = false.
Proof.
  intros Hget Hnodir Hfail.
  rewrite (url_to_binary_write_unfold _ _ _ _ _ Hget). unfold on_error.
  destruct (write_response E resp output_path (announced url_ title_ w))
    as [w1 r1] eqn:Hbody.
  simpl in Hfail. subst r1.
  destruct (write_response_same_dirs E _ _ _ _ _ Hbody) as [Hcwd Hdirs].
  destruct (remove_partial_after w1 output_path) as (w2 & -> & Hgone).
  { unfold abspath. rewrite Hcwd. simpl. fold (abspath w output_path).
    intros Hd. apply Hdirs in Hd. simpl in Hd. contradiction. }
  by split.
Qed.

End Download.

(** A run of C1: the server sends one chunk of [cut.zip] and the connection
    is reset; the caller sees the reset and [cut.zip] is not on disk. *)
Lemma url_to_binary_write_cleans_up_witness :
  snd (_url_to_binary_write Demo.env "http://x/cut.zip" "cut.zip" "Cut" Demo.home)
    = inl Demo.reset
  /\ path_exists
       (fst (_url_to_binary_write Demo.env "http://x/cut.zip" "cut.zip" "Cut" Demo.home))
       "cut.zip" = false.
Proof.
  apply (url_to_binary_write_cleans_up Demo.env "http://x/cut.zip" "cut.zip" "Cut"
           (mkResponse (HeaderInt 2048) [Chunk Demo.kilobyte; StreamFail Demo.reset])
           Demo.home Demo.reset).
  - reflexivity.
  - vm_compute. discriminate.
  - vm_compute. reflexivity.
Defined.

(** ** Satisfied datasets are skipped *)

Lemma path_exists_with_output_dir w output_dir f :
  path_exists (inside output_dir w) f = true ->
  path_exists
    (set_cwd (abspath w output_dir) (set_fs (with_output_dir output_dir w) w)) f
  = true.
Proof.
  unfold with_output_dir. destruct (path_exists w output_dir); [by destruct w |].
  unfold inside, path_exists, abspath. simpl.
  intros [Ht Hl]%andb_true_iff. apply bool_decide_eq_true in Hl.
  apply andb_true_iff. split; [exact Ht |]. apply bool_decide_eq_true.
  rewrite lookup_insert. case_decide; [by eexists | exact Hl].
Qed.

Lemma existsb_all_present w l :
  Forall (fun f => path_exists w f = true) l ->
  existsb (fun f => negb (path_exists w f)) l = false.
Proof.
  induction 1 as [|f l Hf _ IH]; simpl; [reflexivity |]. by rewrite Hf, IH.
Qed.

Section Skip.

Context (E : Env).

Lemma process_in_dir_skip dataset here title_ w :
  title dataset = Some title_ ->
  Forall (fun f => path_exists w f = true) (default [] (files dataset)) ->
  process_in_dir E dataset here w = (add_stdout ("Skipping " +:+ title_) w, inr tt).
Proof.
  intros Htitle Hall. unfold process_in_dir, bind, gets. simpl.
  rewrite (existsb_all_present _ _ Hall). simpl. by rewrite Htitle.
Qed.

Lemma ensure_output_dir output_dir w :
  PyStr.truthy output_dir = true ->
  (if negb (path_exists w output_dir) then os_makedirs output_dir else ret tt) w
  = (set_fs (with_output_dir output_dir w) w, inr tt).
Proof.
  intros Ht. unfold with_output_dir.
  destruct (path_exists w output_dir) eqn:Hex; simpl; [by destruct w |].
  unfold os_makedirs, os_mkdir. rewrite Ht. simpl.
  unfold path_exists in Hex. rewrite Ht in Hex. simpl in Hex.
  apply bool_decide_eq_false in Hex.
  destruct (fs w !! abspath w output_dir) eqn:Hl; [| reflexivity].
  exfalso. apply Hex. by eexists.
Qed.

Lemma process_dataset_skip dataset output_dir here title_ w :
  PosixPath.isabs (cwd w) = true ->
  PyStr.truthy output_dir = true ->
  title dataset = Some title_ ->
  Forall (fun f => path_exists (inside output_dir w) f = true)
         (default [] (files dataset)) ->
  _process_dataset E dataset output_dir here w
  = (skipped output_dir title_ w, inr tt).
Proof.
  intros Habs Hout Htitle Hall.
  unfold _process_dataset. unfold bind at 1. unfold exists_ at 1, gets at 1.
  unfold bind at 1. rewrite (ensure_output_dir _ _ Hout).
  unfold bind at 1. unfold os_getcwd at 1, gets at 1.
  unfold bind at 1. unfold os_chdir at 1. rewrite Hout.
  unfold with_exit.
  rewrite (process_in_dir_skip _ _ _ _ Htitle).
  - unfold os_chdir. simpl. rewrite (isabs_truthy _ Habs).
    unfold abspath. simpl. rewrite (join_isabs _ _ Habs).
    reflexivity.
  - eapply Forall_impl; [exact Hall |]. intros f.
    exact (path_exists_with_output_dir w output_dir f).
Qed.

Lemma inside_skipped output_dir title_ w f :
  path_exists (inside output_dir w) f = true ->
  path_exists (inside output_dir (skipped output_dir title_ w)) f = true.
Proof. exact (path_exists_with_output_dir w output_dir f). Qed.

Lemma with_output_dir_again output_dir title_ w :
  PyStr.truthy output_dir = true ->
  with_output_dir output_dir (skipped output_dir title_ w)
  = with_output_dir output_dir w.
Proof.
  intros Ht. unfold with_output_dir at 1.
  assert (path_exists (skipped output_dir title_ w) output_dir = true) as ->;
    [| reflexivity].
  unfold path_exists at 1. rewrite Ht. simpl. apply bool_decide_eq_true.
  unfold skipped, abspath. simpl. unfold with_output_dir.
  destruct (path_exists w output_dir) eqn:Hex.
  - by destruct (path_exists_true _ _ Hex).
  - rewrite lookup_insert_eq. by eexists.
Qed.

Lemma with_output_dir_files output_dir w k c :
  PyStr.truthy output_dir = true ->
  with_output_dir output_dir w !! k = Some (File c) <-> fs w !! k = Some (File c).
Proof.
  intros Ht. unfold with_output_dir.
  destruct (path_exists w output_dir) eqn:Hex; [tauto |].
  rewrite lookup_insert. case_decide as Hk; [| tauto]. subst k.
  split; [discriminate |]. intros Hl. exfalso.
  unfold path_exists in Hex. rewrite Ht in Hex. simpl in Hex.
  apply bool_decide_eq_false in Hex. apply Hex. by eexists.
Qed.

Lemma quiet_refl w : quiet w w.
Proof. split; [reflexivity | tauto]. Qed.

Lemma process_in_dir_present dataset here w w' r :
  Forall (fun f => path_exists w f = true) (default [] (files dataset)) ->
  process_in_dir E dataset here w = (w', r) ->
  fs w' = fs w /\ trace w' = trace w.
Proof.
  intros Hall. unfold process_in_dir, bind, gets. simpl.
  rewrite (existsb_all_present _ _ Hall). simpl.
  destruct (title dataset) as [t|]; simpl; by intros [= <- _].
Qed.

Lemma os_chdir_disk p w w' r :
  os_chdir p w = (w', r) -> fs w' = fs w /\ trace w' = trace w.
Proof. unfold os_chdir. destruct (PyStr.truthy p); by intros [= <- _]. Qed.

(** Whatever else goes wrong (no title, no directory to enter), a dataset
    whose files are all present causes no transfer and no unpacking. *)
Lemma process_dataset_quiet dataset output_dir here w :
  Forall (fun f => path_exists (inside output_dir w) f = true)
         (default [] (files dataset)) ->
  quiet w (fst (_process_dataset E dataset output_dir here w)).
Proof.
  intros Hall.
  unfold _process_dataset. unfold bind at 1. unfold exists_ at 1, gets at 1.
  unfold bind at 1.
  destruct (PyStr.truthy output_dir) eqn:Hout.
  - rewrite (ensure_output_dir _ _ Hout).
    unfold bind at 1. unfold os_getcwd at 1, gets at 1.
    unfold bind at 1. unfold os_chdir at 1. rewrite Hout.
    unfold with_exit.
    match goal with
    | |- context [process_in_dir E dataset here ?w2] =>
        destruct (process_in_dir E dataset here w2) as [w3 r3] eqn:Hbody
    end.
    apply process_in_dir_present in Hbody as [Hfs Htr].
    2:{ eapply Forall_impl; [exact Hall |]. intros f.
        exact (path_exists_with_output_dir w output_dir f). }
    match goal with
    | |- context [os_chdir ?old w3] =>
        destruct (os_chdir old w3) as [w4 r4] eqn:Hexit
    end.
    apply os_chdir_disk in Hexit as [Hfs4 Htr4].
    assert (quiet w w4) as Hq.
    { split; [by rewrite Htr4, Htr |].
      intros k c. rewrite Hfs4, Hfs. simpl. by apply with_output_dir_files. }
    by destruct r4.
  - assert (path_exists w output_dir = false) as ->
      by (unfold path_exists; by rewrite Hout).
    simpl. unfold os_makedirs, os_mkdir. rewrite Hout. simpl. apply quiet_refl.
Qed.

Lemma path_exists_dir w p :
  PyStr.truthy p = true ->
  fs w !! abspath w p = Some Dir ->
  path_exists w p = true.
Proof.
  intros Ht Hdir. unfold path_exists. by rewrite Ht, Hdir.
Qed.

Lemma skipped_in_place output_dir title_ w :
  path_exists w output_dir = true ->
  skipped output_dir title_ w = add_stdout ("Skipping " +:+ title_) w.
Proof. intros Hex. unfold skipped, with_output_dir. by rewrite Hex. Qed.

Lemma process_in_dir_untitled dataset here w :
  title dataset = None ->
  Forall (fun f => path_exists w f = true) (default [] (files dataset)) ->
  process_in_dir E dataset here w = (w, inl (KeyError "title")).
Proof.
  intros Htitle Hall. unfold process_in_dir, bind, gets. simpl.
  rewrite (existsb_all_present _ _ Hall). simpl. by rewrite Htitle.
Qed.

Lemma os_chdir_stdout p w w' r :
  os_chdir p w = (w', r) -> stdout w' = stdout w.
Proof. unfold os_chdir. destruct (PyStr.truthy p); by intros [= <- _]. Qed.

(** A normal return of a dataset whose files are all present went through
    the [print] of the skip. *)
Lemma process_dataset_returned dataset output_dir here w w' :
  Forall (fun f => path_exists (inside output_dir w) f = true)
         (default [] (files dataset)) ->
  _process_dataset E dataset output_dir here w = (w', inr tt) ->
  exists title_,
    title dataset = Some title_
    /\ stdout w' = stdout w ++ ["Skipping " +:+ title_].
Proof.
  intros Hall.
  unfold _process_dataset. unfold bind at 1. unfold exists_ at 1, gets at 1.
  unfold bind at 1.
  destruct (PyStr.truthy output_dir) eqn:Hout.
  - rewrite (ensure_output_dir _ _ Hout).
    unfold bind at 1. unfold os_getcwd at 1, gets at 1.
    unfold bind at 1. unfold os_chdir at 1. rewrite Hout.
    unfold with_exit.
    assert (Forall (fun f =>
                      path_exists
                        (set_cwd (abspath w output_dir)
                           (set_fs (with_output_dir output_dir w) w)) f = true)
              (default [] (files dataset))) as Hin.
    { eapply Forall_impl; [exact Hall |]. intros f.
      exact (path_exists_with_output_dir w output_dir f). }
    destruct (title dataset) as [t|] eqn:Htitle.
    + rewrite (process_in_dir_skip _ _ _ _ Htitle Hin).
      match goal with
      | |- context [os_chdir ?old ?w3] =>
          destruct (os_chdir old w3) as [w4 [e|u]] eqn:Hexit
      end; [discriminate |].
      intros [= <-]. exists t. split; [reflexivity |].
      by rewrite (os_chdir_stdout _ _ _ _ Hexit).
    + rewrite (process_in_dir_untitled _ _ _ Htitle Hin).
      match goal with
      | |- context [os_chdir ?old ?w3] =>
          destruct (os_chdir old w3) as [w4 [e|u]]
      end; discriminate.
  - assert (path_exists w output_dir = false) as ->
      by (unfold path_exists; by rewrite Hout).
    simpl. unfold os_makedirs, os_mkdir. rewrite Hout. simpl. discriminate.
Qed.

(** The skip in an output directory that is already there: the world is as
    before, one line printed. *)
Lemma process_dataset_skip_in_place dataset output_dir here title_ w :
  title dataset = Some title_ ->
  PosixPath.isabs (cwd w) = true ->
  PyStr.truthy output_dir = true ->
  fs w !! abspath w output_dir = Some Dir ->
  Forall (fun f => path_exists (inside output_dir w) f = true)
         (default [] (files dataset)) ->
  _process_dataset E dataset output_dir here w
  = (add_stdout ("Skipping " +:+ title_) w, inr tt).
Proof.
  intros Htitle Habs Hout Hdir Hall.
  rewrite (process_dataset_skip _ _ _ _ _ Habs Hout Htitle Hall).
  by rewrite (skipped_in_place _ _ _ (path_exists_dir _ _ Hout Hdir)).
Qed.

(** C2.  A dataset whose declared files are all present in its output
    directory causes no request and no unpacking, whatever else happens: the
    trace is as before and no file is created, changed or removed.  Whenever
    its processing returns, the skip was printed.  And it does return when
    the descriptor has a title, the process is in an existing directory and
    the output directory is an existing directory: the world is then as
    before but for the one line printed, so that processing the dataset
    again does the same and leaves disk and trace as they are. *)
Theorem process_dataset_skips_satisfied dataset output_dir here w :
  Forall (fun f => path_exists (inside output_dir w) f = true)
         (default [] (files dataset)) ->
  quiet w (fst (_process_dataset E dataset output_dir here w))
  /\ (snd (_process_dataset E dataset output_dir here w) = inr tt ->
      exists title_,
        title dataset = Some title_
        /\ stdout (fst (_process_dataset E dataset output_dir here w))
           = stdout w ++ ["Skipping " +:+ title_])
  /\ forall title_,
       title dataset = Some title_ ->
       PosixPath.isabs (cwd w) = true ->
       fs w !! cwd w = Some Dir ->
       PyStr.truthy output_dir = true ->
       fs w !! abspath w output_dir = Some Dir ->
       let w' := add_stdout ("Skipping " +:+ title_) w in
       _process_dataset E dataset output_dir here w = (w', inr tt)
       /\ _process_dataset E dataset output_dir here w'
          = (add_stdout ("Skipping " +:+ title_) w', inr tt).
Proof.
  intros Hall. split; [by apply process_dataset_quiet |]. split.
  - destruct (_process_dataset E dataset output_dir here w) as [w1 r] eqn:Hrun.
    simpl. intros ->. by eapply process_dataset_returned.
  - intros title_ Htitle Habs _ Hout Hdir w'.
    split; [by apply process_dataset_skip_in_place |].
    by apply process_dataset_skip_in_place.
Qed.

Lemma plain_name_relative name :
  plain_name name = true -> PyStr.startswith name "/" = false.
Proof.
  unfold plain_name.
  intros [[[_ Hslash%negb_true_iff]%andb_true_iff _]%andb_true_iff _]%andb_true_iff.
  unfold PyStr.contains in Hslash. unfold PyStr.startswith.
  destruct (PyStr.chars name) as [|c l]; [reflexivity |].
  by apply orb_false_iff in Hslash as [Hhere _].
Qed.

Lemma join_plain_isabs parent name :
  PosixPath.isabs parent = true ->
  plain_name name = true ->
  PosixPath.isabs (PosixPath.join parent name) = true.
Proof.
  intros Habs Hrel%plain_name_relative. unfold PosixPath.join. rewrite Hrel.
  destruct parent as [|c p]; [discriminate |].
  destruct (negb (PyStr.truthy (String c p)) || PyStr.endswith (String c p) "/");
    exact Habs.
Qed.

(** The skip in an output directory that is missing in an existing
    directory: the one directory is made, and the line printed. *)
Lemma process_dataset_skip_fresh dataset parent name here title_ w :
  title dataset = Some title_ ->
  PosixPath.isabs (cwd w) = true ->
  PosixPath.isabs parent = true ->
  plain_name name = true ->
  fs w !! PosixPath.join parent name = None ->
  Forall (fun f => path_exists (inside (PosixPath.join parent name) w) f = true)
         (default [] (files dataset)) ->
  _process_dataset E dataset (PosixPath.join parent name) here w
  = (add_stdout ("Skipping " +:+ title_)
       (set_fs (<[PosixPath.join parent name := Dir]> (fs w)) w),
     inr tt).
Proof.
  intros Htitle Habs Hparent Hname Hnone Hall.
  pose proof (join_plain_isabs _ _ Hparent Hname) as Hd.
  rewrite (process_dataset_skip _ _ _ _ _ Habs (isabs_truthy _ Hd) Htitle Hall).
  unfold skipped, with_output_dir, path_exists, abspath.
  rewrite (join_isabs _ _ Hd), Hnone, (isabs_truthy _ Hd). reflexivity.
Qed.

(** C10.  A descriptor without [files], or with an empty list, never causes a
    request or an unpacking, whatever its tag and url and whatever is on
    disk: the loop over the files leaves [requires_download] false.  Whenever
    its processing returns, the skip was printed.  And it does return when
    the descriptor has a title and the process is in an existing directory:
    if the output directory is an existing directory, the world is then as
    before but for the one line printed; if it is the missing entry [name] of
    an existing directory, that one directory has been made as well. *)
Theorem process_dataset_skips_without_files dataset output_dir here w :
  files dataset = None \/ files dataset = Some [] ->
  quiet w (fst (_process_dataset E dataset output_dir here w))
  /\ (snd (_process_dataset E dataset output_dir here w) = inr tt ->
      exists title_,
        title dataset = Some title_
        /\ stdout (fst (_process_dataset E dataset output_dir here w))
           = stdout w ++ ["Skipping " +:+ title_])
  /\ (forall title_,
        title dataset = Some title_ ->
        PosixPath.isabs (cwd w) = true ->
        fs w !! cwd w = Some Dir ->
        PyStr.truthy output_dir = true ->
        fs w !! abspath w output_dir = Some Dir ->
        _process_dataset E dataset output_dir here w
        = (add_stdout ("Skipping " +:+ title_) w, inr tt))
  /\ (forall title_ parent name,
        title dataset = Some title_ ->
        PosixPath.isabs (cwd w) = true ->
        fs w !! cwd w = Some Dir ->
        output_dir = PosixPath.join parent name ->
        PosixPath.isabs parent = true ->
        fs w !! parent = Some Dir ->
        plain_name name = true ->
        fs w !! output_dir = None ->
        _process_dataset E dataset output_dir here w
        = (add_stdout ("Skipping " +:+ title_)
             (set_fs (<[output_dir := Dir]> (fs w)) w),
           inr tt)).
Proof.
  intros Hfiles.
  assert (forall d, Forall (fun f => path_exists (inside d w) f = true)
                      (default [] (files dataset))) as Hall
    by (intros d; destruct Hfiles as [-> | ->]; constructor).
  split; [by apply process_dataset_quiet |]. split; [| split].
  - destruct (_process_dataset E dataset output_dir here w) as [w1 r] eqn:Hrun.
    simpl. intros ->. by eapply process_dataset_returned.
  - intros title_ Htitle Habs _ Hout Hdir.
    by apply process_dataset_skip_in_place.
  - intros title_ parent name Htitle Habs _ -> Hparent _ Hname Hnone.
    by apply process_dataset_skip_fresh.
Qed.

End Skip.

(** A run of C2: [dem.tif] is in [/data/terrain], the dataset is skipped and
    the disk is as it was. *)
Lemma process_dataset_skips_satisfied_witness :
  _process_dataset Demo.env Demo.dem "/data/terrain" "/data" Demo.ready
  = (add_stdout "Skipping DEM" Demo.ready, inr tt)
  /\ trace (add_stdout "Skipping DEM" Demo.ready) = []
  /\ fs (add_stdout "Skipping DEM" Demo.ready) = fs Demo.ready
  /\ stdout (add_stdout "Skipping DEM" Demo.ready) = ["Skipping DEM"].
Proof.
  assert (Forall (fun f => path_exists (inside "/data/terrain" Demo.ready) f = true)
            (default [] (files Demo.dem))) as Hall
    by (repeat constructor).
  destruct (process_dataset_skips_satisfied Demo.env Demo.dem "/data/terrain" "/data"
              Demo.ready Hall) as (_ & _ & Hskip).
  destruct (Hskip "DEM" eq_refl eq_refl eq_refl eq_refl eq_refl) as [Hrun _].
  split; [exact Hrun | repeat split; reflexivity].
Defined.

(** Two runs of C10, for a descriptor with no files and a tag nobody
    handles: in the topic directory [/data/terrain], which holds other files,
    and in [/data/census], which is yet to be made in [/data]. *)
Lemma process_dataset_skips_without_files_witness :
  _process_dataset Demo.env Demo.bare "/data/terrain" "/data" Demo.ready
  = (add_stdout "Skipping Bare" Demo.ready, inr tt)
  /\ trace (add_stdout "Skipping Bare" Demo.ready) = []
  /\ fs (add_stdout "Skipping Bare" Demo.ready) = fs Demo.ready
  /\ _process_dataset Demo.env Demo.bare "/data/census" "/data" Demo.ready
     = (add_stdout "Skipping Bare"
          (set_fs (<["/data/census" := Dir]> (fs Demo.ready)) Demo.ready),
        inr tt).
Proof.
  destruct (process_dataset_skips_without_files Demo.env Demo.bare "/data/terrain"
              "/data" Demo.ready (or_introl eq_refl)) as (_ & _ & Hskip & _).
  split; [exact (Hskip "Bare" eq_refl eq_refl eq_refl eq_refl eq_refl) |].
  split; [reflexivity |]. split; [reflexivity |].
  destruct (process_dataset_skips_without_files Demo.env Demo.bare "/data/census"
              "/data" Demo.ready (or_introl eq_refl)) as (_ & _ & _ & Hfresh).
  exact (Hfresh "Bare" "/data" "census" eq_refl eq_refl eq_refl eq_refl eq_refl
           eq_refl eq_refl eq_refl).
Defined.

(** ** The window of rate samples *)

#[local] Instance window_within_preorder n : PreOrder (window_within n).
Proof. split; unfold window_within; [intros b | intros a b c]; auto. Qed.

#[local] Instance on_obj_preorder R `{!PreOrder R} : PreOrder (on_obj R).
Proof.
  split.
  - intros s. unfold on_obj. reflexivity.
  - intros a b c. unfold on_obj. apply transitivity.
Qed.

Lemma preserves_io_obj {A} R `{!PreOrder R} (m : M World A) :
  preserves (on_obj R) (Bar.io m).
Proof.
  intros s s' r. unfold Bar.io. destruct (m (snd s)) as [w' r'].
  intros [= <- _]. unfold on_obj. simpl. reflexivity.
Qed.

Lemma preserves_upd_obj R (f : Bar.t -> Bar.t) :
  (forall b, R b (f b)) -> preserves (on_obj R) (Bar.upd f).
Proof. intros Hf. apply preserves_modify. intros s. apply Hf. Qed.

Lemma length_last_n {A} n (l : list A) : (length (last_n n l) <= n)%nat.
Proof. unfold last_n. rewrite length_drop. lia. Qed.

Lemma length_samples (window : list Q) (x : Q) :
  (length (last_n ETA_SMA_WINDOW window ++ [x]) <= 10)%nat.
Proof.
  rewrite length_app. simpl.
  pose proof (length_last_n ETA_SMA_WINDOW window). unfold ETA_SMA_WINDOW in *. lia.
Qed.

Section Window.

Context (E : Env).

Lemma show_window progress count :
  preserves (on_obj (window_within 10)) (Bar.show E progress count).
Proof.
  unfold Bar.show.
  repeat first
    [ apply preserves_io_obj; apply _
    | apply preserves_upd_obj; intros b; unfold window_within; simpl;
      first [ intros _; apply length_samples | tauto ]
    | apply preserves_gets; apply _
    | preserves_step ].
Qed.

Lemma init_window label_ width_ hide_ ec fc size every_ w w' self :
  Bar.__init__ E label_ width_ hide_ ec fc size every_ w = (w', inr self) ->
  (length (Bar.ittimes self) <= 10)%nat.
Proof.
  unfold Bar.__init__, bind, time_time. cbv zeta.
  match goal with |- context [if ?b then _ else _] => destruct b end.
  - match goal with
    | |- context [Bar.show E 0 None ?s] =>
        destruct (Bar.show E 0 None s) as [s1 r1] eqn:Hshow
    end.
    apply show_window in Hshow.
    destruct r1; intros [= _ <-]. apply Hshow. simpl. lia.
  - intros [= _ <-]. simpl. lia.
Qed.

Lemma show_all_window calls s :
  (length (Bar.ittimes (fst s)) <= 10)%nat ->
  (length (Bar.ittimes (fst (show_all E calls s))) <= 10)%nat.
Proof.
  revert s. induction calls as [|[p c] calls IH]; intros s Hs; simpl; [exact Hs |].
  apply IH.
  destruct (Bar.show E p c s) as [s1 r1] eqn:Hshow.
  apply show_window in Hshow. by apply Hshow.
Qed.

(** C3, as the code has it.  However a reporter is made and however often
    [show] is called on it, with whatever arguments and whether or not a call
    raises, the window holds at most ten samples: the nine kept from before
    and the current one. *)
Theorem window_at_most_ten label_ width_ hide_ ec fc size every_ w w' self calls :
  Bar.__init__ E label_ width_ hide_ ec fc size every_ w = (w', inr self) ->
  (length (Bar.ittimes (fst (show_all E calls (self, w')))) <= 10)%nat.
Proof.
  intros Hinit. apply show_all_window. simpl. eapply init_window, Hinit.
Qed.

End Window.

(** C3 as stated fails: with a clock that advances two seconds per reading,
    the constructor's [show(0)] and nine more calls leave ten samples. *)
Lemma window_exceeds_nine :
  exists w' self,
    Bar.__init__ Demo.env "" 32 None BAR_EMPTY_CHAR BAR_FILLED_CHAR (Some 100%Q) 1
      Demo.home = (w', inr self)
    /\ ~ (length (Bar.ittimes (fst (show_all Demo.env Demo.nine_calls (self, w'))))
          <= 9)%nat.
Proof.
  eexists _, _. split; [vm_compute; reflexivity |].
  vm_compute. lia.
Qed.

(** The amended bound on the same run. *)
Lemma window_at_most_ten_witness :
  exists w' self,
    Bar.__init__ Demo.env "" 32 None BAR_EMPTY_CHAR BAR_FILLED_CHAR (Some 100%Q) 1
      Demo.home = (w', inr self)
    /\ (length (Bar.ittimes (fst (show_all Demo.env Demo.nine_calls (self, w'))))
        <= 10)%nat.
Proof.
  eexists _, _. split; [vm_compute; reflexivity |].
  eapply (window_at_most_ten Demo.env "" 32 None BAR_EMPTY_CHAR BAR_FILLED_CHAR
            (Some 100%Q) 1 Demo.home).
  vm_compute. reflexivity.
Defined.

(** ** What the bar reports at the end of a download *)

Section FinalProgress.

Context (E : Env).

Lemma show_returns progress b w b' w' :
  Bar.show E progress None (b, w) = ((b', w'), inr tt) ->
  Bar.last_progress b' = progress /\ Bar.expected_size b' = Bar.expected_size b.
Proof.
  unfold Bar.show, bind, ret, raise, Bar.upd, Bar.field, Bar.io, gets, modify,
    time_time, STREAM_write.
  simpl.
  repeat (case_match; simpl); intros Hrun; simplify_eq/=; done.
Qed.

Lemma done_keeps b w b' w' r :
  Bar.done E (b, w) = ((b', w'), r) ->
  Bar.last_progress b' = Bar.last_progress b
  /\ Bar.expected_size b' = Bar.expected_size b.
Proof.
  unfold Bar.done, bind, ret, raise, Bar.upd, Bar.field, Bar.io, gets, modify,
    time_time, STREAM_write.
  simpl.
  repeat (case_match; simpl); intros Hrun; simplify_eq/=; done.
Qed.

Lemma init_starts label_ width_ hide_ ec fc count every_ w w' self :
  Bar.__init__ E label_ width_ hide_ ec fc (Some count) every_ w = (w', inr self) ->
  Bar.last_progress self = 0%Z /\ Bar.expected_size self = Some count.
Proof.
  unfold Bar.__init__, bind, time_time. cbv zeta.
  match goal with |- context [if ?b then _ else _] => destruct b end.
  - match goal with
    | |- context [Bar.show E 0 None ?s] =>
        destruct (Bar.show E 0 None s) as [[b1 w1] [e|[]]] eqn:Hshow
    end; intros [= _ <-].
    by apply show_returns in Hshow.
  - by intros [= _ <-].
Qed.

(** When the loop comes to its end, the last call of [show] was given the
    number of items. *)
Lemma bar_loop_returns body i it b w b' w' :
  bar_loop E body i it (b, w) = ((b', w'), inr None) ->
  Bar.last_progress b'
  = match it with
    | [] => Bar.last_progress b
    | _ => (i + Z.of_nat (length it))%Z
    end
  /\ Bar.expected_size b' = Bar.expected_size b.
Proof.
  revert i b w. induction it as [|[c|e] rest IH]; intros i b w; simpl.
  - by intros [= <- _].
  - destruct (body c w) as [w1 [e|u]]; [discriminate |].
    unfold bind at 1.
    destruct (Bar.show E (i + 1) None (b, w1)) as [[b1 w2] [e|[]]] eqn:Hshow;
      [discriminate |].
    apply show_returns in Hshow as [Hp Hsize].
    intros [Hlast Hsize']%IH. split; [| congruence].
    rewrite Hlast. destruct rest; [rewrite Hp |]; simpl length; lia.
  - discriminate.
Qed.

Lemma bar_run_returns it body label_ width_ hide_ count every_ w b w' :
  bar_run E it body label_ width_ hide_ (Some count) every_ w
  = ((Some b, w'), inr tt) ->
  Bar.last_progress b = Z.of_nat (length it)
  /\ Bar.expected_size b = Some count.
Proof.
  unfold bar_run.
  destruct (Bar.__init__ E label_ width_ hide_ BAR_EMPTY_CHAR BAR_FILLED_CHAR
              (Some count) every_ w) as [w1 [e|self]] eqn:Hinit; [discriminate |].
  apply init_starts in Hinit as [Hzero Hsize].
  destruct (bar_loop E body 0 it (self, w1)) as [[b1 w2] [e|[e|]]] eqn:Hloop.
  - destruct (Bar.done E (b1, w2)) as [[b2 w3] [e2|u]]; discriminate.
  - destruct (Bar.done E (b1, w2)) as [[b2 w3] r2]; discriminate.
  - apply bar_loop_returns in Hloop as [Hlast Hsize1].
    destruct (Bar.done E (b1, w2)) as [[b2 w3] [e2|u]] eqn:Hdone; [discriminate |].
    apply done_keeps in Hdone as [Hlast2 Hsize2].
    intros [= <- _]. split; [| congruence].
    rewrite Hlast2, Hlast. destruct it; simpl length; lia.
Qed.

Lemma ceil_chunks_below_expected total_length :
  (inject_Z (ceil_chunks total_length) < expected_chunks total_length)%Q.
Proof.
  unfold expected_chunks, ceil_chunks, Qlt, Qdiv, Qplus, Qmult, Qinv, inject_Z.
  simpl.
  pose proof (Z.mul_div_le (total_length + 1023) 1024 eq_refl). lia.
Qed.

(** C8 on the code.  A download that completes after the [ceil(L / 1024)]
    chunks of a body of [L] bytes leaves the bar with the expected total
    [L / 1024 + 1], which is not [ceil(L / 1024)], and with a last reported
    progress of [ceil(L / 1024)], strictly below the expected total. *)
Theorem completed_download_stops_short it body every_ total_length w b w' :
  Z.of_nat (length it) = ceil_chunks total_length ->
  bar_run E it body "" 32 None (Some (expected_chunks total_length)) every_ w
  = ((Some b, w'), inr tt) ->
  Bar.expected_size b = Some (expected_chunks total_length)
  /\ ~ (expected_chunks total_length == inject_Z (ceil_chunks total_length))%Q
  /\ Bar.last_progress b = ceil_chunks total_length
  /\ (inject_Z (Bar.last_progress b) < expected_chunks total_length)%Q.
Proof.
  intros Hlen [Hlast Hsize]%bar_run_returns.
  pose proof (ceil_chunks_below_expected total_length) as Hlt.
  split; [exact Hsize |]. split; [| split].
  - intros Heq. rewrite Heq in Hlt. by apply Qlt_irrefl in Hlt.
  - congruence.
  - rewrite Hlast, Hlen. exact Hlt.
Qed.

End FinalProgress.

(** C8 at 1024 bytes: one chunk arrives, the expected total is 2, the bar
    ends at 1 and its last line reads 1/2. *)
Lemma completed_download_stops_short_witness :
  exists b w',
    bar_run Demo.env [Chunk Demo.kilobyte] (fun _ => ret tt) "" 32 None
      (Some (expected_chunks 1024)) 1000 Demo.home = ((Some b, w'), inr tt)
    /\ (expected_chunks 1024 == 2)%Q
    /\ ceil_chunks 1024 = 1%Z
    /\ Bar.last_progress b = 1%Z
    /\ (inject_Z (Bar.last_progress b) < expected_chunks 1024)%Q
    /\ stream w' = ["[                                ] 0/2 - 00:00:16" +:+ CR;
                    "[################################] 1/2 - 00:00:16" +:+ CR;
                    LF].
Proof.
  let run := eval vm_compute in
    (bar_run Demo.env [Chunk Demo.kilobyte] (fun _ => ret tt) "" 32 None
       (Some (expected_chunks 1024)) 1000 Demo.home) in
  lazymatch run with
  | ((Some ?b, ?w'), _) => exists b, w'
  end.
  match goal with
  | |- ?run /\ _ => assert run as Hrun by (vm_compute; reflexivity)
  end.
  assert (Z.of_nat (length [Chunk Demo.kilobyte]) = ceil_chunks 1024) as Hlen
    by (vm_compute; reflexivity).
  destruct (completed_download_stops_short Demo.env _ _ _ _ _ _ _ Hlen Hrun)
    as (_ & _ & Hlast & Hlt).
  split; [exact Hrun |].
  split; [vm_compute; reflexivity |].
  split; [vm_compute; reflexivity |].
  split; [exact Hlast |]. split; [exact Hlt |].
  vm_compute. reflexivity.
Defined.

(** ** Special cases *)

Section SpecialCases.

Context (E : Env).

(** C7, as the code has it.  A tag that is neither empty nor [lidar] makes
    [_handle_special_cases] fail at once, the world untouched and so before
    any request; when the descriptor has its url and title the failure is a
    [NotImplementedError] with one fixed message, which points at the lidar
    example and does not depend on the tag. *)
Theorem unknown_tag_fails_fast here dataset tag_ w :
  tag dataset = Some tag_ ->
  PyStr.truthy tag_ = true ->
  tag_ <> "lidar" ->
  (exists e, _handle_special_cases E here dataset w = (w, inl e))
  /\ (is_Some (url dataset) -> is_Some (title dataset) ->
      _handle_special_cases E here dataset w
      = (w, inl (NotImplementedError NOT_IMPLEMENTED))).
Proof.
  intros Htag Htruthy Hne.
  unfold _handle_special_cases, bind, item. rewrite Htag. simpl.
  destruct (url dataset) as [u|]; simpl.
  - destruct (title dataset) as [t|]; simpl.
    + rewrite bool_decide_eq_false_2 by exact Hne. rewrite Htruthy.
      split; [by eexists | done].
    + split; [by eexists |]. by intros _ [? ?].
  - split; [by eexists |]. by intros [? ?].
Qed.

End SpecialCases.

(** C7 as stated fails: for the tag [foo] the failure is the fixed
    [NotImplementedError], and its message does not contain [foo]. *)
Lemma unknown_tag_message_is_fixed :
  exists e,
    _handle_special_cases Demo.env "/data" Demo.foo Demo.home = (Demo.home, inl e)
    /\ exn_class e = "NotImplementedError"
    /\ PyStr.contains (exn_msg e) "foo" = false.
Proof.
  exists (NotImplementedError NOT_IMPLEMENTED).
  split; [reflexivity |]. split; [reflexivity |]. vm_compute. reflexivity.
Qed.

(** The amended C7 on the same descriptor. *)
Lemma unknown_tag_fails_fast_witness :
  _handle_special_cases Demo.env "/data" Demo.foo Demo.home
  = (Demo.home, inl (NotImplementedError NOT_IMPLEMENTED)).
Proof.
  assert ("foo" <> "lidar") as Hne by discriminate.
  destruct (unknown_tag_fails_fast Demo.env "/data" Demo.foo "foo" Demo.home
              eq_refl eq_refl Hne) as [_ Hfixed].
  apply Hfixed; eexists; reflexivity.
Defined.

(** ** The lidar expansion *)

Lemma unescape_plain l :
  PyStr.contains_chars l ["{"%char] = false ->
  PyStr.contains_chars l ["}"%char] = false ->
  unescape l None = Some l.
Proof.
  induction l as [|c l IH]; [reflexivity |].
  simpl. intros [Hopen Hl1]%orb_false_iff [Hclose Hl2]%orb_false_iff.
  apply bool_decide_eq_false in Hopen, Hclose.
  destruct l as [|c' l'] eqn:Hl; simpl in *.
  - rewrite !bool_decide_eq_false_2 by congruence. reflexivity.
  - rewrite <- Hl in *.
    replace (take 0 l) with (@nil ascii) in * by (by destruct l).
    rewrite !bool_decide_eq_false_2 by congruence. simpl.
    by rewrite IH.
Qed.

Lemma title_format_plain {S} title_ i n (s : S) :
  PyStr.contains title_ "{" = false ->
  PyStr.contains title_ "}" = false ->
  title_format title_ i n s
  = (s, inr (title_ +:+ " " +:+ PyStr.of_Z i +:+ " of " +:+ PyStr.of_Z n)).
Proof.
  intros Hopen Hclose. unfold title_format.
  rewrite (unescape_plain _ Hopen Hclose).
  by rewrite String.string_of_list_ascii_of_string.
Qed.

(** C4, as the code has it.  For the url [http://x/index.html] and the files
    [a.7z] and [b.7z] the expansion has exactly two units; their urls are
    [http://x/index/a.7z] and [http://x/index/b.7z], the [.html] of the url
    replaced by a slash and the file's name; and for a title without braces
    the two running titles end in [1 of 2] and [2 of 2]. *)
Theorem lidar_expansion here title_ (w : World) :
  PyStr.contains title_ "{" = false ->
  PyStr.contains title_ "}" = false ->
  let '(urls, compressed, decompressed) :=
    _lidar_url_to_files here "http://x/index.html" ["a.7z"; "b.7z"] in
  urls = ["http://x/index/a.7z"; "http://x/index/b.7z"]
  /\ enumerate_zip3 0 urls compressed decompressed
     = [(0%Z, ("http://x/index/a.7z", PosixPath.join3 here "data" "a.7z", "a.gnd"));
        (1%Z, ("http://x/index/b.7z", PosixPath.join3 here "data" "b.7z", "b.gnd"))]
  /\ title_format title_ (0 + 1) (Z.of_nat (length urls)) w
     = (w, inr (title_ +:+ " 1 of 2"))
  /\ title_format title_ (1 + 1) (Z.of_nat (length urls)) w
     = (w, inr (title_ +:+ " 2 of 2")).
Proof.
  intros Hopen Hclose. simpl.
  split; [reflexivity |]. split; [reflexivity |].
  split; by rewrite title_format_plain.
Qed.

(** C4 as stated fails: the urls are not [http://x/a.7z] and
    [http://x/b.7z]. *)
Lemma lidar_urls_keep_the_stem :
  fst (fst (_lidar_url_to_files "/data" "http://x/index.html" ["a.7z"; "b.7z"]))
  <> ["http://x/a.7z"; "http://x/b.7z"].
Proof. vm_compute. discriminate. Qed.

(** The amended C4 for the title [Lidar]. *)
Lemma lidar_expansion_witness :
  fst (fst (_lidar_url_to_files "/data" "http://x/index.html" ["a.7z"; "b.7z"]))
  = ["http://x/index/a.7z"; "http://x/index/b.7z"]
  /\ title_format "Lidar" (1 + 1) 2 Demo.home = (Demo.home, inr "Lidar 2 of 2").
Proof.
  pose proof (lidar_expansion "/data" "Lidar" Demo.home eq_refl eq_refl) as H.
  simpl in H. destruct H as (Hurls & _ & _ & Htitle).
  split; [reflexivity | exact Htitle].
Defined.

(** ** The dispatch on the archive's name *)

Lemma endswith_suffix s p :
  PyStr.endswith s p = true <-> PyStr.chars p `suffix_of` PyStr.chars s.
Proof.
  unfold PyStr.endswith. rewrite bool_decide_eq_true. split.
  - intros Hdrop. exists (take (length (PyStr.chars s) - length (PyStr.chars p))
                            (PyStr.chars s)).
    symmetry. etrans; [| apply take_drop]. f_equal. symmetry. exact Hdrop.
  - intros [k ->]. rewrite length_app.
    apply drop_app_length'. lia.
Qed.

Lemma endswith_weaken s p q :
  PyStr.chars q `suffix_of` PyStr.chars p ->
  PyStr.endswith s p = true -> PyStr.endswith s q = true.
Proof.
  intros Hqp Hp. apply endswith_suffix. etrans; [exact Hqp |].
  by apply endswith_suffix.
Qed.

Lemma endswith_exclusive s p q :
  ~ PyStr.chars p `suffix_of` PyStr.chars q ->
  ~ PyStr.chars q `suffix_of` PyStr.chars p ->
  PyStr.endswith s p = true -> PyStr.endswith s q = false.
Proof.
  intros Hpq Hqp Hp%endswith_suffix.
  destruct (PyStr.endswith s q) eqn:Hq; [| reflexivity].
  apply endswith_suffix in Hq.
  destruct (suffix_weak_total _ _ _ Hp Hq); contradiction.
Qed.

(** The same with the side conditions as booleans, to be computed on closed
    endings. *)
Lemma ending_true s p q :
  PyStr.endswith s p = true ->
  bool_decide (PyStr.chars q `suffix_of` PyStr.chars p) = true ->
  PyStr.endswith s q = true.
Proof.
  intros Hp Hqp%bool_decide_eq_true. by eapply endswith_weaken.
Qed.

Lemma ending_false s p q :
  PyStr.endswith s p = true ->
  bool_decide (PyStr.chars p `suffix_of` PyStr.chars q) = false ->
  bool_decide (PyStr.chars q `suffix_of` PyStr.chars p) = false ->
  PyStr.endswith s q = false.
Proof.
  intros Hp Hpq%bool_decide_eq_false Hqp%bool_decide_eq_false.
  by eapply endswith_exclusive.
Qed.

Section Dispatch.

Context (E : Env).

Lemma extract_removes output_path w w' :
  _extract_downloaded_archive E output_path w = (w', inr tt) ->
  path_exists w' output_path = false.
Proof.
  unfold _extract_downloaded_archive. unfold bind at 1.
  match goal with
  | |- context [match ?m w with _ => _ end] => destruct (m w) as [w1 [e|u]]
  end; [discriminate |].
  unfold os_remove.
  destruct (negb (PyStr.truthy output_path)); [discriminate |].
  destruct (fs w1 !! abspath w1 output_path) as [[|c]|]; try discriminate.
  intros [= <-]. apply path_exists_deleted.
Qed.

Lemma ending_listed s (dotless dotted ending : string) :
  ending ∈ [dotless; dotted] ->
  bool_decide (PyStr.chars dotless `suffix_of` PyStr.chars dotted) = true ->
  PyStr.endswith s ending = true ->
  PyStr.endswith s dotless = true.
Proof.
  intros Hin Hsuffix Hends.
  apply elem_of_cons in Hin as [-> | Hin]; [exact Hends |].
  apply list_elem_of_singleton in Hin as ->.
  exact (ending_true _ _ _ Hends Hsuffix).
Qed.

(** No name has two of the five endings, so that the order of the tests
    decides nothing. *)
Lemma archive_endings_exclusive s a b :
  a ∈ archive_endings -> b ∈ archive_endings -> a <> b ->
  PyStr.endswith s a = true -> PyStr.endswith s b = false.
Proof.
  unfold archive_endings. intros Ha Hb Hne H.
  repeat (apply elem_of_cons in Ha as [-> | Ha]);
    try (by apply elem_of_nil in Ha);
    repeat (apply elem_of_cons in Hb as [-> | Hb]);
    try (by apply elem_of_nil in Hb);
    first [ done | eapply ending_false; [exact H | reflexivity | reflexivity] ].
Qed.

(** C5, as the code has it.  The dispatch looks at the end of the path and
    asks for no dot: a path that ends in [tar.gz], [tar], [tar.bz2], [zip] or
    [7z], with or without a dot before it, reaches the extractor of that
    format; no path has two of the five endings; a path that ends in none of
    the five is not unpacked, and is removed without error when it names a
    file; and whenever the function returns, the archive is gone. *)
Theorem extract_dispatch output_path w :
  (forall ending, ending ∈ ["tar.gz"; ".tar.gz"] ->
     PyStr.endswith output_path ending = true ->
     _extract_downloaded_archive E output_path w
     = (run_codec (tar_extractall E "r:gz") "r:gz" output_path ;;; os_remove output_path) w)
  /\ (forall ending, ending ∈ ["tar"; ".tar"] ->
        PyStr.endswith output_path ending = true ->
        _extract_downloaded_archive E output_path w
        = (run_codec (tar_extractall E "r:") "r:" output_path ;;; os_remove output_path) w)
  /\ (forall ending, ending ∈ ["tar.bz2"; ".tar.bz2"] ->
        PyStr.endswith output_path ending = true ->
        _extract_downloaded_archive E output_path w
        = (run_codec (tar_extractall E "r:bz2") "r:bz2" output_path ;;; os_remove output_path) w)
  /\ (forall ending, ending ∈ ["zip"; ".zip"] ->
        PyStr.endswith output_path ending = true ->
        _extract_downloaded_archive E output_path w
        = (run_codec (zip_extractall E) "zip" output_path ;;; os_remove output_path) w)
  /\ (forall ending, ending ∈ ["7z"; ".7z"] ->
        PyStr.endswith output_path ending = true ->
        _extract_downloaded_archive E output_path w
        = (_unzip_7z E output_path ;;; os_remove output_path) w)
  /\ (forall a b, a ∈ archive_endings -> b ∈ archive_endings -> a <> b ->
        PyStr.endswith output_path a = true -> PyStr.endswith output_path b = false)
  /\ (Forall (fun ending => PyStr.endswith output_path ending = false)
        archive_endings ->
      _extract_downloaded_archive E output_path w = os_remove output_path w
      /\ forall c, PyStr.truthy output_path = true ->
                   fs w !! abspath w output_path = Some (File c) ->
                   _extract_downloaded_archive E output_path w
                   = (set_fs (delete (abspath w output_path) (fs w)) w, inr tt))
  /\ (forall w', _extract_downloaded_archive E output_path w = (w', inr tt) ->
                 path_exists w' output_path = false).
Proof.
  unfold _extract_downloaded_archive at 1 2 3 4 5 6.
  repeat apply conj.
  - intros ending Hin H%(ending_listed _ _ _ _ Hin eq_refl). by rewrite H.
  - intros ending Hin H%(ending_listed _ _ _ _ Hin eq_refl).
    rewrite (ending_false _ _ "tar.gz" H eq_refl eq_refl). by rewrite H.
  - intros ending Hin H%(ending_listed _ _ _ _ Hin eq_refl).
    rewrite (ending_false _ _ "tar.gz" H eq_refl eq_refl),
      (ending_false _ _ "tar" H eq_refl eq_refl).
    by rewrite H.
  - intros ending Hin H%(ending_listed _ _ _ _ Hin eq_refl).
    rewrite (ending_false _ _ "tar.gz" H eq_refl eq_refl),
      (ending_false _ _ "tar" H eq_refl eq_refl),
      (ending_false _ _ "tar.bz2" H eq_refl eq_refl).
    by rewrite H.
  - intros ending Hin H%(ending_listed _ _ _ _ Hin eq_refl).
    rewrite (ending_false _ _ "tar.gz" H eq_refl eq_refl),
      (ending_false _ _ "tar" H eq_refl eq_refl),
      (ending_false _ _ "tar.bz2" H eq_refl eq_refl),
      (ending_false _ _ "zip" H eq_refl eq_refl).
    by rewrite H.
  - apply archive_endings_exclusive.
  - unfold archive_endings. rewrite !Forall_cons. intros (H1 & H2 & H3 & H4 & H5 & _).
    assert (_extract_downloaded_archive E output_path w = os_remove output_path w)
      as Hnone
      by (unfold _extract_downloaded_archive; by rewrite H1, H2, H3, H4, H5).
    split; [by rewrite H1, H2, H3, H4, H5 |].
    intros c Ht Hfile. rewrite Hnone. unfold os_remove. by rewrite Ht, Hfile.
  - apply extract_removes.
Qed.

End Dispatch.

(** C5 as stated fails: [datazip] ends in none of [.tar.gz], [.tar],
    [.tar.bz2], [.zip], [.7z], and yet it is handed to the zip extractor,
    whose failure on a file that is no archive reaches the caller. *)
Lemma dotless_ending_is_dispatched :
  PyStr.endswith "datazip" ".tar.gz" = false
  /\ PyStr.endswith "datazip" ".tar" = false
  /\ PyStr.endswith "datazip" ".tar.bz2" = false
  /\ PyStr.endswith "datazip" ".zip" = false
  /\ PyStr.endswith "datazip" ".7z" = false
  /\ trace (fst (_extract_downloaded_archive Demo.env "datazip" Demo.plain))
     = [EvExtract "zip" "datazip"]
  /\ snd (_extract_downloaded_archive Demo.env "datazip" Demo.plain)
     = inl (Raise "BadZipFile" "File is not a zip file").
Proof. repeat split; vm_compute; reflexivity. Qed.

(** The amended C5 on the same disk: [archive.dat] reaches no extractor and
    is removed without error; [datazip] has the ending [zip] and goes to the
    zip extractor. *)
Lemma extract_dispatch_witness :
  _extract_downloaded_archive Demo.env "archive.dat" Demo.plain
  = (set_fs (delete "/home/archive.dat" (fs Demo.plain)) Demo.plain, inr tt)
  /\ path_exists (set_fs (delete "/home/archive.dat" (fs Demo.plain)) Demo.plain)
       "archive.dat" = false
  /\ _extract_downloaded_archive Demo.env "datazip" Demo.plain
     = (run_codec (zip_extractall Demo.env) "zip" "datazip" ;;; os_remove "datazip")
         Demo.plain.
Proof.
  destruct (extract_dispatch Demo.env "archive.dat" Demo.plain)
    as (_ & _ & _ & _ & _ & _ & Hnone & Hgone).
  assert (Forall (fun ending => PyStr.endswith "archive.dat" ending = false)
            archive_endings) as Hends by (repeat constructor).
  destruct (Hnone Hends) as [_ Hremoved].
  pose proof (Hremoved "plain text" eq_refl eq_refl) as Hrun.
  split; [exact Hrun |]. split; [exact (Hgone _ Hrun) |].
  destruct (extract_dispatch Demo.env "datazip" Demo.plain)
    as (_ & _ & _ & Hzip & _).
  exact (Hzip "zip" (list_elem_of_here _ _) eq_refl).
Defined.

(** ** The members of a 7z archive *)

Section Members.

Context (E : Env).

Lemma open_w_returns p w h w1 :
  open_w p w = (w1, inr h) ->
  h = abspath w p /\ PyStr.truthy p = true
  /\ w1 = set_fs (<[abspath w p := File ""]> (fs w)) w.
Proof.
  unfold open_w. destruct (PyStr.truthy p); simpl; [| discriminate].
  destruct (fs w !! abspath w p) as [[|c]|]; intros Hrun; by simplify_eq.
Qed.

Lemma f_write_returns h text w w1 :
  f_write E h text w = (w1, inr tt) ->
  exists c, fs w !! h = Some (File c)
            /\ w1 = set_fs (<[h := File (c +:+ text)]> (fs w)) w.
Proof.
  unfold f_write. destruct (fs w !! h) as [[|c]|]; try discriminate.
  case_bool_decide; [| discriminate]. intros [= <-]. by exists c.
Qed.

Lemma ensure_parent_returns d w w1 :
  (if negb (path_exists w d) then os_mkdir d else ret tt) w = (w1, inr tt) ->
  cwd w1 = cwd w
  /\ path_exists w1 d = true
  /\ (forall k v, fs w !! k = Some v -> fs w1 !! k = Some v).
Proof.
  destruct (path_exists w d) eqn:Hex; simpl.
  - intros [= <-]. by repeat split.
  - unfold os_mkdir. destruct (PyStr.truthy d) eqn:Ht; simpl; [| discriminate].
    destruct (fs w !! abspath w d) eqn:Hl; [discriminate |].
    intros [= <-]. split; [done |]. split.
    + unfold path_exists, abspath. simpl. rewrite Ht. simpl.
      apply bool_decide_eq_true. rewrite lookup_insert_eq. by eexists.
    + intros k v Hk. simpl. rewrite lookup_insert_ne; [done |]. congruence.
Qed.

Lemma path_exists_mono w w1 p :
  cwd w1 = cwd w ->
  (forall k, is_Some (fs w !! k) -> is_Some (fs w1 !! k)) ->
  path_exists w p = true -> path_exists w1 p = true.
Proof.
  intros Hcwd Hmono. unfold path_exists, abspath. rewrite Hcwd.
  intros [Ht Hl]%andb_true_iff. apply bool_decide_eq_true in Hl.
  apply andb_true_iff. split; [exact Ht |]. apply bool_decide_eq_true. auto.
Qed.

(** One member: its directory is made sure of, and the decoded text is the
    content of [data_dir/basename]. *)
Lemma write_member_returns data_dir member w w1 :
  write_member E data_dir member w = (w1, inr tt) ->
  let gnd := PosixPath.join data_dir (PosixPath.basename (fst member)) in
  cwd w1 = cwd w
  /\ (exists text, decode E (snd member) = inr text
                   /\ fs w1 !! abspath w gnd = Some (File text))
  /\ path_exists w1 (PosixPath.dirname gnd) = true
  /\ (forall k v, k <> abspath w gnd -> fs w !! k = Some v -> fs w1 !! k = Some v)
  /\ (forall k, is_Some (fs w !! k) -> is_Some (fs w1 !! k)).
Proof.
  unfold write_member. cbv zeta.
  set (gnd := PosixPath.join data_dir (PosixPath.basename (fst member))).
  unfold bind at 1. unfold exists_ at 1, gets at 1. unfold bind at 1.
  destruct ((if negb (path_exists w (PosixPath.dirname gnd))
             then os_mkdir (PosixPath.dirname gnd) else ret tt) w)
    as [w2 [e|[]]] eqn:Hmk; [discriminate |].
  apply ensure_parent_returns in Hmk as (Hcwd2 & Hdir & Hkeep).
  unfold bind at 1.
  destruct (open_w gnd w2) as [w3 [e|h]] eqn:Hopen; [discriminate |].
  apply open_w_returns in Hopen as (-> & Ht & ->).
  destruct (decode E (snd member)) as [e|text]; [discriminate |].
  intros (c & Hc & ->)%f_write_returns.
  simpl in Hc. rewrite lookup_insert_eq in Hc. injection Hc as <-.
  assert (abspath w2 gnd = abspath w gnd) as Hkey
    by (unfold abspath; by rewrite Hcwd2).
  rewrite Hkey. simpl.
  split; [exact Hcwd2 |]. split; [| split; [| split]].
  - exists text. split; [reflexivity |]. by rewrite lookup_insert_eq.
  - eapply path_exists_mono; [| | exact Hdir]; [done |].
    intros k Hk. simpl. rewrite !lookup_insert.
    repeat case_decide; by eauto.
  - intros k v Hne Hk. rewrite !lookup_insert_ne by done. by apply Hkeep.
  - intros k [v Hk]. rewrite !lookup_insert.
    repeat case_decide; eauto.
Qed.

Lemma member_key_cwd w w1 data_dir :
  cwd w1 = cwd w -> member_key w1 data_dir = member_key w data_dir.
Proof. intros Hcwd. unfold member_key, abspath. by rewrite Hcwd. Qed.

(** All members, in the order of the archive. *)
Lemma write_members_return data_dir members w w' :
  for_each members (write_member E data_dir) w = (w', inr tt) ->
  cwd w' = cwd w
  /\ (forall k, is_Some (fs w !! k) -> is_Some (fs w' !! k))
  /\ (forall k v, k ∉ member_key w data_dir <$> members ->
                  fs w !! k = Some v -> fs w' !! k = Some v)
  /\ (forall member, member ∈ members ->
        is_Some (fs w' !! member_key w data_dir member)
        /\ path_exists w'
             (PosixPath.dirname
                (PosixPath.join data_dir (PosixPath.basename (fst member)))) = true
        /\ (NoDup (member_key w data_dir <$> members) ->
            exists text, decode E (snd member) = inr text
                         /\ fs w' !! member_key w data_dir member = Some (File text))).
Proof.
  revert w. induction members as [|m rest IH]; intros w; simpl.
  - intros [= <-]. split; [done |]. split; [auto |]. split; [auto |].
    intros member Hin. by apply elem_of_nil in Hin.
  - unfold bind at 1.
    destruct (write_member E data_dir m w) as [w1 [e|[]]] eqn:Hm; [discriminate |].
    apply write_member_returns in Hm
      as (Hcwd1 & (text & Hdec & Hfile) & Hdir & Hkeep & Hmono).
    fold (member_key w data_dir m) in Hfile, Hkeep.
    intros Hrest. apply IH in Hrest as (Hcwd & Hmono' & Hkeep' & Hall).
    rewrite (member_key_cwd _ _ _ Hcwd1) in Hkeep', Hall.
    split; [congruence |]. split; [by auto |]. split.
    { intros k v Hk Hl. apply not_elem_of_cons in Hk as [Hne Hk].
      apply Hkeep'; [exact Hk |]. by apply Hkeep. }
    intros member [-> | Hin]%elem_of_cons.
    + split; [apply Hmono'; by eexists |]. split.
      * eapply path_exists_mono; [exact Hcwd | | exact Hdir]. done.
      * intros [Hfresh _]%NoDup_cons. exists text. split; [exact Hdec |].
        by apply Hkeep'.
    + destruct (Hall member Hin) as (Hsome & Hd & Hcontent).
      split; [exact Hsome |]. split; [exact Hd |].
      intros [_ Hnodup]%NoDup_cons. by apply Hcontent.
Qed.

Lemma unzip_7z_returns fname w w' :
  _unzip_7z E fname w = (w', inr tt) ->
  exists raw members,
    fs w !! abspath w fname = Some (File raw)
    /\ Archive7z E raw = inr members
    /\ forall member, member ∈ members ->
         path_exists w' (destination fname member) = true
         /\ path_exists w' (PosixPath.dirname (destination fname member)) = true
         /\ (NoDup ((fun m => abspath w (destination fname m)) <$> members) ->
             exists text, decode E (snd member) = inr text
                          /\ fs w' !! abspath w (destination fname member)
                             = Some (File text)).
Proof.
  unfold _unzip_7z. unfold bind at 1, emit at 1, modify at 1.
  unfold bind at 1. unfold on_error, bind at 1.
  set (w0 := add_trace (EvExtract "7z" fname) w).
  unfold read_rb.
  destruct (PyStr.truthy fname) eqn:Ht; simpl negb; cbv iota.
  2:{ unfold print, modify. discriminate. }
  change (fs w0) with (fs w). change (abspath w0 fname) with (abspath w fname).
  destruct (fs w !! abspath w fname) as [[|raw]|] eqn:Hfile;
    try (unfold print, modify; discriminate).
  destruct (Archive7z E raw) as [e|members] eqn:Harc;
    [unfold raise, print, modify; discriminate |].
  unfold ret. intros Hloop.
  apply write_members_return in Hloop as (Hcwd & Hmono & Hkeep & Hall).
  exists raw, members. split; [reflexivity |]. split; [exact Harc |].
  intros member Hin. destruct (Hall member Hin) as (Hsome & Hdir & Hcontent).
  change (member_key w0) with (member_key w) in *.
  split; [| split].
  - unfold path_exists. apply andb_true_iff. split.
    + (* the destination was opened for writing, so it is not the empty path *)
      destruct (destination fname member) eqn:Hdest; [| reflexivity].
      exfalso. unfold path_exists in Hdir. unfold destination in Hdest.
      rewrite Hdest in Hdir. discriminate.
    + apply bool_decide_eq_true.
      unfold abspath. rewrite Hcwd. exact Hsome.
  - exact Hdir.
  - exact Hcontent.
Qed.


(** C6, as the code has it.  When [_unzip_7z] returns, the file named was
    read and parsed, and for every member of the archive: the file
    [data_dir/basename(member)] exists, where [data_dir] is the directory of
    the archive and the member keeps its own base name, extension included;
    the directory of that file exists; and, when no two members go to the
    same file, its content is the member's decoded text. *)
Theorem unzip_7z_writes_members fname w :
  snd (_unzip_7z E fname w) = inr tt ->
  exists raw members,
    fs w !! abspath w fname = Some (File raw)
    /\ Archive7z E raw = inr members
    /\ forall member, member ∈ members ->
         let w' := fst (_unzip_7z E fname w) in
         path_exists w' (destination fname member) = true
         /\ path_exists w' (PosixPath.dirname (destination fname member)) = true
         /\ (NoDup ((fun m => abspath w (destination fname m)) <$> members) ->
             exists text, decode E (snd member) = inr text
                          /\ fs w' !! abspath w (destination fname member)
                             = Some (File text)).
Proof.
  destruct (_unzip_7z E fname w) as [w' r] eqn:Hrun. simpl. intros ->.
  exact (unzip_7z_returns _ _ _ Hrun).
Qed.

End Members.

(** C6 as stated fails: the member [sub/notes.txt] of [/data/a.7z] is written
    to [/data/notes.txt]; no path ending in [.gnd] exists afterwards and no
    directory was made for [sub]. *)
Lemma member_keeps_its_name :
  snd (_unzip_7z Demo.env "/data/a.7z" Demo.lidar) = inr tt
  /\ fs (fst (_unzip_7z Demo.env "/data/a.7z" Demo.lidar)) !! "/data/notes.txt"
     = Some (File "ground level")
  /\ existsb (fun entry => PyStr.endswith (fst entry) ".gnd")
       (map_to_list (fs (fst (_unzip_7z Demo.env "/data/a.7z" Demo.lidar))))
     = false
  /\ existsb (fun entry => PyStr.contains (fst entry) "sub")
       (map_to_list (fs (fst (_unzip_7z Demo.env "/data/a.7z" Demo.lidar))))
     = false.
Proof. repeat split; vm_compute; reflexivity. Qed.

(** The amended C6 on the same archive. *)
Lemma unzip_7z_writes_members_witness :
  path_exists (fst (_unzip_7z Demo.env "/data/a.7z" Demo.lidar)) "/data/notes.txt"
  = true
  /\ path_exists (fst (_unzip_7z Demo.env "/data/a.7z" Demo.lidar)) "/data" = true
  /\ fs (fst (_unzip_7z Demo.env "/data/a.7z" Demo.lidar)) !! "/data/notes.txt"
     = Some (File "ground level").
Proof.
  assert (snd (_unzip_7z Demo.env "/data/a.7z" Demo.lidar) = inr tt) as Hrun
    by (vm_compute; reflexivity).
  destruct (unzip_7z_writes_members Demo.env "/data/a.7z" Demo.lidar Hrun)
    as (raw & members & Hraw & Harc & Hall).
  assert (raw = "ground level") as Hr by (vm_compute in Hraw; congruence).
  rewrite Hr in Harc.
  assert (members = [("sub/notes.txt", "ground level")]) as Hm
    by (vm_compute in Harc; congruence).
  rewrite Hm in Hall.
  pose proof (Hall ("sub/notes.txt", "ground level")
                (list_elem_of_here _ _)) as (Hdest & Hdir & Hcontent).
  split; [exact Hdest |]. split; [exact Hdir |].
  pose proof (Hcontent (NoDup_singleton _)) as (text & Hdec & Hfile).
  assert (text = "ground level") as Ht by (vm_compute in Hdec; congruence).
  rewrite Ht in Hfile. exact Hfile.
Defined.

(** ** The library functions on samples *)

Example replace_every_occurrence :
  PyStr.replace "aaa" "aa" "b" = "ba"
  /\ PyStr.replace "a.7z" "7z" "gnd" = "a.gnd"
  /\ PyStr.replace "x.html.html" ".html" "/f" = "x/f/f".
Proof. repeat split; reflexivity. Qed.

Example strip_both_ends : PyStr.strip "  a b  " = "a b".
Proof. reflexivity. Qed.

Example decimal_of_integers :
  PyStr.of_Z 120 = "120" /\ PyStr.of_Z (-5) = "-5" /\ PyStr.of_Z 0 = "0".
Proof. repeat split; reflexivity. Qed.

Example split_at_last_slash :
  PosixPath.split "http://x/dem.zip" = ("http://x", "dem.zip")
  /\ PosixPath.split "/a" = ("/", "a")
  /\ PosixPath.split "a" = ("", "a")
  /\ PosixPath.split "//a" = ("//", "a")
  /\ PosixPath.split "a/b/" = ("a/b", "").
Proof. repeat split; reflexivity. Qed.

Example join_samples :
  PosixPath.join3 "/h" "data" "a.7z" = "/h/data/a.7z"
  /\ PosixPath.join "" "a" = "a"
  /\ PosixPath.join "x/" "a" = "x/a"
  /\ PosixPath.join "x" "/a" = "/a"
  /\ PosixPath.join "x" "" = "x/".
Proof. repeat split; reflexivity. Qed.

Example dirname_basename_samples :
  PosixPath.dirname "a.7z" = ""
  /\ PosixPath.dirname "/h/data/a.7z" = "/h/data"
  /\ PosixPath.basename "sub/x.gnd" = "x.gnd".
Proof. repeat split; reflexivity. Qed.

Example format_time_samples :
  Bar.format_time 0 = "00:00:00"
  /\ Bar.format_time (3725 # 1) = "01:02:05"
  /\ Bar.format_time (-(1 # 2)) = "23:59:59".
Proof. repeat split; reflexivity. Qed.

(** The spec's first scenario: [dem.tif] is absent, [dem.zip] is fetched into
    the topic's directory, unpacked and removed. *)
Example terrain_scenario :
  let run := main Demo.env "/data" [("terrain", [Demo.dem])]
               (mkWorld "/data" ∅ [] [] [] 0) in
  snd run = inr tt
  /\ trace (fst run) = [EvGet "http://x/dem.zip"; EvExtract "zip" "dem.zip"]
  /\ fs (fst run) !! "/data/terrain/dem.tif" = Some (File "tif")
  /\ fs (fst run) !! "/data/terrain/dem.zip" = None
  /\ cwd (fst run) = "/data".
Proof. vm_compute. repeat split; reflexivity. Qed.

(** The lidar scenario: the first unit is skipped because [a.gnd] is there,
    the second is requested from [http://x/index/b.7z], which the sample
    server does not have. *)
Example lidar_scenario :
  let run := _process_dataset Demo.env Demo.scans "/data/lidar" "/data"
               Demo.half_done in
  stdout (fst run) = ["Skipping Lidar 1 of 2"; "Downloading Lidar 2 of 2"]
  /\ trace (fst run) = [EvGet "http://x/index/b.7z"]
  /\ snd run = inl (Raise "ConnectionError" "http://x/index/b.7z").
Proof. vm_compute. repeat split; reflexivity. Qed.

(** A disk error in the chunk-write loop: the kilobyte does not fit, the
    failure of [f.write] reaches the caller and [dem.zip] is removed. *)
Example disk_error_scenario :
  let run := _url_to_binary_write Demo.small_disk "http://x/dem.zip" "dem.zip" "DEM"
               Demo.home in
  snd run = inl (OSError "File too large")
  /\ fs (fst run) !! "/home/dem.zip" = None.
Proof. vm_compute. repeat split; reflexivity. Qed.

(** * Further properties of the script *)

(** ** The download and the disk *)

#[local] Instance except_key_preorder k : PreOrder (except_key k).
Proof.
  split.
  - intros w. by split.
  - intros a b c [H1 H2] [H3 H4]. split; [congruence |].
    intros k' Hk. rewrite H4, H2; done.
Qed.

#[local] Instance same_stream_preorder : PreOrder same_stream.
Proof. split; unfold same_stream; [intros w | intros a b c]; congruence. Qed.

Lemma same_disk_except_key k w w' : same_disk w w' -> except_key k w w'.
Proof. intros (Hc & Hf & _). split; [exact Hc | intros k' _; by rewrite Hf]. Qed.

Lemma append_empty_r (s : string) : s +:+ "" = s.
Proof.
  induction s as [|c s IH]; [reflexivity |].
  change (String c (s +:+ "") = String c s). by rewrite IH.
Qed.

Lemma append_assoc (a b c : string) : (a +:+ b) +:+ c = a +:+ (b +:+ c).
Proof.
  induction a as [|x a IH]; [reflexivity |].
  change (String x ((a +:+ b) +:+ c) = String x (a +:+ (b +:+ c))). by rewrite IH.
Qed.

Section DownloadDisk.

Context (E : Env).

Lemma f_write_except_key h data : preserves (except_key h) (f_write E h data).
Proof.
  intros w w' r. unfold f_write.
  destruct (fs w !! h) as [[|c]|]; try (intros [= <- _]; reflexivity).
  case_bool_decide; intros [= <- _]; [| reflexivity].
  split; [done |]. intros k' Hk. simpl. by rewrite lookup_insert_ne.
Qed.

Lemma open_w_except_key p w w' r :
  open_w p w = (w', r) -> except_key (abspath w p) w w'.
Proof.
  unfold open_w. destruct (negb (PyStr.truthy p)); [intros [= <- _]; reflexivity |].
  destruct (fs w !! abspath w p) as [[|c]|]; intros [= <- _]; try reflexivity.
  all: split; [done |]; intros k' Hk; simpl; by rewrite lookup_insert_ne.
Qed.

Lemma os_remove_except_key p w w' r :
  os_remove p w = (w', r) -> except_key (abspath w p) w w'.
Proof.
  unfold os_remove. destruct (negb (PyStr.truthy p)); [intros [= <- _]; reflexivity |].
  destruct (fs w !! abspath w p) as [[|c]|]; intros [= <- _]; try reflexivity.
  split; [done |]. intros k' Hk. simpl. by rewrite lookup_delete_ne.
Qed.

Lemma write_response_except_key resp output_path w w' r :
  write_response E resp output_path w = (w', r) ->
  except_key (abspath w output_path) w w'.
Proof.
  unfold write_response. unfold bind at 1.
  destruct (open_w output_path w) as [w1 [e|f]] eqn:Hopen.
  { intros [= <- _]. eapply open_w_except_key, Hopen. }
  pose proof (open_w_except_key _ _ _ _ Hopen) as H1.
  apply open_w_returns in Hopen as (-> & _ & _).
  unfold bind at 1, int_header.
  destruct (content_length resp); try (intros [= <- _]; exact H1).
  unfold ret. intros Hbar. transitivity w1; [exact H1 |].
  revert Hbar. apply bar_preserves; [apply _ | apply same_disk_except_key |].
  intros c. destruct (PyStr.truthy c); [apply f_write_except_key |].
  apply preserves_ret. apply _.
Qed.

Lemma remove_partial_except_key output_path w w' r :
  remove_partial output_path w = (w', r) ->
  except_key (abspath w output_path) w w'.
Proof.
  unfold remove_partial, bind, exists_, gets.
  destruct (path_exists w output_path).
  - apply os_remove_except_key.
  - intros [= <- _]. reflexivity.
Qed.

(** X1.  Whatever a download does, return or raise, no path of the disk
    other than the output path is created, changed or removed. *)
Theorem download_touches_only_the_output url_ output_path title_ w k :
  k <> abspath w output_path ->
  fs (fst (_url_to_binary_write E url_ output_path title_ w)) !! k = fs w !! k.
Proof.
  intros Hk. unfold _url_to_binary_write, bind, print, emit, modify.
  fold (announced url_ title_ w).
  destruct (requests_get E url_) as [e|resp]; [reflexivity |].
  unfold on_error.
  destruct (write_response E resp output_path (announced url_ title_ w))
    as [w1 [e|u]] eqn:Hbody.
  - apply write_response_except_key in Hbody as [Hc1 Hf1].
    destruct (remove_partial output_path w1) as [w2 r2] eqn:Hrm.
    apply remove_partial_except_key in Hrm as [Hc2 Hf2].
    assert (abspath w1 output_path = abspath w output_path) as Hkey
      by (unfold abspath; by rewrite Hc1).
    rewrite Hkey in Hf2.
    assert (fs w2 !! k = fs w !! k) as Hw2
      by (rewrite Hf2 by exact Hk; by apply Hf1).
    by destruct r2.
  - apply write_response_except_key in Hbody as [_ Hf1]. simpl. by apply Hf1.
Qed.

End DownloadDisk.

(** The witness of X1: a download over [dem.zip] leaves [notes] alone. *)
Lemma download_touches_only_the_output_witness :
  fs (fst (_url_to_binary_write Demo.env "http://x/dem.zip" "dem.zip" "DEM" Demo.stale))
    !! "/home/notes" = Some (File "keep").
Proof.
  assert ("/home/notes" <> abspath Demo.stale "dem.zip") as Hk
    by (vm_compute; discriminate).
  exact (download_touches_only_the_output Demo.env "http://x/dem.zip" "dem.zip" "DEM"
           Demo.stale "/home/notes" Hk).
Defined.

Section DownloadBody.

Context (E : Env).

(** The loop appends the chunks to the open file, in their order. *)
Lemma bar_loop_appends h i it b w b' w' c0 :
  bar_loop E (fun chunk => if PyStr.truthy chunk then f_write E h chunk else ret tt)
    i it (b, w) = ((b', w'), inr None) ->
  fs w !! h = Some (File c0) ->
  exists chunks, it = Chunk <$> chunks
                 /\ fs w' !! h = Some (File (c0 +:+ join_chunks chunks)).
Proof.
  revert i b w c0. induction it as [|[c|e] rest IH]; intros i b w c0; simpl.
  - intros [= _ <-] Hfile. exists []. split; [reflexivity |].
    simpl. by rewrite append_empty_r.
  - destruct ((if PyStr.truthy c then f_write E h c else ret tt) w)
      as [w1 [e|[]]] eqn:Hbody; [discriminate |].
    unfold bind at 1.
    destruct (Bar.show E (i + 1) None (b, w1)) as [[b1 w2] [e|[]]] eqn:Hshow;
      [discriminate |].
    apply show_same_disk in Hshow as (_ & Hfs2 & _). simpl in Hfs2.
    intros Hrest Hfile.
    assert (fs w1 !! h = Some (File (c0 +:+ c))) as Hfile1.
    { destruct c as [|x c]; simpl in Hbody.
      - injection Hbody as <-. by rewrite append_empty_r.
      - apply f_write_returns in Hbody as (c1 & Hc1 & ->).
        simpl. rewrite lookup_insert_eq. congruence. }
    rewrite <- Hfs2 in Hfile1.
    destruct (IH _ _ _ _ Hrest Hfile1) as (chunks & -> & Hfinal).
    exists (c :: chunks). split; [reflexivity |].
    simpl. by rewrite <- append_assoc.
  - discriminate.
Qed.

Lemma bar_appends h it size every_ w w' c0 :
  bar E it (fun chunk => if PyStr.truthy chunk then f_write E h chunk else ret tt)
    size every_ w = (w', inr tt) ->
  fs w !! h = Some (File c0) ->
  exists chunks, it = Chunk <$> chunks
                 /\ fs w' !! h = Some (File (c0 +:+ join_chunks chunks)).
Proof.
  unfold bar, bar_run. destruct size as [count|]; [| discriminate].
  destruct (Bar.__init__ E "" 32 None BAR_EMPTY_CHAR BAR_FILLED_CHAR (Some count)
              every_ w) as [w1 [e|self]] eqn:Hinit; [discriminate |].
  apply init_same_disk in Hinit as (_ & Hfs1 & _).
  destruct (bar_loop E _ 0 it (self, w1)) as [[b1 w2] [e|[e|]]] eqn:Hloop.
  - destruct (Bar.done E (b1, w2)) as [[b2 w3] [e2|u]]; discriminate.
  - destruct (Bar.done E (b1, w2)) as [[b2 w3] r2]; discriminate.
  - destruct (Bar.done E (b1, w2)) as [[b2 w3] [e2|u]] eqn:Hdone; [discriminate |].
    apply done_same_disk in Hdone as (_ & Hfs3 & _). simpl in Hfs3.
    intros [= <-] Hfile. rewrite <- Hfs1 in Hfile.
    destruct (bar_loop_appends _ _ _ _ _ _ _ _ Hloop Hfile) as (chunks & -> & Hfinal).
    exists chunks. split; [reflexivity |]. by rewrite Hfs3.
Qed.

(** X2.  When a download returns, the response was opened, its stream
    delivered chunks only, and the output file holds exactly those chunks one
    after the other: whatever the file held before is gone. *)
Theorem download_writes_the_body url_ output_path title_ w :
  snd (_url_to_binary_write E url_ output_path title_ w) = inr tt ->
  exists resp chunks,
    requests_get E url_ = inr resp
    /\ iter_content resp = Chunk <$> chunks
    /\ fs (fst (_url_to_binary_write E url_ output_path title_ w))
         !! abspath w output_path = Some (File (join_chunks chunks)).
Proof.
  unfold _url_to_binary_write, bind, print, emit, modify.
  fold (announced url_ title_ w).
  destruct (requests_get E url_) as [e|resp]; [discriminate |].
  unfold on_error.
  destruct (write_response E resp output_path (announced url_ title_ w))
    as [w1 [e|[]]] eqn:Hbody.
  { destruct (remove_partial output_path w1) as [w2 [e2|u2]]; discriminate. }
  intros _. simpl. revert Hbody. unfold write_response. unfold bind at 1.
  destruct (open_w output_path (announced url_ title_ w)) as [w0 [e|f]] eqn:Hopen;
    [discriminate |].
  apply open_w_returns in Hopen as (-> & _ & ->).
  unfold bind at 1, int_header.
  destruct (content_length resp); try discriminate.
  unfold ret. intros Hbar.
  eapply bar_appends in Hbar as (chunks & Hitems & Hfile).
  2:{ simpl. apply lookup_insert_eq. }
  exists resp, chunks. split; [reflexivity |]. split; [exact Hitems |]. exact Hfile.
Qed.

End DownloadBody.

(** The witness of X2: [dem.zip] replaces the stale file by the kilobyte the
    server sent. *)
Lemma download_writes_the_body_witness :
  fs (fst (_url_to_binary_write Demo.env "http://x/dem.zip" "dem.zip" "DEM" Demo.stale))
    !! "/home/dem.zip" = Some (File Demo.kilobyte).
Proof.
  assert (snd (_url_to_binary_write Demo.env "http://x/dem.zip" "dem.zip" "DEM"
                 Demo.stale) = inr tt) as Hrun by (vm_compute; reflexivity).
  destruct (download_writes_the_body Demo.env _ _ _ _ Hrun)
    as (resp & chunks & Hget & Hitems & Hfile).
  assert (requests_get Demo.env "http://x/dem.zip"
          = inr (mkResponse (HeaderInt 1024) [Chunk Demo.kilobyte])) as Hpage
    by reflexivity.
  rewrite Hpage in Hget. injection Hget as <-.
  change ([Chunk Demo.kilobyte] = Chunk <$> chunks) in Hitems.
  destruct chunks as [|c [|c' chunks]]; try discriminate Hitems.
  injection Hitems as <-.
  assert (join_chunks [Demo.kilobyte] = Demo.kilobyte) as Hjoin
    by exact (append_empty_r Demo.kilobyte).
  rewrite Hjoin in Hfile. exact Hfile.
Defined.

(** ** A response without a length *)

Section NoLength.

Context (E : Env).

Lemma plain_name_truthy name : plain_name name = true -> PyStr.truthy name = true.
Proof. unfold plain_name. by intros [[[Ht _]%andb_true_iff _]%andb_true_iff _]%andb_true_iff. Qed.

(** X3.  When the response carries no [content-length], the file has been
    opened by then: for a plain file name in an existing working directory,
    the download fails with the [TypeError] of [int(None)], no bar is made
    (the clock is not read, nothing is written to [STREAM]), and the output
    path names nothing afterwards, also when a file was there before the
    call. *)
Theorem download_without_length url_ output_path title_ resp w :
  requests_get E url_ = inr resp ->
  content_length resp = HeaderMissing ->
  plain_name output_path = true ->
  fs w !! cwd w = Some Dir ->
  fs w !! abspath w output_path <> Some Dir ->
  _url_to_binary_write E url_ output_path title_ w
  = (set_fs (delete (abspath w output_path) (fs w)) (announced url_ title_ w),
     inl (TypeError (int_none_message E))).
Proof.
  intros Hget Hlen Ht%plain_name_truthy _ Hnodir.
  rewrite (url_to_binary_write_unfold _ _ _ _ _ _ Hget).
  unfold on_error, write_response. unfold bind at 1.
  assert (open_w output_path (announced url_ title_ w)
          = (set_fs (<[abspath w output_path := File ""]> (fs w)) (announced url_ title_ w),
             inr (abspath w output_path))) as ->.
  { unfold open_w. rewrite Ht. simpl negb. cbv iota.
    change (fs (announced url_ title_ w)) with (fs w).
    change (abspath (announced url_ title_ w) output_path) with (abspath w output_path).
    destruct (fs w !! abspath w output_path) as [[|c]|]; [contradiction | done | done]. }
  unfold bind at 1. rewrite Hlen. unfold int_header, raise.
  unfold remove_partial, bind, exists_, gets.
  set (w1 := set_fs _ (announced url_ title_ w)).
  assert (fs w1 !! abspath w1 output_path = Some (File "")) as Hfile
    by (unfold w1, abspath; simpl; apply lookup_insert_eq).
  assert (path_exists w1 output_path = true) as ->.
  { unfold path_exists. by rewrite Ht, Hfile. }
  unfold os_remove. rewrite Ht, Hfile. simpl.
  unfold w1, set_fs, abspath. simpl. by rewrite delete_insert_eq.
Qed.

End NoLength.

(** The witness of X3: the stale [dem.zip] is lost to a response without a
    length. *)
Lemma download_without_length_witness :
  snd (_url_to_binary_write Demo.headless "http://x/dem.zip" "dem.zip" "DEM" Demo.stale)
  = inl (TypeError (int_none_message Demo.headless))
  /\ fs (fst (_url_to_binary_write Demo.headless "http://x/dem.zip" "dem.zip" "DEM"
                Demo.stale)) !! "/home/dem.zip" = None
  /\ fs (fst (_url_to_binary_write Demo.headless "http://x/dem.zip" "dem.zip" "DEM"
                Demo.stale)) !! "/home/notes" = Some (File "keep")
  /\ stream (fst (_url_to_binary_write Demo.headless "http://x/dem.zip" "dem.zip" "DEM"
                    Demo.stale)) = [].
Proof.
  assert (fs Demo.stale !! abspath Demo.stale "dem.zip" <> Some Dir) as Hnodir
    by (vm_compute; discriminate).
  rewrite (download_without_length Demo.headless "http://x/dem.zip" "dem.zip" "DEM"
             (mkResponse HeaderMissing [Chunk Demo.kilobyte]) Demo.stale
             eq_refl eq_refl eq_refl eq_refl Hnodir).
  split; [reflexivity |]. repeat split; vm_compute; reflexivity.
Defined.

(** ** What the bar counts *)

Section BarCounts.

Context (E : Env).

(** X4.  When the generator [bar] runs to its end over an iterable, the last
    progress it reported is the number of items of the iterable, and the
    expected size is still the one it was given. *)
Theorem bar_counts_the_items it body label_ width_ hide_ count every_ w b w' :
  bar_run E it body label_ width_ hide_ (Some count) every_ w
  = ((Some b, w'), inr tt) ->
  Bar.last_progress b = Z.of_nat (length it)
  /\ Bar.expected_size b = Some count.
Proof. apply bar_run_returns. Qed.

(** Under a hidden bar nothing reaches [STREAM]. *)
Lemma show_hidden progress count b w b' w' r :
  Bar.show E progress count (b, w) = ((b', w'), r) ->
  Bar.hide b = true ->
  Bar.hide b' = true /\ stream w' = stream w.
Proof.
  unfold Bar.show, bind, ret, raise, Bar.upd, Bar.field, Bar.io, gets, modify,
    time_time, STREAM_write.
  simpl.
  repeat (case_match; simpl); intros Hrun Hhide; simplify_eq/=;
    first [done | congruence].
Qed.

Lemma done_hidden b w b' w' r :
  Bar.done E (b, w) = ((b', w'), r) ->
  Bar.hide b = true ->
  Bar.hide b' = true /\ stream w' = stream w.
Proof.
  unfold Bar.done, bind, ret, raise, Bar.upd, Bar.field, Bar.io, gets, modify,
    time_time, STREAM_write.
  simpl.
  repeat (case_match; simpl); intros Hrun Hhide; simplify_eq/=;
    first [done | congruence].
Qed.

Lemma init_piped label_ width_ ec fc size every_ w w' r :
  isatty E = false ->
  Bar.__init__ E label_ width_ None ec fc size every_ w = (w', r) ->
  stream w' = stream w
  /\ match r with inr self => Bar.hide self = true | inl _ => True end.
Proof.
  intros Htty. unfold Bar.__init__, bind, time_time. rewrite Htty. cbv zeta.
  match goal with |- context [if ?b then _ else _] => destruct b end.
  - match goal with
    | |- context [Bar.show E 0 None ?s] =>
        destruct (Bar.show E 0 None s) as [[b1 w1] r1] eqn:Hshow
    end.
    apply show_hidden in Hshow as [Hh Hs]; [| reflexivity].
    destruct r1; intros [= <- <-]; by split.
  - intros [= <- <-]. by split.
Qed.

Lemma bar_loop_hidden body i it b w b' w' r :
  (forall c, preserves same_stream (body c)) ->
  bar_loop E body i it (b, w) = ((b', w'), r) ->
  Bar.hide b = true ->
  Bar.hide b' = true /\ stream w' = stream w.
Proof.
  intros Hbody. revert i b w. induction it as [|[c|e] rest IH]; intros i b w; simpl.
  - intros [= <- <- _] Hh. by split.
  - destruct (body c w) as [w1 [e|u]] eqn:Hb.
    + intros [= <- <- _] Hh. split; [exact Hh | eapply Hbody, Hb].
    + apply Hbody in Hb. unfold bind at 1.
      destruct (Bar.show E (i + 1) None (b, w1)) as [[b1 w2] [e|[]]] eqn:Hshow.
      * intros [= <- <- _] Hh. apply show_hidden in Hshow as [Hh1 Hs1]; [| exact Hh].
        split; [exact Hh1 | by rewrite Hs1].
      * intros Hrest Hh. apply show_hidden in Hshow as [Hh1 Hs1]; [| exact Hh].
        destruct (IH _ _ _ Hrest Hh1) as [Hh2 Hs2].
        split; [exact Hh2 |]. rewrite Hs2, Hs1. exact Hb.
  - intros [= <- <- _] Hh. by split.
Qed.

Lemma bar_piped it body size every_ :
  isatty E = false ->
  (forall c, preserves same_stream (body c)) ->
  preserves same_stream (bar E it body size every_).
Proof.
  intros Htty Hbody w w' r. unfold bar, bar_run.
  destruct size as [count|]; [| by intros [= <- _]].
  destruct (Bar.__init__ E "" 32 None BAR_EMPTY_CHAR BAR_FILLED_CHAR (Some count)
              every_ w) as [w1 [e|self]] eqn:Hinit.
  { apply (init_piped _ _ _ _ _ _ _ _ _ Htty) in Hinit as [Hs _].
    by intros [= <- _]. }
  apply (init_piped _ _ _ _ _ _ _ _ _ Htty) in Hinit as [Hs1 Hh].
  destruct (bar_loop E body 0 it (self, w1)) as [[b1 w2] r2] eqn:Hloop.
  apply (bar_loop_hidden _ _ _ _ _ _ _ _ Hbody) in Hloop as [Hh2 Hs2]; [| exact Hh].
  destruct (Bar.done E (b1, w2)) as [[b3 w3] r3] eqn:Hdone.
  apply done_hidden in Hdone as [_ Hs3]; [| exact Hh2].
  assert (same_stream w w3) as Hall by (unfold same_stream; congruence).
  destruct r2 as [e|[e|]]; [destruct r3 | | destruct r3]; by intros [= <- _].
Qed.

Lemma same_dirs_steps_same_stream :
  (forall line, preserves same_stream (print line))
  /\ (forall ev, preserves same_stream (emit ev))
  /\ (forall p, preserves same_stream (open_w p))
  /\ (forall h data, preserves same_stream (f_write E h data))
  /\ (forall p, preserves same_stream (os_remove p)).
Proof.
  repeat apply conj.
  - intros line. apply preserves_modify. by intros w.
  - intros ev. apply preserves_modify. by intros w.
  - intros p w w' r. unfold open_w. repeat case_match; by intros [= <- _].
  - intros h data w w' r. unfold f_write. repeat case_match; by intros [= <- _].
  - intros p w w' r. unfold os_remove. repeat case_match; by intros [= <- _].
Qed.

(** X5.  When [STREAM] is not a terminal, a download writes nothing to it,
    whether it returns or raises: the bar is hidden by default. *)
Theorem piped_download_is_silent url_ output_path title_ w :
  isatty E = false ->
  stream (fst (_url_to_binary_write E url_ output_path title_ w)) = stream w.
Proof.
  intros Htty.
  destruct same_dirs_steps_same_stream as (Hprint & Hemit & Hopen & Hwrite & Hremove).
  destruct (_url_to_binary_write E url_ output_path title_ w) as [w' r] eqn:Hrun.
  simpl. revert Hrun.
  assert (preserves same_stream (_url_to_binary_write E url_ output_path title_))
    as Hall; [| apply Hall].
  unfold _url_to_binary_write.
  apply preserves_bind; [apply _ | apply Hprint | intros _].
  apply preserves_bind; [apply _ | apply Hemit | intros _].
  destruct (requests_get E url_) as [e|resp]; [apply preserves_raise; apply _ |].
  apply preserves_on_error; [apply _ | |].
  - unfold write_response.
    apply preserves_bind; [apply _ | apply Hopen | intros f].
    apply preserves_bind; [apply _ | | intros total_length].
    { unfold int_header. repeat preserves_step. }
    apply bar_piped; [exact Htty |].
    intros c. destruct (PyStr.truthy c); [apply Hwrite |].
    apply preserves_ret. apply _.
  - unfold remove_partial.
    apply preserves_bind; [apply _ | apply preserves_gets; apply _ | intros present].
    destruct present; [apply Hremove | apply preserves_ret; apply _].
Qed.

End BarCounts.

(** The witness of X4: one chunk, last progress 1. *)
Lemma bar_counts_the_items_witness :
  exists b w',
    bar_run Demo.env [Chunk Demo.kilobyte] (fun _ => ret tt) "" 32 None
      (Some (expected_chunks 1024)) 1000 Demo.home = ((Some b, w'), inr tt)
    /\ Bar.last_progress b = 1%Z.
Proof.
  let run := eval vm_compute in
    (bar_run Demo.env [Chunk Demo.kilobyte] (fun _ => ret tt) "" 32 None
       (Some (expected_chunks 1024)) 1000 Demo.home) in
  lazymatch run with
  | ((Some ?b, ?w'), _) => exists b, w'
  end.
  match goal with
  | |- ?run /\ _ => assert run as Hrun by (vm_compute; reflexivity)
  end.
  split; [exact Hrun |].
  exact (proj1 (bar_counts_the_items Demo.env _ _ _ _ _ _ _ _ _ _ Hrun)).
Defined.

(** The witness of X5: the same download as in the terminal, piped. *)
Lemma piped_download_is_silent_witness :
  stream (fst (_url_to_binary_write Demo.piped "http://x/dem.zip" "dem.zip" "DEM"
                 Demo.home)) = [].
Proof.
  exact (piped_download_is_silent Demo.piped "http://x/dem.zip" "dem.zip" "DEM"
           Demo.home eq_refl).
Defined.

(** ** Bars that cannot show *)

Section BarMisuse.

Context (E : Env).

Lemma show_zero_total progress b w z :
  Bar.expected_size b = Some z ->
  Qeq_bool z 0 = true ->
  (exists e, snd (Bar.show E progress None (b, w)) = inl e)
  /\ stream (snd (fst (Bar.show E progress None (b, w)))) = stream w
  /\ Bar.expected_size (fst (fst (Bar.show E progress None (b, w)))) = Some z.
Proof.
  intros Hsize Hzero.
  destruct (Bar.show E progress None (b, w)) as [[b' w'] r] eqn:Hrun.
  simpl. revert Hrun.
  unfold Bar.show, bind, ret, raise, Bar.upd, Bar.field, Bar.io, gets, modify,
    time_time, STREAM_write.
  simpl. rewrite Hsize. simpl. rewrite Hzero.
  repeat (case_match; simpl); intros Hrun; simplify_eq/=;
    (split; [by eexists | by split]).
Qed.

(** X7.  A bar for an expected size of zero is made without a first [show]
    (the size is a false value).  On any bar whose expected size is zero,
    [show] without a count raises, whatever the progress and whatever else
    the bar holds; it writes nothing to [STREAM] and leaves the size zero,
    so that [show] fails until a call passes a count. *)
Theorem zero_total_bar_cannot_show z :
  (z == 0)%Q ->
  (forall label_ width_ hide_ ec fc every_ w,
     exists self,
       Bar.__init__ E label_ width_ hide_ ec fc (Some z) every_ w
       = (tick (tick w), inr self)
       /\ Bar.expected_size self = Some z)
  /\ (forall b progress w,
        Bar.expected_size b = Some z ->
        (exists e, snd (Bar.show E progress None (b, w)) = inl e)
        /\ stream (snd (fst (Bar.show E progress None (b, w)))) = stream w
        /\ Bar.expected_size (fst (fst (Bar.show E progress None (b, w)))) = Some z).
Proof.
  intros Hzero%Qeq_bool_iff. split.
  - intros label_ width_ hide_ ec fc every_ w.
    unfold Bar.__init__, bind, time_time. cbv zeta. rewrite Hzero. simpl.
    eexists. split; reflexivity.
  - intros b progress w Hsize. by apply show_zero_total.
Qed.

Lemma show_takes_count progress count b w :
  Bar.expected_size (fst (fst (Bar.show E progress (Some count) (b, w))))
  = Some count.
Proof.
  destruct (Bar.show E progress (Some count) (b, w)) as [[b' w'] r] eqn:Hrun.
  simpl. revert Hrun.
  unfold Bar.show, bind, ret, raise, Bar.upd, Bar.field, Bar.io, gets, modify,
    time_time, STREAM_write.
  simpl. repeat (case_match; simpl); intros Hrun; simplify_eq/=; reflexivity.
Qed.

(** X8.  A bar made without an expected size is made without a first [show];
    [show] without a count then raises [Exception('expected_size not
    initialized')] and changes neither the bar nor anything else; [show] with
    a count takes the count as the expected size. *)
Theorem sizeless_bar_needs_a_count label_ width_ hide_ ec fc every_ w :
  exists self,
    Bar.__init__ E label_ width_ hide_ ec fc None every_ w
    = (tick (tick w), inr self)
    /\ (forall progress w1,
          Bar.show E progress None (self, w1)
          = ((self, w1), inl (Raise "Exception" "expected_size not initialized")))
    /\ (forall progress count w1,
          Bar.expected_size (fst (fst (Bar.show E progress (Some count) (self, w1))))
          = Some count).
Proof.
  unfold Bar.__init__, bind, time_time. cbv zeta. simpl.
  eexists. split; [reflexivity |]. split.
  - intros progress w1. reflexivity.
  - intros progress count w1. apply show_takes_count.
Qed.

End BarMisuse.

(** The witness of X7, for the size that a [content-length] of -1024 gives:
    the bar is made, and the two calls of [show] that follow both raise. *)
Lemma zero_total_bar_cannot_show_witness :
  (expected_chunks (-1024) == 0)%Q
  /\ exists self,
       Bar.__init__ Demo.env "" 32 None BAR_EMPTY_CHAR BAR_FILLED_CHAR
         (Some (expected_chunks (-1024))) 1000 Demo.home
       = (tick (tick Demo.home), inr self)
       /\ (exists e, snd (Bar.show Demo.env 1 None (self, tick (tick Demo.home)))
                     = inl e)
       /\ (exists e,
             snd (Bar.show Demo.env 2 None
                    (fst (Bar.show Demo.env 1 None (self, tick (tick Demo.home)))))
             = inl e).
Proof.
  assert (expected_chunks (-1024) == 0)%Q as Hzero by reflexivity.
  split; [exact Hzero |].
  destruct (zero_total_bar_cannot_show Demo.env (expected_chunks (-1024)) Hzero)
    as [Hinit Hshow].
  destruct (Hinit "" 32%Z None BAR_EMPTY_CHAR BAR_FILLED_CHAR 1000%Z Demo.home)
    as (self & Hself & Hsize).
  exists self. split; [exact Hself |].
  destruct (Hshow self 1%Z (tick (tick Demo.home)) Hsize) as (Hraise & _ & Hsize1).
  split; [exact Hraise |].
  destruct (Bar.show Demo.env 1 None (self, tick (tick Demo.home)))
    as [[b1 w1] r1] eqn:Hrun.
  exact (proj1 (Hshow b1 2%Z w1 Hsize1)).
Defined.

(** ** Archives that cannot be read *)

Section Unreadable.

Context (E : Env).

(** X9.  When the file named [*.7z] cannot be parsed as a 7z archive, the
    extraction prints [FAILED ON 7Z] with the name and fails with the parser's
    exception; nothing on disk changes, so the archive is not removed. *)
Theorem unreadable_7z_is_kept output_path w raw e :
  PyStr.endswith output_path ".7z" = true ->
  fs w !! abspath w output_path = Some (File raw) ->
  Archive7z E raw = inl e ->
  _extract_downloaded_archive E output_path w
  = (add_stdout ("FAILED ON 7Z " +:+ output_path)
       (add_trace (EvExtract "7z" output_path) w),
     inl e).
Proof.
  intros H Hfile Harc.
  assert (PyStr.truthy output_path = true) as Ht
    by (destruct output_path; [vm_compute in H; discriminate | reflexivity]).
  unfold _extract_downloaded_archive.
  rewrite (ending_false _ _ "tar.gz" H eq_refl eq_refl),
    (ending_false _ _ "tar" H eq_refl eq_refl),
    (ending_false _ _ "tar.bz2" H eq_refl eq_refl),
    (ending_false _ _ "zip" H eq_refl eq_refl),
    (ending_true _ _ "7z" H eq_refl).
  unfold _unzip_7z, bind, emit, modify, on_error, read_rb. rewrite Ht. simpl negb.
  cbv iota.
  change (fs (add_trace (EvExtract "7z" output_path) w)) with (fs w).
  change (abspath (add_trace (EvExtract "7z" output_path) w) output_path)
    with (abspath w output_path).
  rewrite Hfile, Harc. reflexivity.
Qed.

(** X10.  When a member's contents cannot be decoded, its file has been
    opened by then: writing the member fails with the decoder's exception
    and leaves an empty file at the member's destination. *)
Theorem undecodable_member_leaves_empty_file data_dir member w e :
  let gnd := PosixPath.join data_dir (PosixPath.basename (fst member)) in
  path_exists w (PosixPath.dirname gnd) = true ->
  fs w !! abspath w gnd <> Some Dir ->
  decode E (snd member) = inl e ->
  write_member E data_dir member w
  = (set_fs (<[abspath w gnd := File ""]> (fs w)) w, inl e).
Proof.
  intros gnd Hdir Hnodir Hdec.
  assert (PyStr.truthy gnd = true) as Ht.
  { destruct gnd eqn:Hg; [| reflexivity].
    unfold path_exists in Hdir. discriminate. }
  unfold write_member. fold gnd. unfold bind, exists_, gets.
  rewrite Hdir. simpl. unfold open_w. rewrite Ht. simpl.
  rewrite Hdec.
  destruct (fs w !! abspath w gnd) as [[|c]|]; [contradiction | done | done].
Qed.

End Unreadable.

(** The witness of X9: [a.7z] is still there. *)
Lemma unreadable_7z_is_kept_witness :
  snd (_extract_downloaded_archive Demo.unreadable "/data/a.7z" Demo.lidar)
  = inl Demo.garbled
  /\ fs (fst (_extract_downloaded_archive Demo.unreadable "/data/a.7z" Demo.lidar))
       !! "/data/a.7z" = Some (File "ground level")
  /\ stdout (fst (_extract_downloaded_archive Demo.unreadable "/data/a.7z" Demo.lidar))
     = ["FAILED ON 7Z /data/a.7z"].
Proof.
  rewrite (unreadable_7z_is_kept Demo.unreadable "/data/a.7z" Demo.lidar
             "ground level" Demo.garbled eq_refl eq_refl eq_refl).
  repeat split; reflexivity.
Defined.

(** The witness of X10: [notes.txt] is left empty. *)
Lemma undecodable_member_leaves_empty_file_witness :
  write_member Demo.unreadable "/data" ("sub/notes.txt", "ground level") Demo.lidar
  = (set_fs (<["/data/notes.txt" := File ""]> (fs Demo.lidar)) Demo.lidar,
     inl Demo.undecodable).
Proof.
  assert (fs Demo.lidar !! "/data/notes.txt" <> Some Dir) as Hnodir
    by (vm_compute; discriminate).
  exact (undecodable_member_leaves_empty_file Demo.unreadable "/data"
           ("sub/notes.txt", "ground level") Demo.lidar Demo.undecodable
           eq_refl Hnodir eq_refl).
Defined.

(** ** The lidar expansion in general *)

Lemma replace_absent old new l :
  PyStr.contains_chars l old = false ->
  PyStr.replace_chars old new 0 l = l.
Proof.
  induction l as [|c l IH]; [reflexivity |].
  cbn [PyStr.contains_chars PyStr.replace_chars].
  intros [Hhere Hlater]%orb_false_iff. rewrite Hhere. by rewrite IH.
Qed.

(** X11.  When the url of a lidar dataset contains no [.html], nothing is
    substituted: every unit is requested from the dataset's url itself,
    whatever its file is called. *)
Theorem lidar_url_without_page here url_ files_ :
  PyStr.contains url_ ".html" = false ->
  fst (fst (_lidar_url_to_files here url_ files_)) = replicate (length files_) url_.
Proof.
  intros Habsent. unfold _lidar_url_to_files. simpl.
  induction files_ as [|f rest IH]; [reflexivity |].
  cbn [fmap list_fmap length replicate]. f_equal; [| exact IH].
  unfold PyStr.replace. rewrite replace_absent by exact Habsent.
  apply String.string_of_list_ascii_of_string.
Qed.

(** The witness of X11. *)
Lemma lidar_url_without_page_witness :
  fst (fst (_lidar_url_to_files "/data" "http://x/list" ["a.7z"; "b.7z"]))
  = ["http://x/list"; "http://x/list"].
Proof.
  exact (lidar_url_without_page "/data" "http://x/list" ["a.7z"; "b.7z"] eq_refl).
Defined.

Section LidarSkips.

Context (E : Env).

Lemma special_case_step_skips title_ n idx url_ output_path decompressed w :
  PyStr.contains title_ "{" = false ->
  PyStr.contains title_ "}" = false ->
  path_exists w decompressed = true ->
  special_case_step E title_ n (idx, (url_, output_path, decompressed)) w
  = (add_stdout ("Skipping " +:+ title_ +:+ " " +:+ PyStr.of_Z (idx + 1) +:+ " of "
                   +:+ PyStr.of_Z n) w, inr tt).
Proof.
  intros Hopen Hclose Hex. unfold special_case_step. unfold bind at 1.
  rewrite (title_format_plain _ _ _ _ Hopen Hclose).
  unfold bind, exists_, gets. by rewrite Hex.
Qed.

Lemma lidar_loop_skips here url_ title_ n idx files_ w :
  PyStr.contains title_ "{" = false ->
  PyStr.contains title_ "}" = false ->
  Forall (fun f => path_exists w (PyStr.replace f "7z" "gnd") = true) files_ ->
  for_each
    (enumerate_zip3 idx
       ((fun f => PyStr.replace url_ ".html" ("/" +:+ PyStr.strip f)) <$> files_)
       ((fun f => PosixPath.join3 here "data" (PosixPath.basename f)) <$> files_)
       ((fun f => PyStr.replace f "7z" "gnd") <$> files_))
    (special_case_step E title_ n) w
  = (print_all (skip_lines title_ n idx files_) w, inr tt).
Proof.
  intros Hopen Hclose. revert idx w.
  induction files_ as [|f rest IH]; intros idx w Hall.
  - simpl. unfold ret, print_all. rewrite app_nil_r. by destruct w.
  - apply Forall_cons in Hall as [Hf Hrest].
    cbn [fmap list_fmap enumerate_zip3 for_each skip_lines]. unfold bind at 1.
    rewrite (special_case_step_skips _ _ _ _ _ _ _ Hopen Hclose Hf).
    rewrite IH.
    + unfold print_all, add_stdout. simpl. by rewrite <- app_assoc.
    + eapply Forall_impl; [exact Hrest |]. intros g Hg. exact Hg.
Qed.

(** X12.  When the unpacked counterpart of every listed file of a lidar
    dataset exists (the file's name with [7z] replaced by [gnd], looked up in
    the working directory), the handler sends no request and unpacks nothing:
    it prints one skip line per file, numbered [i of n] in the order of the
    list, and returns; nothing else changes. *)
Theorem lidar_all_unpacked_only_prints here dataset url_ title_ w :
  tag dataset = Some "lidar" ->
  url dataset = Some url_ ->
  title dataset = Some title_ ->
  PyStr.contains title_ "{" = false ->
  PyStr.contains title_ "}" = false ->
  Forall (fun f => path_exists w (PyStr.replace f "7z" "gnd") = true)
         (default [] (files dataset)) ->
  _handle_special_cases E here dataset w
  = (print_all
       (skip_lines title_ (Z.of_nat (length (default [] (files dataset)))) 0
          (default [] (files dataset))) w,
     inr tt).
Proof.
  intros Htag Hurl Htitle Hopen Hclose Hall.
  unfold _handle_special_cases, bind, item. rewrite Htag, Hurl, Htitle. simpl.
  unfold _lidar_url_to_files. rewrite length_fmap.
  by apply lidar_loop_skips.
Qed.

End LidarSkips.

(** The witness of X12. *)
Lemma lidar_all_unpacked_only_prints_witness :
  _handle_special_cases Demo.env "/data" Demo.scans Demo.unpacked
  = (print_all ["Skipping Lidar 1 of 2"; "Skipping Lidar 2 of 2"] Demo.unpacked,
     inr tt).
Proof.
  assert (Forall (fun f => path_exists Demo.unpacked (PyStr.replace f "7z" "gnd") = true)
            (default [] (files Demo.scans))) as Hall by (repeat constructor).
  exact (lidar_all_unpacked_only_prints Demo.env "/data" Demo.scans
           "http://x/index.html" "Lidar" Demo.unpacked
           eq_refl eq_refl eq_refl eq_refl eq_refl Hall).
Defined.

(** ** Descriptors that need a download *)

Lemma cut_trailing_slash l :
  PosixPath.cut (l ++ [PosixPath.slash]) = (l ++ [PosixPath.slash], []).
Proof.
  induction l as [|c l IH]; [reflexivity |].
  cbn [app PosixPath.cut]. rewrite IH. by destruct l.
Qed.

Lemma basename_trailing_slash p :
  PyStr.endswith p "/" = true -> snd (PosixPath.split p) = "".
Proof.
  intros [k Hk]%endswith_suffix. unfold PosixPath.split.
  rewrite Hk. change (PyStr.chars "/") with [PosixPath.slash].
  by rewrite cut_trailing_slash.
Qed.

Section NeedsDownload.

Context (E : Env).

(** The branch that downloads one archive. *)
Lemma process_in_dir_downloads dataset here w :
  existsb (fun f => negb (path_exists w f)) (default [] (files dataset)) = true ->
  PyStr.truthy (default "" (tag dataset)) = false ->
  process_in_dir E dataset here w
  = (url_ <- item "url" (url dataset) ;;
     title_ <- item "title" (title dataset) ;;
     _url_to_binary_write E url_ (snd (PosixPath.split url_)) title_ ;;;
     _extract_downloaded_archive E (snd (PosixPath.split url_))) w.
Proof.
  intros Hmissing Htag. unfold process_in_dir. unfold bind at 1, gets. simpl.
  by rewrite Hmissing, Htag.
Qed.

(** X13.  A dataset without a tag of which a declared file is missing needs
    its [url] and its [title]: without the first, processing fails with
    [KeyError('url')], with the first and without the second with
    [KeyError('title')], in both cases before any request and with the world
    as it was. *)
Theorem download_needs_url_and_title dataset here w :
  existsb (fun f => negb (path_exists w f)) (default [] (files dataset)) = true ->
  PyStr.truthy (default "" (tag dataset)) = false ->
  (url dataset = None ->
   process_in_dir E dataset here w = (w, inl (KeyError "url")))
  /\ (is_Some (url dataset) -> title dataset = None ->
      process_in_dir E dataset here w = (w, inl (KeyError "title"))).
Proof.
  intros Hmissing Htag. rewrite (process_in_dir_downloads _ _ _ Hmissing Htag).
  split.
  - by intros ->.
  - intros [u ->] ->. reflexivity.
Qed.

(** X14.  When the processing of an untagged dataset with a missing file
    returns, the archive it downloaded, named by the last segment of the url,
    is no longer on disk. *)
Theorem processed_dataset_leaves_no_archive dataset here w :
  existsb (fun f => negb (path_exists w f)) (default [] (files dataset)) = true ->
  PyStr.truthy (default "" (tag dataset)) = false ->
  snd (process_in_dir E dataset here w) = inr tt ->
  exists url_,
    url dataset = Some url_
    /\ path_exists (fst (process_in_dir E dataset here w))
         (snd (PosixPath.split url_)) = false.
Proof.
  intros Hmissing Htag. rewrite (process_in_dir_downloads _ _ _ Hmissing Htag).
  unfold item.
  destruct (url dataset) as [u|]; [| discriminate].
  destruct (title dataset) as [t|]; [| discriminate].
  unfold bind at 1 2, ret. unfold bind.
  destruct (_url_to_binary_write E u (PosixPath.split u).2 t w) as [w1 [e|[]]];
    [discriminate |].
  destruct (_extract_downloaded_archive E (PosixPath.split u).2 w1)
    as [w2 [e|[]]] eqn:Hextract; [discriminate |].
  intros _. exists u. split; [reflexivity |]. simpl.
  eapply extract_removes, Hextract.
Qed.

(** X15.  A url that ends in a slash has an empty last segment: the request
    is sent, opening the empty file name fails with [FileNotFoundError], there
    is nothing to clean up, and the failure is the outcome; the disk is as it
    was. *)
Theorem url_ending_in_slash dataset here url_ title_ resp w :
  existsb (fun f => negb (path_exists w f)) (default [] (files dataset)) = true ->
  PyStr.truthy (default "" (tag dataset)) = false ->
  url dataset = Some url_ ->
  title dataset = Some title_ ->
  PyStr.endswith url_ "/" = true ->
  requests_get E url_ = inr resp ->
  process_in_dir E dataset here w
  = (announced url_ title_ w, inl (FileNotFoundError "")).
Proof.
  intros Hmissing Htag Hurl Htitle Hslash Hget.
  rewrite (process_in_dir_downloads _ _ _ Hmissing Htag).
  rewrite Hurl, Htitle. unfold item. unfold bind at 1 2, ret.
  rewrite (basename_trailing_slash _ Hslash).
  unfold bind. rewrite (url_to_binary_write_unfold _ _ _ _ _ _ Hget).
  reflexivity.
Qed.

End NeedsDownload.

(** The witness of X13: [Demo.untitled] has a url and no title. *)
Lemma download_needs_url_and_title_witness :
  process_in_dir Demo.env Demo.untitled "/data" Demo.home
  = (Demo.home, inl (KeyError "title")).
Proof.
  destruct (download_needs_url_and_title Demo.env Demo.untitled "/data" Demo.home
              eq_refl eq_refl) as [_ Htitle].
  apply Htitle; [by eexists | reflexivity].
Defined.

(** The witness of X14: [dem.zip] after the terrain dataset was processed. *)
Lemma processed_dataset_leaves_no_archive_witness :
  path_exists (fst (process_in_dir Demo.env Demo.dem "/data" Demo.home)) "dem.zip"
  = false.
Proof.
  assert (snd (process_in_dir Demo.env Demo.dem "/data" Demo.home) = inr tt) as Hrun
    by (vm_compute; reflexivity).
  destruct (processed_dataset_leaves_no_archive Demo.env Demo.dem "/data" Demo.home
              eq_refl eq_refl Hrun) as (u & Hu & Hgone).
  injection Hu as <-. exact Hgone.
Defined.

(** The witness of X15. *)
Lemma url_ending_in_slash_witness :
  process_in_dir Demo.generous Demo.slashed "/data" Demo.home
  = (announced "http://x/dem.zip/" "Slashed" Demo.home, inl (FileNotFoundError "")).
Proof.
  exact (url_ending_in_slash Demo.generous Demo.slashed "/data" "http://x/dem.zip/"
           "Slashed" (mkResponse (HeaderInt 1024) [Chunk Demo.kilobyte]) Demo.home
           eq_refl eq_refl eq_refl eq_refl eq_refl eq_refl).
Defined.

(** ** The whole run *)

Lemma for_each_app_returned {S A} (l1 l2 : list A) (body : A -> M S unit) s s1 :
  for_each l1 body s = (s1, inr tt) ->
  for_each (l1 ++ l2) body s = for_each l2 body s1.
Proof.
  revert s. induction l1 as [|x l1 IH]; intros s; simpl.
  - by intros [= <-].
  - unfold bind. destruct (body x s) as [s0 [e|u]]; [discriminate |]. apply IH.
Qed.

Lemma for_each_app_raised {S A} (l1 l2 : list A) (body : A -> M S unit) s s1 e :
  for_each l1 body s = (s1, inl e) ->
  for_each (l1 ++ l2) body s = (s1, inl e).
Proof.
  revert s. induction l1 as [|x l1 IH]; intros s; simpl.
  - discriminate.
  - unfold bind. destruct (body x s) as [s0 [e0|u]]; [done |]. apply IH.
Qed.

#[local] Instance quiet_preorder : PreOrder quiet.
Proof.
  split.
  - intros w. apply quiet_refl.
  - intros a b c [Ht1 Hf1] [Ht2 Hf2]. split; [congruence |].
    intros k x. rewrite Hf2. apply Hf1.
Qed.

Section WholeRun.

Context (E : Env).

(** X16.  [main] isolates no failure: when a dataset of a topic raises, the
    run ends with that exception in the world that dataset left, and neither
    the datasets after it in the topic nor the later topics are processed. *)
Theorem main_stops_at_first_failure here before topic done_ failing rest later w e :
  snd (main E here (before ++ [(topic, done_)]) w) = inr tt ->
  snd (_process_dataset E failing (PosixPath.join here topic) here
         (fst (main E here (before ++ [(topic, done_)]) w))) = inl e ->
  main E here (before ++ (topic, done_ ++ failing :: rest) :: later) w
  = (fst (_process_dataset E failing (PosixPath.join here topic) here
            (fst (main E here (before ++ [(topic, done_)]) w))),
     inl e).
Proof.
  unfold main.
  set (each := fun entry : string * list Dataset =>
                 for_each (snd entry)
                   (fun d => _process_dataset E d (PosixPath.join here (fst entry)) here)).
  destruct (for_each before each w) as [w0 [e0|[]]] eqn:Hbefore.
  { rewrite (for_each_app_raised _ _ _ _ _ _ Hbefore). discriminate. }
  rewrite !(for_each_app_returned _ _ _ _ _ Hbefore).
  cbn [for_each]. unfold bind, each. cbn [fst snd].
  destruct (for_each done_ _ w0) as [w1 [e1|[]]] eqn:Hdone;
    [simpl; discriminate |].
  rewrite (for_each_app_returned _ _ _ _ _ Hdone).
  cbn [for_each]. unfold ret, bind. simpl. intros _.
  destruct (_process_dataset E failing (PosixPath.join here topic) here w1)
    as [w2 r2]. simpl. by intros ->.
Qed.

(** X17.  [main] ends in the working directory it started in, also when a
    dataset stops the run. *)
Theorem main_restores_cwd here info w :
  PosixPath.isabs (cwd w) = true ->
  cwd (fst (main E here info w)) = cwd w.
Proof.
  intros Habs. destruct (main E here info w) as [w' r] eqn:Hrun.
  exact (main_returns_home E here info _ _ _ Hrun Habs).
Qed.

(** A satisfied dataset keeps every path of the disk. *)
Lemma process_dataset_keeps_paths dataset output_dir here w :
  Forall (fun f => path_exists (inside output_dir w) f = true)
         (default [] (files dataset)) ->
  keeps_paths w (fst (_process_dataset E dataset output_dir here w)).
Proof.
  intros Hall.
  unfold _process_dataset. unfold bind at 1. unfold exists_ at 1, gets at 1.
  unfold bind at 1.
  destruct (PyStr.truthy output_dir) eqn:Hout.
  - rewrite (ensure_output_dir _ _ Hout).
    unfold bind at 1. unfold os_getcwd at 1, gets at 1.
    unfold bind at 1. unfold os_chdir at 1. rewrite Hout.
    unfold with_exit.
    match goal with
    | |- context [process_in_dir E dataset here ?w2] =>
        destruct (process_in_dir E dataset here w2) as [w3 r3] eqn:Hbody
    end.
    apply process_in_dir_present in Hbody as [Hfs Htr].
    2:{ eapply Forall_impl; [exact Hall |]. intros f.
        exact (path_exists_with_output_dir w output_dir f). }
    match goal with
    | |- context [os_chdir ?old w3] =>
        destruct (os_chdir old w3) as [w4 r4] eqn:Hexit
    end.
    apply os_chdir_disk in Hexit as [Hfs4 Htr4].
    assert (keeps_paths w w4) as Hkeep.
    { intros k Hk. rewrite Hfs4, Hfs. simpl. unfold with_output_dir.
      destruct (path_exists w output_dir); [exact Hk |].
      rewrite lookup_insert. case_decide; [by eexists | exact Hk]. }
    by destruct r4.
  - assert (path_exists w output_dir = false) as ->
      by (unfold path_exists; by rewrite Hout).
    simpl. unfold os_makedirs, os_mkdir. rewrite Hout. simpl. by intros k.
Qed.

Lemma inside_present_mono output_dir w w' f :
  cwd w' = cwd w -> keeps_paths w w' ->
  path_exists (inside output_dir w) f = true ->
  path_exists (inside output_dir w') f = true.
Proof.
  intros Hcwd Hkeep. unfold inside, path_exists, abspath. simpl. rewrite Hcwd.
  intros [Ht Hl]%andb_true_iff. apply bool_decide_eq_true in Hl.
  apply andb_true_iff. split; [exact Ht |]. apply bool_decide_eq_true. auto.
Qed.

(** The datasets of one topic, all satisfied. *)
Lemma satisfied_topic_is_quiet output_dir here datasets w :
  PosixPath.isabs (cwd w) = true ->
  Forall (fun d => Forall (fun f => path_exists (inside output_dir w) f = true)
                     (default [] (files d))) datasets ->
  let w' := fst (for_each datasets (fun d => _process_dataset E d output_dir here) w) in
  quiet w w' /\ keeps_paths w w' /\ cwd w' = cwd w.
Proof.
  revert w. induction datasets as [|d rest IH]; intros w Habs Hall; simpl.
  - split; [apply quiet_refl |]. split; [by intros k | reflexivity].
  - apply Forall_cons in Hall as [Hd Hrest].
    pose proof (process_dataset_quiet E d output_dir here w Hd) as Hq.
    pose proof (process_dataset_keeps_paths d output_dir here w Hd) as Hk.
    pose proof (process_dataset_returns_home E d output_dir here w) as Hc.
    unfold bind.
    destruct (_process_dataset E d output_dir here w) as [w1 [e|[]]] eqn:Hrun;
      simpl in Hq, Hk.
    + simpl. split; [exact Hq |]. split; [exact Hk |]. exact (Hc _ _ eq_refl Habs).
    + pose proof (Hc _ _ eq_refl Habs) as Hcwd.
      destruct (IH w1) as (Hq' & Hk' & Hc').
      * by rewrite Hcwd.
      * eapply Forall_impl; [exact Hrest |]. intros d' Hd'.
        eapply Forall_impl; [exact Hd' |]. intros f.
        by apply inside_present_mono.
      * split; [by transitivity w1 |]. split; [| congruence].
        intros k Hk0. by apply Hk', Hk.
Qed.

(** X18.  When every file that the manifest declares is in place in the
    directory of its topic, the whole run sends no request and unpacks
    nothing: the trace is as before and no file is created, changed or
    removed, whatever else the descriptors hold. *)
Theorem satisfied_run_is_quiet here info w :
  PosixPath.isabs (cwd w) = true ->
  Forall (fun entry =>
            Forall (fun d =>
                      Forall (fun f => path_exists
                                         (inside (PosixPath.join here (fst entry)) w) f
                                       = true)
                             (default [] (files d)))
                   (snd entry)) info ->
  quiet w (fst (main E here info w)).
Proof.
  intros Habs Hall.
  assert (quiet w (fst (main E here info w))
          /\ keeps_paths w (fst (main E here info w))
          /\ cwd (fst (main E here info w)) = cwd w) as [Hq _]; [| exact Hq].
  revert w Habs Hall. unfold main.
  induction info as [|[topic datasets] rest IH]; intros w Habs Hall; simpl.
  - split; [apply quiet_refl |]. split; [by intros k | reflexivity].
  - apply Forall_cons in Hall as [Htopic Hrest]. simpl in Htopic.
    destruct (satisfied_topic_is_quiet (PosixPath.join here topic) here datasets w
                Habs Htopic) as (Hq1 & Hk1 & Hc1).
    unfold bind.
    destruct (for_each datasets _ w) as [w1 [e|[]]] eqn:Hrun; simpl in Hq1, Hk1, Hc1.
    + simpl. split; [exact Hq1 |]. split; [exact Hk1 | exact Hc1].
    + destruct (IH w1) as (Hq2 & Hk2 & Hc2).
      * by rewrite Hc1.
      * eapply Forall_impl; [exact Hrest |]. intros [topic' ds'] Hds. simpl in *.
        eapply Forall_impl; [exact Hds |]. intros d' Hd'.
        eapply Forall_impl; [exact Hd' |]. intros f.
        by apply inside_present_mono.
      * split; [by transitivity w1 |]. split; [| congruence].
        intros k Hk0. by apply Hk2, Hk1.
Qed.

End WholeRun.

(** The witness of X16: the transfer of [cut.zip] ends the run; the trace
    holds no request after it. *)
Lemma main_stops_at_first_failure_witness :
  snd (main Demo.env "/data" Demo.manifest Demo.complete) = inl Demo.reset
  /\ trace (fst (main Demo.env "/data" Demo.manifest Demo.complete))
     = [EvGet "http://x/cut.zip"].
Proof.
  assert (snd (main Demo.env "/data" ([("terrain", [Demo.dem])] ++ [("census", [Demo.dem])])
                 Demo.complete) = inr tt) as Hbefore by (vm_compute; reflexivity).
  assert (snd (_process_dataset Demo.env Demo.cut (PosixPath.join "/data" "census")
                 "/data"
                 (fst (main Demo.env "/data"
                         ([("terrain", [Demo.dem])] ++ [("census", [Demo.dem])])
                         Demo.complete))) = inl Demo.reset) as Hfail
    by (vm_compute; reflexivity).
  pose proof (main_stops_at_first_failure Demo.env "/data" [("terrain", [Demo.dem])]
                "census" [Demo.dem] Demo.cut [Demo.dem] [("later", [Demo.dem])]
                Demo.complete Demo.reset Hbefore Hfail) as Hrun.
  match type of Hrun with
  | _ = ?outcome =>
      assert (main Demo.env "/data" Demo.manifest Demo.complete = outcome) as Hmain
        by exact Hrun
  end.
  rewrite Hmain. split; [reflexivity |]. vm_compute. reflexivity.
Defined.

(** The witness of X17: the same run ends in [/data]. *)
Lemma main_restores_cwd_witness :
  cwd (fst (main Demo.env "/data" Demo.manifest Demo.complete)) = "/data".
Proof.
  exact (main_restores_cwd Demo.env "/data" Demo.manifest Demo.complete eq_refl).
Defined.

(** The witness of X18: the first two topics without the cut transfer. *)
Lemma satisfied_run_is_quiet_witness :
  trace (fst (main Demo.env "/data"
                [("terrain", [Demo.dem]); ("census", [Demo.dem; Demo.bare])]
                Demo.complete)) = [].
Proof.
  assert (Forall (fun entry =>
            Forall (fun d =>
                      Forall (fun f => path_exists
                                         (inside (PosixPath.join "/data" (fst entry))
                                            Demo.complete) f = true)
                             (default [] (files d)))
                   (snd entry))
            [("terrain", [Demo.dem]); ("census", [Demo.dem; Demo.bare])]) as Hall
    by (repeat constructor).
  exact (proj1 (satisfied_run_is_quiet Demo.env "/data" _ Demo.complete eq_refl Hall)).
Defined.

(** ** How often the bar recomputes and writes *)

Section Throttle.

Context (E : Env).

(** X19.  A call of [show] that comes no more than [ETA_INTERVAL] after the
    last recomputation leaves the window of samples, the estimate, its text
    and the time of the last recomputation as they are. *)
Theorem eta_waits_for_the_interval progress count b w :
  Qle_bool (wall E (ticks w) - Bar.etadelta b) ETA_INTERVAL = true ->
  let b' := fst (fst (Bar.show E progress count (b, w))) in
  Bar.ittimes b' = Bar.ittimes b
  /\ Bar.eta b' = Bar.eta b
  /\ Bar.etadisp b' = Bar.etadisp b
  /\ Bar.etadelta b' = Bar.etadelta b.
Proof.
  intros Hsoon.
  destruct (Bar.show E progress count (b, w)) as [[b' w'] r] eqn:Hrun.
  simpl. revert Hrun.
  unfold Bar.show, bind, ret, raise, Bar.upd, Bar.field, Bar.io, gets, modify,
    time_time, STREAM_write.
  simpl. destruct count as [c|]; simpl.
  - rewrite Hsoon. simpl.
    repeat (case_match; simpl); intros Hrun; simplify_eq/=; done.
  - destruct (Bar.expected_size b) as [q|]; simpl.
    + rewrite Hsoon. simpl.
      repeat (case_match; simpl); intros Hrun; simplify_eq/=; done.
    + intros Hrun; simplify_eq/=; done.
Qed.

(** X20.  A call of [show] writes at most one line to [STREAM], and it
    writes one only when the bar is not hidden and the progress is a multiple
    of [every] or equals the expected size. *)
Theorem show_writes_when_due progress b w q :
  Bar.expected_size b = Some q ->
  let w' := snd (fst (Bar.show E progress None (b, w))) in
  stream w' = stream w
  \/ (Bar.hide b = false
      /\ ((progress mod Bar.every b = 0)%Z \/ (inject_Z progress == q)%Q)
      /\ exists line, stream w' = stream w ++ [line]).
Proof.
  intros Hsize.
  destruct (Bar.show E progress None (b, w)) as [[b' w'] r] eqn:Hrun.
  simpl. revert Hrun.
  unfold Bar.show, bind, ret, raise, Bar.upd, Bar.field, Bar.io, gets, modify,
    time_time, STREAM_write.
  simpl. rewrite Hsize. simpl.
  repeat (case_match; simpl); intros Hrun; simplify_eq/=;
    first
      [ by left
      | right; split; [done |]; split; [| by eexists];
        match goal with
        | H : _ || _ = true |- _ =>
            apply orb_true_iff in H as [H%Z.eqb_eq | H%Qeq_bool_iff]; auto
        end ].
Qed.

End Throttle.

(** The witness of X19: within a tenth of a second of the constructor. *)
Lemma eta_waits_for_the_interval_witness :
  exists w1 self,
    Bar.__init__ Demo.brisk "" 32 None BAR_EMPTY_CHAR BAR_FILLED_CHAR (Some 100%Q) 1
      Demo.home = (w1, inr self)
    /\ Bar.ittimes (fst (fst (Bar.show Demo.brisk 1 None (self, w1)))) = [].
Proof.
  let run := eval vm_compute in
    (Bar.__init__ Demo.brisk "" 32 None BAR_EMPTY_CHAR BAR_FILLED_CHAR (Some 100%Q) 1
       Demo.home) in
  lazymatch run with
  | (?w1, inr ?self) => exists w1, self
  end.
  split; [vm_compute; reflexivity |].
  match goal with
  | |- Bar.ittimes (fst (fst (Bar.show _ _ _ (?self, ?w1)))) = _ =>
      assert (Qle_bool (wall Demo.brisk (ticks w1) - Bar.etadelta self) ETA_INTERVAL
              = true) as Hsoon by (vm_compute; reflexivity);
      exact (proj1 (eta_waits_for_the_interval Demo.brisk 1 None self w1 Hsoon))
  end.
Defined.

(** The witness of X20: with [every=1000], the progress 500 of 2000 is not
    due. *)
Lemma show_writes_when_due_witness :
  exists w1 self,
    Bar.__init__ Demo.env "" 32 None BAR_EMPTY_CHAR BAR_FILLED_CHAR (Some 2000%Q) 1000
      Demo.home = (w1, inr self)
    /\ stream (snd (fst (Bar.show Demo.env 500 None (self, w1)))) = stream w1.
Proof.
  let run := eval vm_compute in
    (Bar.__init__ Demo.env "" 32 None BAR_EMPTY_CHAR BAR_FILLED_CHAR (Some 2000%Q) 1000
       Demo.home) in
  lazymatch run with
  | (?w1, inr ?self) => exists w1, self
  end.
  split; [vm_compute; reflexivity |].
  match goal with
  | |- stream (snd (fst (Bar.show _ _ _ (?self, ?w1)))) = _ =>
      destruct (show_writes_when_due Demo.env 500 self w1 2000%Q eq_refl)
        as [Hsame | (_ & [Hmod | Heq] & _)]
  end.
  - exact Hsame.
  - vm_compute in Hmod. discriminate.
  - vm_compute in Heq. discriminate.
Defined.

(** ** A 7z archive under a bare name *)

Lemma cut_without_slash l :
  PosixPath.slash ∉ l -> PosixPath.cut l = ([], l).
Proof.
  induction l as [|c l IH]; [reflexivity |].
  intros [Hc Hl]%not_elem_of_cons. cbn [PosixPath.cut]. rewrite (IH Hl).
  by rewrite bool_decide_eq_false_2 by congruence.
Qed.

Lemma cut_tail_without_slash l : PosixPath.slash ∉ snd (PosixPath.cut l).
Proof.
  induction l as [|c l IH]; [apply not_elem_of_nil |].
  cbn [PosixPath.cut]. destruct (PosixPath.cut l) as [h t]. simpl in IH.
  destruct h as [|x h]; [| exact IH].
  case_bool_decide; [exact IH |].
  simpl. apply not_elem_of_cons. split; [congruence | exact IH].
Qed.

Lemma chars_without_slash s :
  PyStr.contains s "/" = false -> PosixPath.slash ∉ PyStr.chars s.
Proof.
  unfold PyStr.contains. generalize (PyStr.chars s). intros l.
  induction l as [|c l IH]; [intros _; apply not_elem_of_nil |].
  cbn [PyStr.contains_chars]. intros [Hhere Hlater]%orb_false_iff.
  apply not_elem_of_cons. split; [| by apply IH].
  apply bool_decide_eq_false in Hhere. intros <-. apply Hhere.
  change (PyStr.chars "/") with [PosixPath.slash]. simpl. by destruct l.
Qed.

Lemma dirname_without_slash l :
  PosixPath.slash ∉ l -> PosixPath.dirname (PyStr.of_chars l) = "".
Proof.
  intros Hl. unfold PosixPath.dirname.
  rewrite String.list_ascii_of_string_of_list_ascii.
  by rewrite (cut_without_slash _ Hl).
Qed.

Lemma join_empty_without_slash l :
  PosixPath.slash ∉ l -> PosixPath.join "" (PyStr.of_chars l) = PyStr.of_chars l.
Proof.
  intros Hl. unfold PosixPath.join, PyStr.startswith.
  rewrite String.list_ascii_of_string_of_list_ascii.
  change (PyStr.chars "/") with [PosixPath.slash].
  rewrite bool_decide_eq_false_2; [reflexivity |].
  destruct l as [|c l]; [discriminate |].
  apply not_elem_of_cons in Hl as [Hc _]. simpl. destruct l; congruence.
Qed.

Section BareArchive.

Context (E : Env).

Lemma write_member_nowhere member w :
  write_member E "" member w = (w, inl (FileNotFoundError "")).
Proof.
  unfold write_member. cbv zeta. unfold PosixPath.basename.
  pose proof (cut_tail_without_slash (PyStr.chars (fst member))) as Htail.
  rewrite (join_empty_without_slash _ Htail), (dirname_without_slash _ Htail).
  reflexivity.
Qed.

(** X21.  A 7z archive that is named without a directory cannot be unpacked:
    the directory to write into is the empty path, which does not exist and
    cannot be made, so the first member fails with [FileNotFoundError] and
    nothing is written.  This is the path of an untagged dataset, whose
    archive is named by the last segment of its url. *)
Theorem bare_7z_cannot_be_unpacked fname w raw member members :
  PyStr.truthy fname = true ->
  PyStr.contains fname "/" = false ->
  fs w !! abspath w fname = Some (File raw) ->
  Archive7z E raw = inr (member :: members) ->
  _unzip_7z E fname w
  = (add_trace (EvExtract "7z" fname) w, inl (FileNotFoundError "")).
Proof.
  intros Ht Hbare Hfile Harc.
  assert (PosixPath.dirname fname = "") as Hdir.
  { unfold PosixPath.dirname.
    by rewrite (cut_without_slash _ (chars_without_slash _ Hbare)). }
  unfold _unzip_7z. rewrite Hdir.
  unfold bind at 1, emit, modify. unfold bind at 1, on_error, read_rb.
  unfold bind at 1. rewrite Ht. simpl negb. cbv iota.
  change (fs (add_trace (EvExtract "7z" fname) w)) with (fs w).
  change (abspath (add_trace (EvExtract "7z" fname) w) fname) with (abspath w fname).
  rewrite Hfile, Harc. unfold ret. cbn [for_each]. unfold bind.
  by rewrite write_member_nowhere.
Qed.

End BareArchive.

(** The witness of X21: [a.7z] in the working directory. *)
Lemma bare_7z_cannot_be_unpacked_witness :
  _unzip_7z Demo.env "a.7z" Demo.bare_archive
  = (add_trace (EvExtract "7z" "a.7z") Demo.bare_archive, inl (FileNotFoundError "")).
Proof.
  exact (bare_7z_cannot_be_unpacked Demo.env "a.7z" Demo.bare_archive "ground level"
           ("sub/notes.txt", "ground level") [] eq_refl eq_refl eq_refl eq_refl).
Defined.
